(** * HeAT distributed tensors: the operation dispatchers of [heat/core/operations.py]

    A shallow embedding of [__binary_op], [__local_op] and [__reduce_op].
    DNDarray objects live in a heap and are passed by reference, the
    dispatchers run in a state-and-exception monad whose state also records
    the observable events (warnings, collective calls, invocations of the
    element-wise operation). *)

From Stdlib Require Import ZArith Lia Bool.
From stdpp Require Import base list option.

Open Scope nat_scope.

(** ** Element types ([heat.core.types]) *)

Module types.

(** Modelled from the spec: the module [types] is not part of the sources.
    The element types are the fixed set of numeric kinds of section 3 and
    [promote_types] is the join of the total order of section 4.2
    (bool < integers by width and signedness < floating types by width). *)
Inductive heat_type :=
| bool | uint8 | int8 | int16 | int32 | int64 | float32 | float64.

#[global] Instance heat_type_eq_dec : EqDecision heat_type.
Proof. solve_decision. Defined.

Definition type_rank (t : heat_type) : nat :=
  match t with
  | bool => 0 | uint8 => 1 | int8 => 2 | int16 => 3
  | int32 => 4 | int64 => 5 | float32 => 6 | float64 => 7
  end.

Definition promote_types (t1 t2 : heat_type) : heat_type :=
  if type_rank t1 <? type_rank t2 then t2 else t1.

(** [canonical_heat_type] maps a type-like object to the heat type; the
    buffers below are tagged with heat types already. *)
Definition canonical_heat_type (t : heat_type) : heat_type := t.

End types.

(** ** The communication layer ([heat.core.communication]) *)

Module MPI.

(** Modelled from the spec: the communicator surface of section 6,
    [rank], [size] and [is_distributed] (more than one participant). *)
Record Communication := { rank : nat; size : nat }.

#[global] Instance Communication_eq_dec : EqDecision Communication.
Proof. solve_decision. Defined.

Definition is_distributed (c : Communication) : Datatypes.bool := 1 <? size c.

Inductive Op := SUM | PROD | MIN | MAX | LAND | LOR | BAND | BOR.

#[global] Instance Op_eq_dec : EqDecision Op.
Proof. solve_decision. Defined.

End MPI.

(** ** Exceptions and results *)

Inductive exn :=
| TypeError | NotImplementedError | ValueError | IndexError
| ZeroDivisionError | UnboundLocalError | ReferenceError
| ShapeError | AxisError | RuntimeError.

#[global] Instance exn_eq_dec : EqDecision exn.
Proof. solve_decision. Defined.

Inductive result (A : Type) :=
| Ok (a : A)
| Raise (e : exn).
Arguments Ok {A} a.
Arguments Raise {A} e.

(** ** Shapes and axes ([heat.core.stride_tricks]) *)

Abbreviation shape := (list nat).
Abbreviation loc := nat.

Module stride_tricks.

(** Modelled from the spec: [broadcast_shape] of section 4.1. The shapes are
    right-aligned, the shorter one is padded with leading 1s, every aligned
    pair must be equal or contain a 1, and the output extent is the
    maximum of the pair. *)
Fixpoint broadcast_aligned (a b : shape) : result shape :=
  match a, b with
  | x :: a', y :: b' =>
      if (x =? y) || (x =? 1) || (y =? 1) then
        match broadcast_aligned a' b' with
        | Ok s => Ok (Nat.max x y :: s)
        | Raise e => Raise e
        end
      else Raise ShapeError
  | _, _ => Ok []
  end.

Definition broadcast_shape (shape_a shape_b : shape) : result shape :=
  let n := Nat.max (length shape_a) (length shape_b) in
  broadcast_aligned (replicate (n - length shape_a) 1 ++ shape_a)
                    (replicate (n - length shape_b) 1 ++ shape_b).

(** The [axis] keyword as a caller passes it, and after sanitation. *)
Inductive axis_arg := AxisNone | AxisInt (a : Z) | AxisTuple (l : list Z).
Inductive axis_t := AxNone | AxInt (a : nat) | AxTuple (l : list nat).

Definition normalize_index (rank : nat) (a : Z) : option nat :=
  if ((- Z.of_nat rank <=? a) && (a <? Z.of_nat rank))%Z
  then Some (Z.to_nat (a mod Z.of_nat rank))
  else None.

(** Modelled from the spec: [sanitize_axis] of section 4.1. It accepts
    [None], one integer or a tuple of integers, normalizes negative
    indices modulo the rank and fails with [AxisError] when a value is
    outside [-rank, rank) or when a (normalized) value occurs twice. *)
Definition sanitize_axis (s : shape) (axis : axis_arg) : result axis_t :=
  match axis with
  | AxisNone => Ok AxNone
  | AxisInt a =>
      match normalize_index (length s) a with
      | Some d => Ok (AxInt d)
      | None => Raise AxisError
      end
  | AxisTuple l =>
      match mapM (normalize_index (length s)) l with
      | Some ds => if bool_decide (NoDup ds) then Ok (AxTuple ds) else Raise AxisError
      | None => Raise AxisError
      end
  end.

End stride_tricks.

(** ** Local buffers (torch tensors) *)

Section Buffers.
Context {E : Type}.

(** A buffer knows its shape, the element type it is tagged with and its
    elements in row-major order. *)
Record tensor := { tshape : shape; tdtype : types.heat_type; tdata : list E }.

Definition numel (s : shape) : nat := foldr Nat.mul 1 s.

(** [t.reshape(-1)]: one axis holding every element. *)
Definition reshape_flat (t : tensor) : tensor :=
  {| tshape := [numel (tshape t)]; tdtype := tdtype t; tdata := tdata t |}.

End Buffers.
Arguments tensor E : clear implicits.

(** What the dispatchers take from their collaborators: the element
    representation and conversion of the buffer library, its [repeat], and
    what the collectives deliver into a buffer on this process. *)
Class Runtime := {
  elem : Type;
  cast_elem : types.heat_type -> elem -> elem;
  zero_elem : elem;
  torch_repeat : tensor elem -> list nat -> tensor elem;
  Bcast_recv : MPI.Communication -> tensor elem -> list elem;
  Allreduce_recv : MPI.Communication -> MPI.Op -> tensor elem -> list elem;
  MPI_WORLD : MPI.Communication;
  default_device : option nat
}.

Abbreviation buffer := (tensor elem).

Section Model.
Context {R : Runtime}.

(** [t.type(dtype)]: a copy of the buffer converted to [dtype]. *)
Definition type_ (t : buffer) (ty : types.heat_type) : buffer :=
  {| tshape := tshape t; tdtype := ty; tdata := map (cast_elem ty) (tdata t) |}.

(** [torch.zeros(shape, dtype=...)]. *)
Definition zeros (s : shape) (ty : types.heat_type) : buffer :=
  {| tshape := s; tdtype := ty; tdata := replicate (numel s) (cast_elem ty zero_elem) |}.

(** [comm.Bcast(t)] and [comm.Allreduce(MPI.IN_PLACE, t, op)] overwrite the
    elements of an existing buffer; shape and element type stay. *)
Definition filled (t : buffer) (d : list elem) : buffer :=
  {| tshape := tshape t; tdtype := tdtype t; tdata := d |}.

(** *** The distributed array handle ([heat.core.dndarray.DNDarray]) *)

Record DNDarray := {
  array : buffer;              (* _DNDarray__array  *)
  gshape : shape;              (* _DNDarray__gshape *)
  dtype : types.heat_type;     (* _DNDarray__dtype  *)
  split : option nat;          (* _DNDarray__split  *)
  device : option nat;         (* _DNDarray__device *)
  comm : MPI.Communication     (* _DNDarray__comm   *)
}.

Definition lshape (t : DNDarray) : shape := tshape (array t).

Definition set_array (t : DNDarray) (a : buffer) : DNDarray :=
  {| array := a; gshape := gshape t; dtype := dtype t; split := split t;
     device := device t; comm := comm t |}.
Definition set_dtype (t : DNDarray) (ty : types.heat_type) : DNDarray :=
  {| array := array t; gshape := gshape t; dtype := ty; split := split t;
     device := device t; comm := comm t |}.
Definition set_split (t : DNDarray) (s : option nat) : DNDarray :=
  {| array := array t; gshape := gshape t; dtype := dtype t; split := s;
     device := device t; comm := comm t |}.
Definition set_device (t : DNDarray) (d : option nat) : DNDarray :=
  {| array := array t; gshape := gshape t; dtype := dtype t; split := split t;
     device := d; comm := comm t |}.
Definition set_comm (t : DNDarray) (c : MPI.Communication) : DNDarray :=
  {| array := array t; gshape := gshape t; dtype := dtype t; split := split t;
     device := device t; comm := c |}.

(** Modelled from the spec: [DNDarray.astype] is not part of the sources;
    it returns a new handle whose buffer is converted to the given type. *)
Definition astype (t : DNDarray) (ty : types.heat_type) : DNDarray :=
  set_dtype (set_array t (type_ (array t) ty)) ty.

(** *** Python values handed to the dispatchers *)

Inductive pyvalue :=
| PyNone
| PyNum (ty : types.heat_type) (v : elem)  (* a numeric scalar and its inferred type *)
| PyScalar                                 (* np.isscalar holds, factories.array rejects it: a str *)
| PyRef (l : loc)                          (* a DNDarray object *)
| PyObj.                                   (* anything else: a list, a dict, ... *)

Definition np_isscalar (v : pyvalue) : Datatypes.bool :=
  match v with
  | PyNum _ _ | PyScalar => true
  | _ => false
  end.

(** Modelled from the spec: [factories.array([v])] is not part of the
    sources. A numeric scalar becomes a single-element unsplit handle of
    its inferred type; the [try] blocks of the callers show that other
    scalars make it raise [ValueError] or [TypeError]. *)
Definition factories_array (v : pyvalue) : result DNDarray :=
  match v with
  | PyNum ty x =>
      Ok {| array := {| tshape := [1]; tdtype := ty; tdata := [x] |};
            gshape := [1]; dtype := ty; split := None;
            device := default_device; comm := MPI_WORLD |}
  | _ => Raise ValueError
  end.

(** *** Observable events *)

Inductive operand := first_operator | second_operator.

Inductive event :=
| Warn (o : operand)                                (* warnings.warn('Broadcasting requires ...') *)
| Bcast (c : MPI.Communication) (l : loc)           (* c.Bcast(t), t the object at l *)
| Allreduce (c : MPI.Communication) (op : MPI.Op)   (* c.Allreduce(MPI.IN_PLACE, partial, op) *)
| Apply (a b : buffer).                             (* operation(a, b) in __binary_op *)

(** *** State and the dispatcher monad

    Objects are passed by reference: a handle is a location of the heap
    and an assignment to a field of a handle is seen through every
    reference to it. A handle holds its local buffer by value; that two
    handles hold one and the same tensor object (as after lines 207 and
    230-238 for an empty tuple of axes) is not tracked, and the statements
    on a write through [out=] (line 181) speak of [out] only. *)

Record state := { heap : list DNDarray; trace : list event }.

Definition M (A : Type) : Type := state -> result A * state.

Definition ret {A} (a : A) : M A := fun st => (Ok a, st).
Definition raise {A} (e : exn) : M A := fun st => (Raise e, st).
Definition bind {A B} (m : M A) (k : A -> M B) : M B :=
  fun st => match m st with
            | (Ok a, st') => k a st'
            | (Raise e, st') => (Raise e, st')
            end.

Definition lift {A} (r : result A) : M A := fun st => (r, st).

Definition emit (e : event) : M unit :=
  fun st => (Ok tt, {| heap := heap st; trace := trace st ++ [e] |}).

(** Reading the object behind a reference. A reference that passed
    [isinstance] is never dangling, objects are not deleted. *)
Definition deref (l : loc) : M DNDarray :=
  fun st => match heap st !! l with
            | Some t => (Ok t, st)
            | None => (Raise ReferenceError, st)
            end.

Definition store (l : loc) (t : DNDarray) : M unit :=
  fun st => (Ok tt, {| heap := <[l := t]> (heap st); trace := trace st |}).

(** [dndarray.DNDarray(...)]: a new object. *)
Definition new_DNDarray (a : buffer) (g : shape) (ty : types.heat_type)
    (s : option nat) (d : option nat) (c : MPI.Communication) : M pyvalue :=
  fun st => (Ok (PyRef (length (heap st))),
             {| heap := heap st ++ [{| array := a; gshape := g; dtype := ty;
                                       split := s; device := d; comm := c |}];
                trace := trace st |}).

(** [isinstance(v, dndarray.DNDarray)]. *)
Definition isinstance_DNDarray (v : pyvalue) : M (option loc) :=
  fun st => match v with
            | PyRef l => (Ok (if decide (l < length (heap st)) then Some l else None), st)
            | _ => (Ok None, st)
            end.

(** [s[i]] on a tuple. *)
Definition index (s : shape) (i : nat) : M nat :=
  match s !! i with
  | Some n => ret n
  | None => raise IndexError
  end.

End Model.

Declare Scope dispatch_scope.
Delimit Scope dispatch_scope with dispatch.
Notation "'let*' x ':=' m 'in' k" := (bind m (fun x => k))
  (at level 10, x pattern, m at level 100, k at level 200) : dispatch_scope.
Notation "m ;;; k" := (bind m (fun _ => k))
  (at level 100, right associativity) : dispatch_scope.
Open Scope dispatch_scope.

(** ** The dispatchers *)

Section Dispatchers.
Context {R : Runtime}.

(** [try: t = factories.array([t]) except (ValueError, TypeError): raise TypeError]. *)
Definition try_array (v : pyvalue) : M DNDarray :=
  match factories_array v with
  | Ok t => ret t
  | Raise _ => raise TypeError
  end.

(** Lines 88-93 and 95-100: the replication of a split operand of extent 1. *)
Definition bcast_if_needed (o : operand) (l : loc) : M unit :=
  let* t := deref l in
  match split t with
  | Some s =>
      let* extent := index (gshape t) s in
      if (extent =? 1) && MPI.is_distributed (comm t) then
        emit (Warn o) ;;;
        (if 0 <? MPI.rank (comm t)
         then store l (set_array t (zeros (gshape t) (dtype t)))
         else ret tt) ;;;
        let* t := deref l in
        emit (Bcast (comm t) l) ;;;
        store l (set_array t (filled (array t) (Bcast_recv (comm t) (array t))))
      else ret tt
  | None => ret tt
  end.

(** [operation(t1.type(promoted), t2.type(promoted))]. The callable is
    the caller's: it returns a buffer or raises, as [torch.add] does with
    [RuntimeError] on two buffers whose shapes do not broadcast. *)
Definition apply_operation (operation : buffer -> buffer -> result buffer)
    (promoted_type : types.heat_type) (t1 t2 : DNDarray) : M buffer :=
  let a := type_ (array t1) promoted_type in
  let b := type_ (array t2) promoted_type in
  emit (Apply a b) ;;;
  lift (operation a b).

(** Lines 111-123. *)
Definition local_result (operation : buffer -> buffer -> result buffer)
    (t1 t2 : DNDarray) : M buffer :=
  let promoted_type := types.promote_types (dtype t1) (dtype t2) in
  match split t1 with
  | Some s =>
      let* n := index (lshape t1) s in
      if n =? 0 then ret (type_ (array t1) promoted_type)
      else apply_operation operation promoted_type t1 t2
  | None =>
      if bool_decide (split t1 <> None) then
        match split t2 with
        | Some s =>
            let* n := index (lshape t2) s in
            if n =? 0 then ret (type_ (array t2) promoted_type)
            else apply_operation operation promoted_type t1 t2
        | None => raise TypeError
        end
      else apply_operation operation promoted_type t1 t2
  end.

(** The operands after normalization, with the layout of the output. *)
Record normalized := {
  n_t1 : DNDarray;
  n_t2 : DNDarray;
  output_shape : shape;
  output_split : option nat;
  output_device : option nat;
  output_comm : MPI.Communication
}.

Definition like (t1 t2 out : DNDarray) : normalized :=
  {| n_t1 := t1; n_t2 := t2; output_shape := gshape out;
     output_split := split out; output_device := device out;
     output_comm := comm out |}.

(** Lines 38-109. *)
Definition normalize (t1 t2 : pyvalue) : M normalized :=
  if np_isscalar t1 then
    let* a1 := try_array t1 in
    let* n :=
      (if np_isscalar t2 then
         let* a2 := try_array t2 in
         ret {| n_t1 := a1; n_t2 := a2; output_shape := [1];
                output_split := None; output_device := None;
                output_comm := MPI_WORLD |}
       else
         let* r2 := isinstance_DNDarray t2 in
         match r2 with
         | Some l2 => let* a2 := deref l2 in ret (like a1 a2 a2)
         | None => raise TypeError
         end) in
    if bool_decide (dtype (n_t1 n) <> dtype (n_t2 n))
    then ret {| n_t1 := astype (n_t1 n) (dtype (n_t2 n)); n_t2 := n_t2 n;
                output_shape := output_shape n; output_split := output_split n;
                output_device := output_device n; output_comm := output_comm n |}
    else ret n
  else
    let* r1 := isinstance_DNDarray t1 in
    match r1 with
    | Some l1 =>
        let* n :=
          (if np_isscalar t2 then
             let* a2 := try_array t2 in
             let* a1 := deref l1 in
             ret (like a1 a2 a1)
           else
             let* r2 := isinstance_DNDarray t2 in
             match r2 with
             | Some l2 =>
                 let* a1 := deref l1 in
                 let* a2 := deref l2 in
                 let* s :=
                   (if bool_decide (split a2 = None \/ split a2 = split a1)
                    then lift (stride_tricks.broadcast_shape (gshape a1) (gshape a2))
                    else raise NotImplementedError) in
                 bcast_if_needed first_operator l1 ;;;
                 bcast_if_needed second_operator l2 ;;;
                 let* a1' := deref l1 in
                 let* a2' := deref l2 in
                 ret {| n_t1 := a1'; n_t2 := a2'; output_shape := s;
                        output_split := split a1; output_device := device a1;
                        output_comm := comm a1 |}
             | None => raise TypeError
             end) in
        if bool_decide (dtype (n_t2 n) <> dtype (n_t1 n))
        then ret {| n_t1 := n_t1 n; n_t2 := astype (n_t2 n) (dtype (n_t1 n));
                    output_shape := output_shape n; output_split := output_split n;
                    output_device := output_device n; output_comm := output_comm n |}
        else ret n
    | None => raise NotImplementedError
    end.

(** [__binary_op(operation, t1, t2)]. *)
Definition binary_op (operation : buffer -> buffer -> result buffer)
    (t1 t2 : pyvalue) : M pyvalue :=
  let* n := normalize t1 t2 in
  let* result := local_result operation (n_t1 n) (n_t2 n) in
  new_DNDarray result (output_shape n) (types.canonical_heat_type (dtype (n_t1 n)))
               (output_split n) (output_device n) (output_comm n).

Definition is_None (v : pyvalue) : Datatypes.bool :=
  match v with PyNone => true | _ => false end.

(** [[int(a / b) for a, b in zip(broadcast_shape, padded_shape)]]; the
    quotients are exact wherever the broadcast succeeded with [b <> 0]. *)
Fixpoint multiples_of (broadcast_shape padded_shape : shape) : M (list nat) :=
  match broadcast_shape, padded_shape with
  | a :: bs, b :: ps =>
      if b =? 0 then raise ZeroDivisionError
      else let* ms := multiples_of bs ps in ret (a / b :: ms)
  | _, _ => ret []
  end.

(** [__local_op(operation, x, out)]. The callable is used in two ways:
    [operation(t)] returns a new buffer, [operation(t, out=b)] writes into
    the buffer [b]; the second argument is that buffer, when given, and
    the result is what the buffer holds afterwards. Either call can raise,
    as [torch.abs] does with [RuntimeError] for a buffer [b] of another
    element type. *)
Definition local_op (operation : buffer -> option buffer -> result buffer)
    (x out : pyvalue) : M pyvalue :=
  let* rx := isinstance_DNDarray x in
  match rx with
  | None => raise TypeError
  | Some lx =>
      let* ro := isinstance_DNDarray out in
      if negb (is_None out) && negb (bool_decide (is_Some ro)) then raise TypeError
      else
        let* tx := deref lx in
        let promoted_type := types.promote_types (dtype tx) types.float32 in
        match ro with
        | None =>
            let* result := lift (operation (type_ (array tx) promoted_type) None) in
            new_DNDarray result (gshape tx) promoted_type (split tx) (device tx) (comm tx)
        | Some lo =>
            let* tout := deref lo in
            let* broadcast_shape :=
              lift (stride_tricks.broadcast_shape (lshape tx) (lshape tout)) in
            let padded_shape :=
              replicate (length broadcast_shape - length (lshape tx)) 1 ++ lshape tx in
            let* multiples := multiples_of broadcast_shape padded_shape in
            let needs_repetition := existsb (fun multiple => 1 <? multiple) multiples in
            let casted := type_ (array tx) promoted_type in
            let* written :=
              lift (operation
                      (if needs_repetition then torch_repeat casted multiples else casted)
                      (Some (array tout))) in
            store lo (set_array tout written) ;;;
            ret out
        end
  end.

(** [partial[0].dtype]: indexing a buffer without axes or with an empty
    leading axis raises. *)
Definition first_dtype (partial : buffer) : result types.heat_type :=
  match tshape partial with
  | n :: _ => if n =? 0 then Raise IndexError else Ok (tdtype partial)
  | [] => Raise IndexError
  end.

Definition boolean_ops : list MPI.Op := [MPI.LAND; MPI.LOR; MPI.BAND; MPI.BOR].

(** Lines 226-227. *)
Definition tensor_type (reduction_op : MPI.Op) (partial : buffer)
    : result types.heat_type :=
  if bool_decide (reduction_op ∈ boolean_ops) then Ok types.bool
  else first_dtype partial.

(** Lines 207-210: the loop over the reduction axes. The second component
    is [shape_keepdim], unbound before the first iteration. *)
Definition reduce_axes (partial_op : buffer -> option nat -> buffer)
    (x : DNDarray) (axis : list nat) : buffer * option shape :=
  fold_left
    (fun '(partial, _) dim =>
       (partial_op partial (Some dim),
        Some (take dim (gshape x) ++ [1] ++ drop (dim + 1) (gshape x))))
    axis (array x, None).

(** Line 211. *)
Definition shape_losedim (x : DNDarray) (axis : list nat) : shape :=
  omap (fun dim => if bool_decide (dim ∈ axis) then None else gshape x !! dim)
       (seq 0 (length (gshape x))).

(** Lines 199-213: the local phase, from the sanitized axis to the
    partial result and the output shape. *)
Definition local_phase (partial_op : buffer -> option nat -> buffer)
    (x : DNDarray) (axis : option (list nat)) (keepdim : Datatypes.bool)
    : result (buffer * shape) :=
  match axis with
  | None => Ok (reshape_flat (partial_op (array x) None), [1])
  | Some dims =>
      let '(partial, shape_keepdim) := reduce_axes partial_op x dims in
      if keepdim then
        match shape_keepdim with
        | Some s => Ok (partial, s)
        | None => Raise UnboundLocalError
        end
      else Ok (partial, shape_losedim x dims)
  end.

(** Lines 203-204: a single axis becomes a tuple of one. *)
Definition axis_tuple (axis : stride_tricks.axis_t) : option (list nat) :=
  match axis with
  | stride_tricks.AxNone => None
  | stride_tricks.AxInt a => Some [a]
  | stride_tricks.AxTuple l => Some l
  end.

(** Line 220: is the array distributed across the reduction axis? *)
Definition across_split (x : DNDarray) (axis : option (list nat)) : Datatypes.bool :=
  match split x with
  | Some s => match axis with None => true | Some dims => bool_decide (s ∈ dims) end
  | None => false
  end.

(** Lines 230-234: the fields of [out] are assigned one after the other,
    [x] is read again for the last two. *)
Definition overwrite (lo lx : loc) (partial : buffer) (ty : types.heat_type)
    (split1 : option nat) : M unit :=
  let* tout := deref lo in
  store lo (set_array tout partial) ;;;
  let* tout := deref lo in
  store lo (set_dtype tout ty) ;;;
  let* tout := deref lo in
  store lo (set_split tout split1) ;;;
  let* tx := deref lx in
  let* tout := deref lo in
  store lo (set_device tout (device tx)) ;;;
  let* tx := deref lx in
  let* tout := deref lo in
  store lo (set_comm tout (comm tx)).

(** [__reduce_op(x, partial_op, reduction_op, axis=..., keepdim=..., out=...)].
    [partial_op t None] is the call [partial_op(t)], [partial_op t (Some d)]
    the call [partial_op(t, dim=d, keepdim=True)]. *)
Definition reduce_op (x : pyvalue) (partial_op : buffer -> option nat -> buffer)
    (reduction_op : MPI.Op) (axis : stride_tricks.axis_arg)
    (keepdim : Datatypes.bool) (out : pyvalue) : M pyvalue :=
  let* rx := isinstance_DNDarray x in
  match rx with
  | None => raise TypeError
  | Some lx =>
      let* ro := isinstance_DNDarray out in
      if negb (is_None out) && negb (bool_decide (is_Some ro)) then raise TypeError
      else
        let* tx := deref lx in
        let* axis := lift (stride_tricks.sanitize_axis (gshape tx) axis) in
        let split0 := split tx in
        let axis := axis_tuple axis in
        let* (partial, output_shape) := lift (local_phase partial_op tx axis keepdim) in
        (match ro with
         | Some lo =>
             let* tout := deref lo in
             if bool_decide (gshape tout <> output_shape) then raise ValueError else ret tt
         | None => ret tt
         end) ;;;
        let* tx := deref lx in
        let* (split1, partial) :=
          (if across_split tx axis then
             if MPI.is_distributed (comm tx) then
               emit (Allreduce (comm tx) reduction_op) ;;;
               ret (None, filled partial (Allreduce_recv (comm tx) reduction_op partial))
             else ret (None, partial)
           else ret (split0, partial)) in
        let* tensor_type := lift (tensor_type reduction_op partial) in
        match ro with
        | Some lo =>
            overwrite lo lx partial (types.canonical_heat_type tensor_type) split1 ;;;
            ret out
        | None =>
            let* tx := deref lx in
            new_DNDarray partial output_shape (types.canonical_heat_type tensor_type)
                         split1 (device tx) (comm tx)
        end
  end.

End Dispatchers.

(** ** An executable runtime over integers

    Elements are integers, conversions wrap or truncate, and the
    collectives deliver what a group of identical processes would. It
    makes every dispatcher computable on concrete operands. *)

Module Zrt.

Definition wrap_signed (w : Z) (v : Z) : Z :=
  ((v + 2 ^ (w - 1)) mod 2 ^ w - 2 ^ (w - 1))%Z.

Definition cast (ty : types.heat_type) (v : Z) : Z :=
  match ty with
  | types.bool => if (v =? 0)%Z then 0%Z else 1%Z
  | types.uint8 => (v mod 256)%Z
  | types.int8 => wrap_signed 8 v
  | types.int16 => wrap_signed 16 v
  | types.int32 => wrap_signed 32 v
  | types.int64 => wrap_signed 64 v
  | types.float32 | types.float64 => v
  end.

Fixpoint chunks (n len : nat) (l : list Z) : list (list Z) :=
  match n with
  | 0 => []
  | S n' => take len l :: chunks n' len (drop len l)
  end.

Fixpoint tile (s multiples : list nat) (d : list Z) : list Z :=
  match s, multiples with
  | s0 :: s', m0 :: m' =>
      concat (replicate m0 (concat (map (tile s' m') (chunks s0 (numel s') d))))
  | _, _ => d
  end.

(** [t.repeat(multiples)]. *)
Definition repeat (t : tensor Z) (multiples : list nat) : tensor Z :=
  let padded := replicate (length multiples - length (tshape t)) 1 ++ tshape t in
  {| tshape := zip_with Nat.mul padded multiples;
     tdtype := tdtype t;
     tdata := tile padded multiples (tdata t) |}.

Definition combine (op : MPI.Op) (a b : Z) : Z :=
  match op with
  | MPI.SUM => (a + b)%Z
  | MPI.PROD => (a * b)%Z
  | MPI.MIN => Z.min a b
  | MPI.MAX => Z.max a b
  | MPI.LAND | MPI.BAND => Z.land a b
  | MPI.LOR | MPI.BOR => Z.lor a b
  end.

(** Every process of the group contributes the same partial result. *)
Definition allreduce (c : MPI.Communication) (op : MPI.Op) (t : tensor Z) : list Z :=
  map (fun v => Nat.iter (MPI.size c - 1) (combine op v) v) (tdata t).

Definition bcast (c : MPI.Communication) (t : tensor Z) : list Z := tdata t.

Definition runtime : Runtime :=
  {| elem := Z; cast_elem := cast; zero_elem := 0%Z; torch_repeat := repeat;
     Bcast_recv := bcast; Allreduce_recv := allreduce;
     MPI_WORLD := {| MPI.rank := 0; MPI.size := 1 |};
     default_device := None |}.

(** Broadcasting of two shapes as the buffer library does it: aligned
    from the last axis, extents equal or one of them 1. The shapes are
    given and returned last axis first. *)
Fixpoint broadcast_rev (ra rb : list nat) : option (list nat) :=
  match ra, rb with
  | [], _ => Some rb
  | _, [] => Some ra
  | x :: ra', y :: rb' =>
      if (x =? y) || (y =? 1) then option_map (cons x) (broadcast_rev ra' rb')
      else if x =? 1 then option_map (cons y) (broadcast_rev ra' rb')
      else None
  end.

Definition broadcast (a b : shape) : option shape :=
  option_map (@rev nat) (broadcast_rev (rev a) (rev b)).

(** The row-major position, in a buffer of shape [rs], of the element
    that lands at row-major position [i] of the broadcast shape [rout]
    (both last axis first): an axis of extent 1 repeats its element. *)
Fixpoint source_index (rout rs : list nat) (i stride : nat) : nat :=
  match rout, rs with
  | n :: rout', m :: rs' =>
      (if m =? 1 then 0 else i mod n) * stride
      + source_index rout' rs' (i / n) (stride * m)
  | _, _ => 0
  end.

(** [t.expand(s)], row-major. *)
Definition expand (s : shape) (t : tensor Z) : list Z :=
  map (fun i => default 0%Z (tdata t !! source_index (rev s) (rev (tshape t)) i 1))
      (seq 0 (numel s)).

(** [torch.add]: the element-wise sum of two buffers over their broadcast
    shape, [RuntimeError] when the shapes do not broadcast. *)
Definition add (a b : tensor Z) : result (tensor Z) :=
  match broadcast (tshape a) (tshape b) with
  | Some s =>
      Ok {| tshape := s; tdtype := types.promote_types (tdtype a) (tdtype b);
            tdata := zip_with Z.add (expand s a) (expand s b) |}
  | None => Raise RuntimeError
  end.

(** [torch.abs]: a new buffer, or written into [out], which takes the
    shape of the result; [RuntimeError] for an [out] buffer of another
    element type. *)
Definition abs (a : tensor Z) (out : option (tensor Z)) : result (tensor Z) :=
  match out with
  | None => Ok {| tshape := tshape a; tdtype := tdtype a; tdata := map Z.abs (tdata a) |}
  | Some o =>
      if decide (tdtype o = tdtype a)
      then Ok {| tshape := tshape a; tdtype := tdtype a; tdata := map Z.abs (tdata a) |}
      else Raise RuntimeError
  end.

(** An operation of the caller's own,
    [lambda t, out=None: t * t if out is None else out.copy_(t * t)]:
    the square, copied into [out] with conversion to its element type;
    [RuntimeError] when the square does not broadcast to the shape of
    [out]. *)
Definition square (a : tensor Z) (out : option (tensor Z)) : result (tensor Z) :=
  let sq := {| tshape := tshape a; tdtype := tdtype a;
               tdata := map (fun v => (v * v)%Z) (tdata a) |} in
  match out with
  | None => Ok sq
  | Some o =>
      if decide (broadcast (tshape sq) (tshape o) = Some (tshape o))
      then Ok {| tshape := tshape o; tdtype := tdtype o;
                 tdata := map (cast (tdtype o)) (expand (tshape o) sq) |}
      else Raise RuntimeError
  end.

(** [torch.sum]: over everything, or along [dim] with [keepdim=True]. *)
Definition sum (t : tensor Z) (dim : option nat) : tensor Z :=
  match dim with
  | None => {| tshape := []; tdtype := tdtype t;
               tdata := [foldr Z.add 0%Z (tdata t)] |}
  | Some d =>
      let outer := numel (take d (tshape t)) in
      let n := default 1 (tshape t !! d) in
      let inner := numel (drop (d + 1) (tshape t)) in
      {| tshape := <[d := 1]> (tshape t);
         tdtype := tdtype t;
         tdata :=
           flat_map (fun o =>
             map (fun i =>
               foldr Z.add 0%Z
                 (map (fun k => default 0%Z (tdata t !! ((o * n + k) * inner + i)))
                      (seq 0 n)))
               (seq 0 inner))
             (seq 0 outer) |}
  end.

End Zrt.


(** ** Vocabulary of the statements *)

Section Vocabulary.
Context {R : Runtime}.

(** A value that [isinstance(v, DNDarray)] accepts in state [st]. *)
Definition is_handle (st : state) (v : pyvalue) : Prop :=
  exists l, v = PyRef l /\ l < length (heap st).

(** A scalar the factory accepts. *)
Definition is_numeric_scalar (v : pyvalue) : Prop :=
  exists ty x, v = PyNum ty x.

Definition recognized (st : state) (v : pyvalue) : Prop :=
  is_numeric_scalar v \/ is_handle st v.

(** The data model of section 3: the split axis is an axis of the global
    shape, and the local shape has the rank of the global one. *)
Definition well_formed (t : DNDarray) : Prop :=
  length (lshape t) = length (gshape t) /\
  match split t with
  | Some s => s < length (gshape t)
  | None => True
  end.

(** The handles agree on everything but the local buffer. *)
Definition same_layout (t t' : DNDarray) : Prop :=
  gshape t' = gshape t /\ dtype t' = dtype t /\ split t' = split t /\
  device t' = device t /\ comm t' = comm t.

(** A split operand of global extent 1 along its split axis, owned by a
    communicator of more than one participant. *)
Definition needs_bcast (t : DNDarray) : Datatypes.bool :=
  match split t with
  | Some s => bool_decide (gshape t !! s = Some 1) && MPI.is_distributed (comm t)
  | None => false
  end.

(** The first operand is split and its shard on this process is empty. *)
Definition first_shard_empty (t : DNDarray) : Datatypes.bool :=
  match split t with
  | Some s => bool_decide (lshape t !! s = Some 0)
  | None => false
  end.

Definition bcast_events (o : operand) (l : loc) (t : DNDarray) : list event :=
  if needs_bcast t then [Warn o; Bcast (comm t) l] else [].

(** The element type of an operand as the caller hands it over. *)
Definition operand_dtype (st : state) (v : pyvalue) : option types.heat_type :=
  match v with
  | PyNum ty _ => Some ty
  | PyRef l => dtype <$> heap st !! l
  | _ => None
  end.

(** Every invocation of the operation recorded in [evs] ran on two buffers
    of type [ty]. *)
Definition applied_in (ty : types.heat_type) (evs : list event) : Prop :=
  forall a b, Apply a b ∈ evs -> tdtype a = ty /\ tdtype b = ty.

(** What a successful [__binary_op] leaves behind: a new object [r] at the
    end of the heap with the given layout, the events [bev] of the
    replication, and at most one invocation of the operation, on buffers
    of the type of the result. *)
Definition produced (operation : buffer -> buffer -> result buffer)
    (st : state) (out : result pyvalue * state) (r : DNDarray)
    (bev : list event) : Prop :=
  exists h' ev,
    out = (Ok (PyRef (length (heap st))),
           {| heap := h' ++ [r]; trace := trace st ++ bev ++ ev |}) /\
    length h' = length (heap st) /\
    ((ev = [] /\ tdtype (array r) = dtype r) \/
     (exists a b, ev = [Apply a b] /\ tdtype a = dtype r /\ tdtype b = dtype r /\
                  operation a b = Ok (array r))).

(** What [__binary_op] leaves behind when the operation itself raises [e]:
    no new object, the events [bev] of the replication and the one
    invocation, on two buffers of type [ty]. *)
Definition operation_raised (operation : buffer -> buffer -> result buffer)
    (st : state) (out : result pyvalue * state) (e : exn) (ty : types.heat_type)
    (bev : list event) : Prop :=
  exists h' a b,
    out = (Raise e, {| heap := h'; trace := trace st ++ bev ++ [Apply a b] |}) /\
    length h' = length (heap st) /\
    tdtype a = ty /\ tdtype b = ty /\ operation a b = Raise e.

(** The operand that keeps its type: the second one when the first is a
    scalar (line 62), else the first one (line 106). *)
Definition kept_dtype (st : state) (t1 t2 : pyvalue) : option types.heat_type :=
  if np_isscalar t1 then operand_dtype st t2 else operand_dtype st t1.

(** The ways a call of [__binary_op] can go. *)
Inductive binary_case (operation : buffer -> buffer -> result buffer)
    (t1 t2 : pyvalue) (st : state) : Prop :=
| case_raise e :
    binary_op operation t1 t2 st = (Raise e, st) ->
    (forall l1 l2 a1 a2 s,
        t1 = PyRef l1 -> t2 = PyRef l2 ->
        heap st !! l1 = Some a1 -> heap st !! l2 = Some a2 ->
        split a2 = None \/ split a2 = split a1 ->
        stride_tricks.broadcast_shape (gshape a1) (gshape a2) = Ok s -> False) ->
    binary_case operation t1 t2 st
| case_scalar r ty :
    np_isscalar t1 = true \/ np_isscalar t2 = true ->
    kept_dtype st t1 t2 = Some ty ->
    produced operation st (binary_op operation t1 t2 st) r [] ->
    dtype r = ty ->
    binary_case operation t1 t2 st
| case_handles l1 l2 a1 a2 s r :
    t1 = PyRef l1 -> t2 = PyRef l2 ->
    heap st !! l1 = Some a1 -> heap st !! l2 = Some a2 ->
    split a2 = None \/ split a2 = split a1 ->
    stride_tricks.broadcast_shape (gshape a1) (gshape a2) = Ok s ->
    produced operation st (binary_op operation t1 t2 st) r
      (bcast_events first_operator l1 a1 ++ bcast_events second_operator l2 a2) ->
    gshape r = s -> dtype r = dtype a1 -> split r = split a1 ->
    binary_case operation t1 t2 st
| case_scalar_raised e ty :
    np_isscalar t1 = true \/ np_isscalar t2 = true ->
    kept_dtype st t1 t2 = Some ty ->
    operation_raised operation st (binary_op operation t1 t2 st) e ty [] ->
    binary_case operation t1 t2 st
| case_handles_raised l1 l2 a1 a2 s e :
    t1 = PyRef l1 -> t2 = PyRef l2 ->
    heap st !! l1 = Some a1 -> heap st !! l2 = Some a2 ->
    split a2 = None \/ split a2 = split a1 ->
    stride_tricks.broadcast_shape (gshape a1) (gshape a2) = Ok s ->
    operation_raised operation st (binary_op operation t1 t2 st) e (dtype a1)
      (bcast_events first_operator l1 a1 ++ bcast_events second_operator l2 a2) ->
    binary_case operation t1 t2 st.

(** The compatibility of layouts in the words of section 4.3, rule 3. *)
Definition layout_compatible (t1 t2 : DNDarray) : Prop :=
  split t1 = split t2 \/ split t1 = None \/ split t2 = None.

(** The shapes of section 4.5 in the words of the specification: extent 1
    at every reduced axis, or every reduced axis removed. *)
Definition keepdim_shape (g : shape) (axes : list nat) : shape :=
  imap (fun i n => if bool_decide (i ∈ axes) then 1 else n) g.

Definition losedim_shape (g : shape) (axes : list nat) : shape :=
  map snd (filter (fun p => fst p ∉ axes) (imap (fun i n => (i, n)) g)).

(** The reduction runs over the split axis: the normalized axis set
    includes it, or the axis is [None] and the array is split. *)
Definition reduces_split_axis (x : DNDarray) (axis : stride_tricks.axis_t) : Prop :=
  match split x with
  | Some s =>
      match axis with
      | stride_tricks.AxNone => True
      | stride_tricks.AxInt a => s = a
      | stride_tricks.AxTuple l => s ∈ l
      end
  | None => False
  end.

(** The partial result after lines 220-223, and the events of these
    lines. *)
Definition combined (reduction_op : MPI.Op) (x : DNDarray) (axis : option (list nat))
    (partial : buffer) : buffer :=
  if across_split x axis && MPI.is_distributed (comm x)
  then filled partial (Allreduce_recv (comm x) reduction_op partial)
  else partial.

Definition allreduce_events (reduction_op : MPI.Op) (x : DNDarray)
    (axis : option (list nat)) : list event :=
  if across_split x axis && MPI.is_distributed (comm x)
  then [Allreduce (comm x) reduction_op]
  else [].

(** The handle [__reduce_op] builds or turns [out] into: [g] is the
    output shape for a new handle and the shape of [out] otherwise. *)
Definition reduced (reduction_op : MPI.Op) (x : DNDarray) (axis : option (list nat))
    (partial : buffer) (ty : types.heat_type) (g : shape) : DNDarray :=
  {| array := combined reduction_op x axis partial;
     gshape := g;
     dtype := ty;
     split := if across_split x axis then None else split x;
     device := device x;
     comm := comm x |}.

(** [__reduce_op] in closed form, for an input handle [x] and an output
    that is absent or the handle [tout] at [lo]. *)
Definition reduce_outcome (partial_op : buffer -> option nat -> buffer)
    (reduction_op : MPI.Op) (axis : stride_tricks.axis_arg)
    (keepdim : Datatypes.bool) (st : state) (x : DNDarray)
    (out : option (loc * DNDarray)) : result pyvalue * state :=
  match stride_tricks.sanitize_axis (gshape x) axis with
  | Raise e => (Raise e, st)
  | Ok axn =>
      let axes := axis_tuple axn in
      match local_phase partial_op x axes keepdim with
      | Raise e => (Raise e, st)
      | Ok (partial, oshape) =>
          if match out with
             | Some (_, tout) => bool_decide (gshape tout <> oshape)
             | None => false
             end
          then (Raise ValueError, st)
          else
            let tr := trace st ++ allreduce_events reduction_op x axes in
            match tensor_type reduction_op (combined reduction_op x axes partial) with
            | Raise e => (Raise e, {| heap := heap st; trace := tr |})
            | Ok ty =>
                match out with
                | Some (lo, tout) =>
                    (Ok (PyRef lo),
                     {| heap := <[lo := reduced reduction_op x axes partial ty (gshape tout)]>
                                  (heap st);
                        trace := tr |})
                | None =>
                    (Ok (PyRef (length (heap st))),
                     {| heap := heap st ++ [reduced reduction_op x axes partial ty oshape];
                        trace := tr |})
                end
            end
      end
  end.

(** The events a call added to the trace. *)
Definition new_events (st st' : state) : list event :=
  drop (length (trace st)) (trace st').

(** *** The sentences of the specification that the code does not follow,
    as they are written *)

(** Section 4.3, rule 3: two handles proceed whenever their split axes
    match or one of them is unsplit; the hard failure is raised only when
    both are split, along different axes. *)
Definition layout_rule_as_stated (operation : buffer -> buffer -> result buffer)
    (st : state) (l1 l2 : loc) : Prop :=
  forall a1 a2, heap st !! l1 = Some a1 -> heap st !! l2 = Some a2 ->
    (layout_compatible a1 a2 ->
       fst (binary_op operation (PyRef l1) (PyRef l2) st) <> Raise NotImplementedError) /\
    (fst (binary_op operation (PyRef l1) (PyRef l2) st) = Raise NotImplementedError ->
       exists s1 s2, split a1 = Some s1 /\ split a2 = Some s2 /\ s1 <> s2).

(** Section 4.3, rule 6: operands of different types run in the promoted
    type, which the result carries. *)
Definition promotion_as_stated (operation : buffer -> buffer -> result buffer)
    (st : state) (t1 t2 : pyvalue) : Prop :=
  forall ty1 ty2 v st',
    operand_dtype st t1 = Some ty1 -> operand_dtype st t2 = Some ty2 -> ty1 <> ty2 ->
    binary_op operation t1 t2 st = (Ok v, st') ->
    exists l r, v = PyRef l /\ heap st' !! l = Some r /\
      dtype r = types.promote_types ty1 ty2 /\
      applied_in (types.promote_types ty1 ty2) (new_events st st').

(** Section 4.3, rule 5: a broadcast if and only if some split operand has
    extent 1 along its split axis on a distributed communicator. *)
Definition bcast_rule_as_stated (operation : buffer -> buffer -> result buffer)
    (st : state) (t1 t2 : pyvalue) : Prop :=
  let st' := snd (binary_op operation t1 t2 st) in
  (exists c l, Bcast c l ∈ new_events st st') <->
  (exists l a, (t1 = PyRef l \/ t2 = PyRef l) /\ heap st !! l = Some a /\
               needs_bcast a = true).

(** Section 4.3, rule 1: an operand of neither kind is a [TypeError]. *)
Definition type_error_as_stated (operation : buffer -> buffer -> result buffer)
    (st : state) (t1 t2 : pyvalue) : Prop :=
  ~ recognized st t1 \/ ~ recognized st t2 ->
  fst (binary_op operation t1 t2 st) = Raise TypeError.

(** Section 4.4: every handle [local_op] returns has the type promoted
    between the input's type and the minimal floating-point type. *)
Definition local_op_type_as_stated (operation : buffer -> option buffer -> result buffer)
    (st : state) (x out : pyvalue) : Prop :=
  forall lx tx v st',
    x = PyRef lx -> heap st !! lx = Some tx ->
    local_op operation x out st = (Ok v, st') ->
    exists l r, v = PyRef l /\ heap st' !! l = Some r /\
      dtype r = types.promote_types (dtype tx) types.float32.


End Vocabulary.

(** ** Concrete operands *)

Module Examples.

#[local] Existing Instance Zrt.runtime.

Definition world2 (r : nat) : MPI.Communication := {| MPI.rank := r; MPI.size := 2 |}.
Definition world1 : MPI.Communication := {| MPI.rank := 0; MPI.size := 1 |}.

Definition handle (a : tensor Z) (g : shape) (s : option nat)
    (c : MPI.Communication) : DNDarray :=
  {| array := a; gshape := g; dtype := tdtype a; split := s; device := None; comm := c |}.

Definition ints (s : shape) (d : list Z) : tensor Z :=
  {| tshape := s; tdtype := types.int32; tdata := d |}.
Definition floats (s : shape) (d : list Z) : tensor Z :=
  {| tshape := s; tdtype := types.float32; tdata := d |}.
Definition doubles (s : shape) (d : list Z) : tensor Z :=
  {| tshape := s; tdtype := types.float64; tdata := d |}.

(** 0: an unsplit 2x3 array of integers;
    1: the empty shard, on rank 1 of 2, of a float array of global shape (1,) split along axis 0;
    2: an unsplit 2x3x4 array of integers;
    3: rank 0's shard of a 2x3 integer array split along axis 1;
    4: an unsplit float array of one element;
    5: an unsplit double array of one element;
    6: rank 0's shard of a 4-element float array split along axis 0;
    7: rank 0's shard of a 4x3 integer array split along axis 0. *)
Definition objects : list DNDarray :=
  [ handle (ints [2; 3] [1; 2; 3; 4; 5; 6]%Z) [2; 3] None world1;
    handle (floats [0] []) [1] (Some 0) (world2 1);
    handle (ints [2; 3; 4] (map Z.of_nat (seq 0 24))) [2; 3; 4] None world1;
    handle (ints [2; 2] [1; 2; 4; 5]%Z) [2; 3] (Some 1) (world2 0);
    handle (floats [1] [-9]%Z) [1] None world1;
    handle (doubles [1] [0]%Z) [1] None world1;
    handle (floats [2] [3; 4]%Z) [4] (Some 0) (world2 0);
    handle (ints [2; 3] [1; 2; 3; 4; 5; 6]%Z) [4; 3] (Some 0) (world2 0) ].

Definition initial : state := {| heap := objects; trace := [] |}.

End Examples.

(** ** Vocabulary of the further properties *)

Section Frames.
Context {R : Runtime}.

(** Lines 91-93: the buffer of a replicated operand. Ranks above 0 receive
    into a buffer of zeros of the global shape, rank 0 into its own. *)
Definition replicated (t : DNDarray) : buffer :=
  let base := if 0 <? MPI.rank (comm t) then zeros (gshape t) (dtype t) else array t in
  filled base (Bcast_recv (comm t) base).

(** An operand after lines 88-93. *)
Definition after_bcast (t : DNDarray) : DNDarray :=
  if needs_bcast t then set_array t (replicated t) else t.

(** The handle [factories.array([x])] makes of a numeric scalar. *)
Definition scalar_handle (ty : types.heat_type) (x : elem) : DNDarray :=
  {| array := {| tshape := [1]; tdtype := ty; tdata := [x] |};
     gshape := [1]; dtype := ty; split := None;
     device := default_device; comm := MPI_WORLD |}.

(** The operand that is cast to [ty] (lines 61-62 and 105-106): replaced by
    [astype] when its type differs. *)
Definition cast_operand (ty : types.heat_type) (t : DNDarray) : DNDarray :=
  if decide (dtype t = ty) then t else astype t ty.

(** The local result of lines 111-123 for operands of one type [ty], and
    the invocation it records. *)
Definition local_buffer (operation : buffer -> buffer -> result buffer)
    (ty : types.heat_type) (t1 t2 : DNDarray) : result buffer :=
  if first_shard_empty t1 then Ok (type_ (array t1) ty)
  else operation (type_ (array t1) ty) (type_ (array t2) ty).

Definition local_events (ty : types.heat_type) (t1 t2 : DNDarray) : list event :=
  if first_shard_empty t1 then []
  else [Apply (type_ (array t1) ty) (type_ (array t2) ty)].

(** Every object of [st] is still an object of [st'], with the layout it
    had. *)
Definition layouts_kept (st st' : state) : Prop :=
  forall l t, heap st !! l = Some t ->
    exists t', heap st' !! l = Some t' /\ same_layout t t'.


End Frames.

(** Operands at the edges: arrays without rows and empty shards. *)
Module Edge.

#[local] Existing Instance Zrt.runtime.

(** 0: rank 0's shard, of local shape (0, 2), of a float array of global
       shape (0, 4) split along axis 1;
    1: the empty shard, on rank 1 of 2, of an integer array of global
       shape (1, 3) split along axis 0;
    2: an unsplit integer array of shape (1, 3);
    3: rank 0's shard of a 2x3 integer array split along axis 1, on a
       communicator of one process;
    4: an unsplit integer array of shape (3,);
    5: an unsplit float array of shape (0, 3);
    6: an unsplit float array of shape (0,). *)
Definition objects : list DNDarray :=
  [ Examples.handle (Examples.floats [0; 2] []) [0; 4] (Some 1) (Examples.world2 0);
    Examples.handle (Examples.ints [0; 3] []) [1; 3] (Some 0) (Examples.world2 1);
    Examples.handle (Examples.ints [1; 3] [7; 8; 9]%Z) [1; 3] None Examples.world1;
    Examples.handle (Examples.ints [2; 3] [1; 2; 3; 4; 5; 6]%Z) [2; 3] (Some 1) Examples.world1;
    Examples.handle (Examples.ints [3] [0; 0; 0]%Z) [3] None Examples.world1;
    Examples.handle (Examples.floats [0; 3] []) [0; 3] None Examples.world1;
    Examples.handle (Examples.floats [0] []) [0] None Examples.world1 ].

Definition initial : state := {| heap := objects; trace := [] |}.

End Edge.

(** ** The collaborators, on the examples of section 8 *)

Section Collaborators.

Lemma promote_types_comm ty1 ty2 :
  types.promote_types ty1 ty2 = types.promote_types ty2 ty1.
Proof. by destruct ty1, ty2. Qed.

Lemma promote_types_idem ty : types.promote_types ty ty = ty.
Proof. unfold types.promote_types. by rewrite Nat.ltb_irrefl. Qed.

Example broadcast_shape_ones :
  stride_tricks.broadcast_shape [1] [1] = Ok [1].
Proof. reflexivity. Qed.

Example broadcast_shape_outer :
  stride_tricks.broadcast_shape [3; 1] [1; 4] = Ok [3; 4].
Proof. reflexivity. Qed.

Example broadcast_shape_mismatch :
  stride_tricks.broadcast_shape [2; 3] [4; 5] = Raise ShapeError.
Proof. reflexivity. Qed.

Example sanitize_axis_negative :
  stride_tricks.sanitize_axis [5; 6; 7] (stride_tricks.AxisInt (-1))
    = Ok (stride_tricks.AxInt 2).
Proof. reflexivity. Qed.

Example sanitize_axis_out_of_range :
  stride_tricks.sanitize_axis [5; 6; 7] (stride_tricks.AxisInt 3) = Raise AxisError.
Proof. reflexivity. Qed.

Example sanitize_axis_duplicate :
  stride_tricks.sanitize_axis [5; 6; 7] (stride_tricks.AxisTuple [0; 0]%Z)
    = Raise AxisError.
Proof. reflexivity. Qed.

End Collaborators.

(** ** Properties of [__binary_op] *)

Ltac run :=
  unfold bind, ret, raise, lift, emit, deref, store, new_DNDarray,
    isinstance_DNDarray, index, try_array in *; simpl in *.

Section BinaryOp.
Context {R : Runtime}.
Implicit Types (st : state) (l : loc).

(** Operands the dispatcher does not support: an unsupported second
    operand, or a scalar the factory rejects, is a [TypeError]; a first
    operand that is neither a scalar nor a handle is a
    [NotImplementedError]. Nothing is touched. *)
Lemma binary_op_rejects operation (t1 t2 : pyvalue) st :
  (recognized st t1 -> ~ recognized st t2 ->
     binary_op operation t1 t2 st = (Raise TypeError, st)) /\
  (~ recognized st t1 -> np_isscalar t1 = true ->
     binary_op operation t1 t2 st = (Raise TypeError, st)) /\
  (~ recognized st t1 -> np_isscalar t1 = false ->
     binary_op operation t1 t2 st = (Raise NotImplementedError, st)).
Proof.
  split; [|split].
  - intros [(ty & x & ->)|(l1 & -> & Hl1)] H2.
    + unfold binary_op, normalize. run.
      destruct t2 as [| ty2 x2 | | l2 |]; simpl; try done.
      * exfalso. apply H2. left. by eexists _, _.
      * case_decide; [|done]. exfalso. apply H2. right. by exists l2.
    + unfold binary_op, normalize. run. rewrite decide_True by done.
      destruct t2 as [| ty2 x2 | | l2 |]; simpl; try done.
      * exfalso. apply H2. left. by eexists _, _.
      * case_decide; [|done]. exfalso. apply H2. right. by exists l2.
  - intros H1 Hs. unfold binary_op, normalize. rewrite Hs. run.
    destruct t1; try done. exfalso. apply H1. left. by eexists _, _.
  - intros H1 Hs. unfold binary_op, normalize. rewrite Hs. run.
    destruct t1; try done. case_decide; [|done].
    exfalso. apply H1. right. by eexists.
Qed.

Lemma set_array_id (t : DNDarray) : set_array t (array t) = t.
Proof. by destruct t. Qed.

Lemma well_formed_set_array (t : DNDarray) (a : buffer) :
  well_formed t -> tshape a = lshape t \/ tshape a = gshape t ->
  well_formed (set_array t a).
Proof.
  intros [Hlen Hs] Ha. split; [|done].
  unfold lshape in *. simpl. destruct Ha as [-> | ->]; done.
Qed.

(** The replication step never fails on a well-formed handle; it replaces
    the buffer of the object and records a warning and a broadcast when
    the operand needs one. *)
Lemma bcast_if_needed_spec o l st (t : DNDarray) :
  heap st !! l = Some t -> well_formed t ->
  exists a, (tshape a = lshape t \/ tshape a = gshape t) /\
    bcast_if_needed o l st =
      (Ok tt, {| heap := <[l := set_array t a]> (heap st);
                 trace := trace st ++ bcast_events o l t |}).
Proof.
  intros Ht [Hlen Hs]. unfold bcast_if_needed, bcast_events, needs_bcast.
  run. rewrite Ht. destruct (split t) as [s|] eqn:Hsplit.
  - destruct (lookup_lt_is_Some_2 _ _ Hs) as [extent He]. rewrite He. simpl.
    destruct (extent =? 1) eqn:Hext; simpl.
    + apply Nat.eqb_eq in Hext. subst extent.
      rewrite bool_decide_eq_true_2 by done. simpl.
      destruct (MPI.is_distributed (comm t)).
      * destruct (0 <? MPI.rank (comm t)); simpl.
        -- rewrite list_lookup_insert_eq by (by eapply lookup_lt_Some). simpl.
           exists (filled (zeros (gshape t) (dtype t))
                     (Bcast_recv (comm t) (zeros (gshape t) (dtype t)))).
           split; [by right|].
           rewrite list_insert_insert_eq, <- app_assoc. done.
        -- rewrite Ht. simpl.
           exists (filled (array t) (Bcast_recv (comm t) (array t))).
           split; [by left|].
           rewrite <- app_assoc. done.
      * exists (array t). split; [by left|].
        rewrite set_array_id, list_insert_id, app_nil_r by done. by destruct st.
    + apply Nat.eqb_neq in Hext.
      rewrite bool_decide_eq_false_2 by congruence. simpl.
      exists (array t). split; [by left|].
      rewrite set_array_id, list_insert_id, app_nil_r by done. by destruct st.
  - exists (array t). split; [by left|].
    rewrite set_array_id, list_insert_id, app_nil_r by done. by destruct st.
Qed.

(** Lines 111-123 on a well-formed first operand: the operation runs on
    both buffers in the promoted type unless the first operand is split
    with an empty shard. *)
Lemma local_result_spec operation (b1 b2 : DNDarray) st :
  well_formed b1 ->
  let p := types.promote_types (dtype b1) (dtype b2) in
  local_result operation b1 b2 st =
    if first_shard_empty b1
    then (Ok (type_ (array b1) p), st)
    else (operation (type_ (array b1) p) (type_ (array b2) p),
          {| heap := heap st;
             trace := trace st ++ [Apply (type_ (array b1) p) (type_ (array b2) p)] |}).
Proof.
  intros [Hlen Hs] p. unfold local_result, first_shard_empty, apply_operation. run.
  destruct (split b1) as [s|] eqn:Hsplit; simpl.
  - rewrite <- Hlen in Hs.
    destruct (lookup_lt_is_Some_2 _ _ Hs) as [n Hn]. rewrite Hn. simpl.
    destruct (n =? 0) eqn:H0.
    + apply Nat.eqb_eq in H0. subst. by rewrite bool_decide_eq_true_2.
    + apply Nat.eqb_neq in H0. rewrite bool_decide_eq_false_2 by congruence. done.
  - done.
Qed.

(** Lines 64-106 on two handles of compatible layout and broadcastable
    shapes: the normalization succeeds, the second operand takes the type
    of the first, and the only events are those of the replication. *)
Lemma normalize_handles st l1 l2 (a1 a2 : DNDarray) s :
  heap st !! l1 = Some a1 -> heap st !! l2 = Some a2 ->
  well_formed a1 -> well_formed a2 ->
  split a2 = None \/ split a2 = split a1 ->
  stride_tricks.broadcast_shape (gshape a1) (gshape a2) = Ok s ->
  exists n h',
    normalize (PyRef l1) (PyRef l2) st =
      (Ok n, {| heap := h';
                trace := trace st ++ bcast_events first_operator l1 a1
                                  ++ bcast_events second_operator l2 a2 |}) /\
    length h' = length (heap st) /\
    same_layout a1 (n_t1 n) /\ well_formed (n_t1 n) /\
    dtype (n_t2 n) = dtype a1 /\
    output_shape n = s /\ output_split n = split a1 /\
    output_device n = device a1 /\ output_comm n = comm a1.
Proof.
  intros H1 H2 Hwf1 Hwf2 Hguard Hbs.
  pose proof (lookup_lt_Some _ _ _ H1) as Hl1.
  pose proof (lookup_lt_Some _ _ _ H2) as Hl2.
  unfold normalize. run. rewrite !decide_True by done. rewrite H1, H2. simpl.
  rewrite bool_decide_eq_true_2 by done. rewrite Hbs.
  destruct (bcast_if_needed_spec first_operator l1 st a1 H1 Hwf1) as (x1 & Hx1 & ->).
  pose proof (well_formed_set_array a1 x1 Hwf1 Hx1) as Hwf1'.
  destruct (decide (l1 = l2)) as [<- | Hne].
  - assert (a2 = a1) as -> by congruence.
    edestruct (bcast_if_needed_spec second_operator l1
                 {| heap := <[l1:=set_array a1 x1]> (heap st);
                    trace := trace st ++ bcast_events first_operator l1 a1 |}
                 (set_array a1 x1)) as (x2 & Hx2 & ->);
      [by apply list_lookup_insert_eq | done |].
    simpl. rewrite list_insert_insert_eq.
    repeat (rewrite list_lookup_insert_eq by done; simpl).
    case_bool_decide; simpl in *; [congruence|].
    eexists _, _. split; [by rewrite <- app_assoc|].
    rewrite length_insert. repeat split; try done.
    simpl. unfold lshape in *. simpl in *.
    destruct Hx2 as [-> | ->]; [by destruct Hwf1' | done].
    by destruct Hwf1.
  - edestruct (bcast_if_needed_spec second_operator l2
                 {| heap := <[l1:=set_array a1 x1]> (heap st);
                    trace := trace st ++ bcast_events first_operator l1 a1 |}
                 a2) as (x2 & Hx2 & ->);
      [by simpl; rewrite list_lookup_insert_ne | done |].
    simpl. rewrite list_lookup_insert_ne by done.
    rewrite list_lookup_insert_eq by done. simpl.
    rewrite list_lookup_insert_eq by (by rewrite length_insert). simpl.
    case_bool_decide; simpl.
    + eexists _, _. split; [by rewrite <- app_assoc|].
      rewrite !length_insert. repeat split; try done; by destruct Hwf1'.
    + eexists _, _. split; [by rewrite <- app_assoc|].
      rewrite !length_insert. repeat split; try done; try by destruct Hwf1'.
Qed.

Lemma promote_types_idem_eq ty1 ty2 :
  ty2 = ty1 -> types.promote_types ty1 ty2 = ty1.
Proof. intros ->. apply promote_types_idem. Qed.

(** The dispatcher after a successful normalization: a new object is
    produced, unless the operation itself raises. *)
Lemma binary_op_after_normalize operation (t1 t2 : pyvalue) st n h' bev :
  normalize t1 t2 st = (Ok n, {| heap := h'; trace := trace st ++ bev |}) ->
  length h' = length (heap st) ->
  well_formed (n_t1 n) -> dtype (n_t2 n) = dtype (n_t1 n) ->
  (exists r,
     produced operation st (binary_op operation t1 t2 st) r bev /\
     gshape r = output_shape n /\ dtype r = dtype (n_t1 n) /\
     split r = output_split n /\ device r = output_device n /\
     comm r = output_comm n) \/
  (exists e,
     operation_raised operation st (binary_op operation t1 t2 st) e (dtype (n_t1 n)) bev).
Proof.
  intros Hn Hlen Hwf Hty. unfold binary_op, bind. rewrite Hn.
  rewrite (local_result_spec _ _ _ _ Hwf).
  unfold new_DNDarray, types.canonical_heat_type.
  rewrite (promote_types_idem_eq _ _ Hty).
  destruct (first_shard_empty (n_t1 n)); simpl.
  - left. eexists. split.
    + exists h', []. rewrite Hlen, app_nil_r. split; [reflexivity|].
      split; [done|]. by left.
    + done.
  - destruct (operation _ _) as [res | e] eqn:Hop; simpl.
    + left. eexists. split.
      * eexists h', _. rewrite Hlen, <- app_assoc. split; [reflexivity|].
        split; [done|]. right. eexists _, _. split; [reflexivity|]. simpl. done.
      * done.
    + right. exists e. eexists h', _, _. rewrite <- app_assoc.
      split; [reflexivity|]. done.
Qed.

(** Two handles of compatible layout and broadcastable shapes. *)
Lemma binary_op_handles operation st l1 l2 (a1 a2 : DNDarray) s :
  heap st !! l1 = Some a1 -> heap st !! l2 = Some a2 ->
  well_formed a1 -> well_formed a2 ->
  split a2 = None \/ split a2 = split a1 ->
  stride_tricks.broadcast_shape (gshape a1) (gshape a2) = Ok s ->
  (exists r,
     produced operation st (binary_op operation (PyRef l1) (PyRef l2) st) r
       (bcast_events first_operator l1 a1 ++ bcast_events second_operator l2 a2) /\
     gshape r = s /\ dtype r = dtype a1 /\ split r = split a1 /\
     device r = device a1 /\ comm r = comm a1) \/
  (exists e,
     operation_raised operation st (binary_op operation (PyRef l1) (PyRef l2) st) e
       (dtype a1)
       (bcast_events first_operator l1 a1 ++ bcast_events second_operator l2 a2)).
Proof.
  intros H1 H2 Hwf1 Hwf2 Hguard Hbs.
  destruct (normalize_handles st l1 l2 a1 a2 s H1 H2 Hwf1 Hwf2 Hguard Hbs)
    as (n & h' & Hn & Hlen & (_ & Hd & _) & Hwf & Hty & <- & <- & <- & <-).
  rewrite <- Hd.
  eapply binary_op_after_normalize; eauto. congruence.
Qed.

(** Two handles whose layouts the guard of line 77 rejects. *)
Lemma binary_op_other_splittings operation st l1 l2 (a1 a2 : DNDarray) :
  heap st !! l1 = Some a1 -> heap st !! l2 = Some a2 ->
  ~ (split a2 = None \/ split a2 = split a1) ->
  binary_op operation (PyRef l1) (PyRef l2) st = (Raise NotImplementedError, st).
Proof.
  intros H1 H2 Hguard.
  pose proof (lookup_lt_Some _ _ _ H1). pose proof (lookup_lt_Some _ _ _ H2).
  unfold binary_op, normalize. run. rewrite !decide_True by done.
  rewrite H1, H2. simpl. by rewrite bool_decide_eq_false_2.
Qed.

Lemma broadcast_aligned_error a b e :
  stride_tricks.broadcast_aligned a b = Raise e -> e = ShapeError.
Proof.
  revert b. induction a as [|x a IH]; intros [|y b]; simpl; try done.
  destruct ((x =? y) || (x =? 1) || (y =? 1)); [|congruence].
  destruct (stride_tricks.broadcast_aligned a b) eqn:Hab; [done|].
  intros [= <-]. eauto.
Qed.

(** Two handles whose global shapes do not broadcast. *)
Lemma binary_op_not_broadcastable operation st l1 l2 (a1 a2 : DNDarray) e :
  heap st !! l1 = Some a1 -> heap st !! l2 = Some a2 ->
  split a2 = None \/ split a2 = split a1 ->
  stride_tricks.broadcast_shape (gshape a1) (gshape a2) = Raise e ->
  binary_op operation (PyRef l1) (PyRef l2) st = (Raise ShapeError, st).
Proof.
  intros H1 H2 Hguard Hbs.
  pose proof (lookup_lt_Some _ _ _ H1). pose proof (lookup_lt_Some _ _ _ H2).
  assert (e = ShapeError) as -> by (by eapply broadcast_aligned_error).
  unfold binary_op, normalize. run. rewrite !decide_True by done.
  rewrite H1, H2. simpl. rewrite bool_decide_eq_true_2 by done. by rewrite Hbs.
Qed.

Lemma binary_op_after_pure_normalize operation (t1 t2 : pyvalue) st n :
  normalize t1 t2 st = (Ok n, st) ->
  well_formed (n_t1 n) -> dtype (n_t2 n) = dtype (n_t1 n) ->
  (exists r,
     produced operation st (binary_op operation t1 t2 st) r [] /\
     gshape r = output_shape n /\ dtype r = dtype (n_t1 n) /\
     split r = output_split n /\ device r = output_device n /\
     comm r = output_comm n) \/
  (exists e,
     operation_raised operation st (binary_op operation t1 t2 st) e (dtype (n_t1 n)) []).
Proof.
  intros Hn. eapply binary_op_after_normalize; [|done].
  rewrite Hn, app_nil_r. by destruct st.
Qed.

Ltac settle_dtype_test :=
  first [ rewrite bool_decide_eq_true_2 by done
        | rewrite bool_decide_eq_false_2 by (by intros ?) ].

(** A numeric scalar first: it takes the type of the second operand. *)
Lemma binary_op_scalar_first operation st ty1 x1 (t2 : pyvalue) ty2 :
  recognized st t2 -> operand_dtype st t2 = Some ty2 ->
  (exists r,
     produced operation st (binary_op operation (PyNum ty1 x1) t2 st) r [] /\
     dtype r = ty2) \/
  (exists e,
     operation_raised operation st (binary_op operation (PyNum ty1 x1) t2 st) e ty2 []).
Proof.
  intros Hrec Hty.
  assert (exists n, normalize (PyNum ty1 x1) t2 st = (Ok n, st) /\
            well_formed (n_t1 n) /\ dtype (n_t2 n) = dtype (n_t1 n) /\
            dtype (n_t1 n) = ty2) as (n & Hn & Hwf & Hsame & Hd).
  { destruct Hrec as [(ty & x2 & ->) | (l2 & -> & Hl2)]; simpl in Hty.
    - injection Hty as ->.
      destruct (decide (ty1 = ty2)) as [Heq | Hne];
        (eexists; split;
           [unfold normalize; run; settle_dtype_test; reflexivity|]);
        simpl; (split; [by split|]); split; congruence.
    - destruct (heap st !! l2) as [a2|] eqn:H2; [|done]. injection Hty as <-.
      destruct (decide (ty1 = dtype a2)) as [Heq | Hne];
        (eexists; split;
           [unfold normalize; run; rewrite decide_True by done; rewrite H2; simpl;
            settle_dtype_test; reflexivity|]);
        simpl; (split; [by split|]); split; congruence. }
  destruct (binary_op_after_pure_normalize operation _ _ st n Hn Hwf Hsame)
    as [(r & Hr & _ & Hdr & _) | (e & He)].
  - left. exists r. split; [done | congruence].
  - right. exists e. by rewrite <- Hd.
Qed.

(** A handle first and a numeric scalar second: the scalar takes the type
    of the handle. *)
Lemma binary_op_scalar_second operation st l1 (a1 : DNDarray) ty2 x2 :
  heap st !! l1 = Some a1 -> well_formed a1 ->
  (exists r,
     produced operation st (binary_op operation (PyRef l1) (PyNum ty2 x2) st) r [] /\
     gshape r = gshape a1 /\ dtype r = dtype a1 /\ split r = split a1 /\
     device r = device a1 /\ comm r = comm a1) \/
  (exists e,
     operation_raised operation st (binary_op operation (PyRef l1) (PyNum ty2 x2) st) e
       (dtype a1) []).
Proof.
  intros H1 Hwf. pose proof (lookup_lt_Some _ _ _ H1).
  assert (exists n, normalize (PyRef l1) (PyNum ty2 x2) st = (Ok n, st) /\
            n_t1 n = a1 /\ dtype (n_t2 n) = dtype a1 /\
            output_shape n = gshape a1 /\ output_split n = split a1 /\
            output_device n = device a1 /\ output_comm n = comm a1)
    as (n & Hn & H1n & Hsame & Hg & Hs & Hdev & Hc).
  { destruct (decide (ty2 = dtype a1)) as [Heq | Hne];
      (eexists; split;
         [unfold normalize; run; rewrite decide_True by done; rewrite H1; simpl;
          settle_dtype_test; reflexivity|]);
      simpl; repeat split; congruence. }
  destruct (binary_op_after_pure_normalize operation _ _ st n Hn)
    as [(r & Hr & Hgr & Hdr & Hsr & Hdevr & Hcr) | (e & He)];
    [by rewrite H1n | by rewrite H1n | |].
  - left. exists r. rewrite H1n in Hdr. split; [done|]. repeat split; congruence.
  - right. exists e. by rewrite H1n in He.
Qed.

Lemma recognized_dec st (v : pyvalue) : recognized st v \/ ~ recognized st v.
Proof.
  destruct v as [| ty x | | l |]; try (right; intros [(? & ? & ?) | (? & ? & ?)]; done).
  - left. left. by eexists _, _.
  - destruct (decide (l < length (heap st))).
    + left. right. by exists l.
    + right. intros [(? & ? & ?) | (? & ? & ?)]; [done|]. simplify_eq. done.
Qed.

(** Every call goes one of the ways of [binary_case]. *)
Lemma binary_op_cases operation (t1 t2 : pyvalue) st :
  Forall well_formed (heap st) -> binary_case operation t1 t2 st.
Proof.
  intros Hwf.
  destruct (binary_op_rejects operation t1 t2 st) as (Hr1 & Hr2 & Hr3).
  assert (forall l a, heap st !! l = Some a -> well_formed a) as Hwf'.
  { intros l a Hl. eapply Forall_lookup_1; eauto. }
  destruct (recognized_dec st t1) as [H1 | H1]; last first.
  { destruct (np_isscalar t1) eqn:Hs.
    - eapply case_raise.
      + by apply Hr2.
      + intros l1 ? ? ? ? ->. done.
    - eapply case_raise.
      + by apply Hr3.
      + intros l1 ? a1 ? ? -> _ Hl1. intros. apply H1. right. exists l1.
        split; [done|]. by eapply lookup_lt_Some. }
  destruct (recognized_dec st t2) as [H2 | H2]; last first.
  { eapply case_raise.
    - by apply Hr1.
    - intros ? l2 ? a2 ? _ -> _ Hl2. intros. apply H2. right. exists l2.
      split; [done|]. by eapply lookup_lt_Some. }
  destruct H1 as [(ty1 & x1 & ->) | (l1 & -> & Hl1)].
  - assert (exists ty2, operand_dtype st t2 = Some ty2) as [ty2 Hty2].
    { destruct H2 as [(ty2 & x2 & ->) | (l2 & -> & Hl2)]; simpl; [by eexists|].
      destruct (lookup_lt_is_Some_2 _ _ Hl2) as [a2 ->]. by eexists. }
    destruct (binary_op_scalar_first operation st ty1 x1 t2 ty2 H2 Hty2)
      as [(r & Hr & Hd) | (e & He)].
    + eapply case_scalar; eauto.
    + eapply case_scalar_raised; eauto.
  - destruct (lookup_lt_is_Some_2 _ _ Hl1) as [a1 Ha1].
    destruct H2 as [(ty2 & x2 & ->) | (l2 & -> & Hl2)].
    + destruct (binary_op_scalar_second operation st l1 a1 ty2 x2 Ha1 (Hwf' _ _ Ha1))
        as [(r & Hr & _ & Hd & _) | (e & He)].
      * eapply case_scalar; eauto. unfold kept_dtype. simpl. by rewrite Ha1.
      * eapply case_scalar_raised; eauto. unfold kept_dtype. simpl. by rewrite Ha1.
    + destruct (lookup_lt_is_Some_2 _ _ Hl2) as [a2 Ha2].
      destruct (decide (split a2 = None \/ split a2 = split a1)) as [Hg | Hg].
      * destruct (stride_tricks.broadcast_shape (gshape a1) (gshape a2)) as [s | e] eqn:Hbs.
        -- destruct (binary_op_handles operation st l1 l2 a1 a2 s Ha1 Ha2
                       (Hwf' _ _ Ha1) (Hwf' _ _ Ha2) Hg Hbs)
             as [(r & Hr & ? & ? & ? & _) | (e & He)].
           ++ eapply case_handles; eauto.
           ++ eapply case_handles_raised; eauto.
        -- eapply case_raise.
           ++ eapply binary_op_not_broadcastable; eauto.
           ++ intros ? ? b1 b2 s' [= <-] [= <-] Hb1 Hb2 _ Hs'.
              rewrite Ha1 in Hb1. rewrite Ha2 in Hb2. simplify_eq. congruence.
      * eapply case_raise.
        -- eapply binary_op_other_splittings; eauto.
        -- intros ? ? b1 b2 s' [= <-] [= <-] Hb1 Hb2 Hg' _.
           rewrite Ha1 in Hb1. rewrite Ha2 in Hb2. simplify_eq. done.
Qed.

(** Reading off a successful call. *)
Lemma produced_facts operation st v st' r bev :
  produced operation st (Ok v, st') r bev ->
  v = PyRef (length (heap st)) /\
  heap st' !! length (heap st) = Some r /\
  trace st' = trace st ++ new_events st st' /\
  exists ev, new_events st st' = bev ++ ev /\
    (ev = [] \/ exists a b, ev = [Apply a b] /\ tdtype a = dtype r /\ tdtype b = dtype r).
Proof.
  intros (h' & ev & Hout & Hlen & Hev). injection Hout as -> ->.
  unfold new_events. simpl. rewrite drop_app_length.
  split; [done|]. split; [by rewrite <- Hlen; apply list_lookup_middle|].
  split; [done|]. exists ev. split; [done|].
  destruct Hev as [[-> _] | (a & b & -> & ? & ? & _)]; [by left|].
  right. by exists a, b.
Qed.

Lemma applied_in_bcast_events o1 l1 (a1 : DNDarray) o2 l2 (a2 : DNDarray) ev ty :
  (ev = [] \/ exists a b, ev = [Apply a b] /\ tdtype a = ty /\ tdtype b = ty) ->
  applied_in ty (bcast_events o1 l1 a1 ++ bcast_events o2 l2 a2 ++ ev).
Proof.
  intros Hev a b. unfold bcast_events.
  destruct (needs_bcast a1), (needs_bcast a2);
    destruct Hev as [-> | (a' & b' & -> & ? & ?)]; simpl;
    rewrite ?elem_of_cons, ?elem_of_nil; intros Hin;
    repeat (destruct Hin as [Hin | Hin];
            [try discriminate Hin; try (by injection Hin as -> ->)|]);
    done.
Qed.

(** The events of the replication: every broadcast comes right after its
    warning, there is no all-reduce, and a broadcast occurs exactly when
    an operand needs one. *)
Lemma replication_events o1 l1 (a1 : DNDarray) o2 l2 (a2 : DNDarray) ev :
  (ev = [] \/ exists a b, ev = [Apply a b]) ->
  let new := bcast_events o1 l1 a1 ++ bcast_events o2 l2 a2 ++ ev in
  (forall c op, Allreduce c op ∉ new) /\
  (forall pre c l post, new = pre ++ Bcast c l :: post ->
     exists pre' o, pre = pre' ++ [Warn o]) /\
  ((exists c l, Bcast c l ∈ new) <-> needs_bcast a1 = true \/ needs_bcast a2 = true).
Proof.
  intros Hev new. subst new. unfold bcast_events.
  destruct (needs_bcast a1), (needs_bcast a2);
    destruct Hev as [-> | (a' & b' & ->)]; simpl.
  all: split;
    [intros c op; rewrite ?elem_of_cons, ?elem_of_nil; intuition discriminate|].
  all: split;
    [ intros pre c l post Hnew;
      repeat (destruct pre as [|? pre]; try discriminate Hnew;
              injection Hnew as <- Hnew;
              try (by eexists [], _); try (by eexists [_; _], _))
    | split;
      [ intros (c & l & Hin); revert Hin;
        rewrite ?elem_of_cons, ?elem_of_nil; intuition discriminate
      | intros Hn; try (by destruct Hn);
        eexists _, _; rewrite ?elem_of_cons; eauto ] ].
Qed.

Lemma produced_ok operation st out r bev :
  produced operation st out r bev -> exists st', out = (Ok (PyRef (length (heap st))), st').
Proof. intros (h' & ev & -> & _). by eexists. Qed.

(** Reading off a call in which the operation raised. *)
Lemma operation_raised_facts operation st res st' e ty bev :
  operation_raised operation st (res, st') e ty bev ->
  res = Raise e /\
  length (heap st') = length (heap st) /\
  trace st' = trace st ++ new_events st st' /\
  exists a b, new_events st st' = bev ++ [Apply a b] /\
    tdtype a = ty /\ tdtype b = ty /\ operation a b = Raise e.
Proof.
  intros (h' & a & b & Hout & Hlen & Ha & Hb & Hop). injection Hout as -> ->.
  unfold new_events. simpl. rewrite drop_app_length.
  split; [done|]. split; [done|]. split; [done|]. by exists a, b.
Qed.

(** The invocation is on record: the state is not the one before the
    call. *)
Lemma operation_raised_state operation st res e ty bev :
  operation_raised operation st (res, st) e ty bev -> False.
Proof.
  intros H. apply operation_raised_facts in H as (_ & _ & Htr & a & b & Hnew & _).
  rewrite Hnew in Htr. apply (f_equal length) in Htr.
  rewrite !length_app in Htr. simpl in Htr. lia.
Qed.

(** C1, as the code has it (line 77): for two handles the hard
    incompatible-layout failure is raised, before anything is invoked or
    changed, exactly when the second operand is split and the first is not
    split along that same axis, an unsplit first operand included. When
    the second operand is unsplit or the split axes match and the global
    shapes broadcast, the call reaches the element-wise operation on the
    local buffers: it returns a new handle of the broadcast shape, unless
    the operation itself raises. *)
Theorem binary_op_layout_guard operation st l1 l2 (a1 a2 : DNDarray) :
  heap st !! l1 = Some a1 -> heap st !! l2 = Some a2 ->
  well_formed a1 -> well_formed a2 ->
  (binary_op operation (PyRef l1) (PyRef l2) st = (Raise NotImplementedError, st)
     <-> split a2 <> None /\ split a2 <> split a1) /\
  (forall s,
      split a2 = None \/ split a2 = split a1 ->
      stride_tricks.broadcast_shape (gshape a1) (gshape a2) = Ok s ->
      (exists r,
         produced operation st (binary_op operation (PyRef l1) (PyRef l2) st) r
           (bcast_events first_operator l1 a1 ++ bcast_events second_operator l2 a2) /\
         gshape r = s /\ split r = split a1) \/
      (exists e,
         operation_raised operation st (binary_op operation (PyRef l1) (PyRef l2) st) e
           (dtype a1)
           (bcast_events first_operator l1 a1 ++ bcast_events second_operator l2 a2))).
Proof.
  intros H1 H2 Hwf1 Hwf2. split.
  - destruct (decide (split a2 = None \/ split a2 = split a1)) as [Hg | Hg].
    + split; [|intros [? ?]; destruct Hg; done].
      destruct (stride_tricks.broadcast_shape (gshape a1) (gshape a2)) as [s | e] eqn:Hbs.
      * destruct (binary_op_handles operation st l1 l2 a1 a2 s H1 H2 Hwf1 Hwf2 Hg Hbs)
          as [(r & Hr & _) | (e & He)].
        -- apply produced_ok in Hr as [st' Hr]. rewrite Hr. done.
        -- intros Heq. rewrite Heq in He. by apply operation_raised_state in He.
      * erewrite binary_op_not_broadcastable by eauto. done.
    + erewrite binary_op_other_splittings by eauto. split; [|done].
      intros _. split; intros ?; apply Hg; [by left | by right].
  - intros s Hg Hbs.
    destruct (binary_op_handles operation st l1 l2 a1 a2 s H1 H2 Hwf1 Hwf2 Hg Hbs)
      as [(r & Hr & ? & ? & ? & _) | (e & He)]; [left | right]; eauto.
Qed.

(** The type of the result is the type of the operand that keeps its
    type, and the operation runs on buffers of that type. *)
Lemma binary_op_dtype operation (t1 t2 : pyvalue) st v st' :
  Forall well_formed (heap st) ->
  binary_op operation t1 t2 st = (Ok v, st') ->
  exists r ty,
    v = PyRef (length (heap st)) /\ heap st' !! length (heap st) = Some r /\
    kept_dtype st t1 t2 = Some ty /\ dtype r = ty /\
    applied_in ty (new_events st st').
Proof.
  intros Hwf Hok.
  destruct (binary_op_cases operation t1 t2 st Hwf)
    as [e Hraise _ | r ty _ Hkept Hr Hd | l1 l2 a1 a2 s r -> -> H1 H2 _ _ Hr _ Hd _
        | e ty _ _ He | l1 l2 a1 a2 s e -> -> _ _ _ _ He].
  - congruence.
  - rewrite Hok in Hr.
    destruct (produced_facts _ _ _ _ _ _ Hr) as (-> & Hl & _ & ev & Hnew & Hev).
    exists r, ty. repeat (split; [done|]). rewrite Hnew, Hd in *.
    intros a b. destruct Hev as [-> | (a' & b' & -> & ? & ?)]; simpl.
    + by rewrite elem_of_nil.
    + rewrite list_elem_of_singleton. by intros [= -> ->].
  - rewrite Hok in Hr.
    destruct (produced_facts _ _ _ _ _ _ Hr) as (-> & Hl & _ & ev & Hnew & Hev).
    exists r, (dtype a1). split; [done|]. split; [done|].
    split; [by unfold kept_dtype; simpl; rewrite H1|]. split; [done|].
    rewrite Hnew, <- app_assoc. apply applied_in_bcast_events. by rewrite <- Hd.
  - rewrite Hok in He. by apply operation_raised_facts in He as [? _].
  - rewrite Hok in He. by apply operation_raised_facts in He as [? _].
Qed.

Lemma promote_types_le ty1 ty2 :
  types.type_rank ty2 <= types.type_rank ty1 -> types.promote_types ty1 ty2 = ty1.
Proof.
  intros Hle. unfold types.promote_types.
  destruct (Nat.ltb_spec (types.type_rank ty1) (types.type_rank ty2)); [lia | done].
Qed.

Lemma type_rank_inj ty1 ty2 : types.type_rank ty1 = types.type_rank ty2 -> ty1 = ty2.
Proof. by destruct ty1, ty2. Qed.

Lemma promote_types_ge ty1 ty2 :
  types.type_rank ty1 <= types.type_rank ty2 -> types.promote_types ty1 ty2 = ty2.
Proof.
  intros Hle. unfold types.promote_types.
  destruct (Nat.ltb_spec (types.type_rank ty1) (types.type_rank ty2)); [done|].
  apply type_rank_inj. lia.
Qed.

(** C2, as the code has it (lines 61-62, 105-106, 111 and 125): which
    operand is cast is decided by position. A scalar against an array
    handle is cast to the element type of the array, whatever the ranks,
    and the result carries the type of the array. Whenever the operand
    cast by position (the first one when it is a scalar, the second one
    otherwise) is not the higher ranked one, it is cast to the promoted
    type, the operation runs on buffers of the promoted type and the
    returned handle carries it. *)
Theorem binary_op_result_type operation (t1 t2 : pyvalue) st ty1 ty2 v st' :
  Forall well_formed (heap st) ->
  operand_dtype st t1 = Some ty1 -> operand_dtype st t2 = Some ty2 ->
  binary_op operation t1 t2 st = (Ok v, st') ->
  exists l r, v = PyRef l /\ heap st' !! l = Some r /\
    (np_isscalar t1 = true -> np_isscalar t2 = false ->
       dtype r = ty2 /\ applied_in ty2 (new_events st st')) /\
    (np_isscalar t1 = false -> np_isscalar t2 = true ->
       dtype r = ty1 /\ applied_in ty1 (new_events st st')) /\
    (np_isscalar t1 = false -> types.type_rank ty2 <= types.type_rank ty1 ->
       dtype r = types.promote_types ty1 ty2 /\
       applied_in (types.promote_types ty1 ty2) (new_events st st')) /\
    (np_isscalar t1 = true -> types.type_rank ty1 <= types.type_rank ty2 ->
       dtype r = types.promote_types ty1 ty2 /\
       applied_in (types.promote_types ty1 ty2) (new_events st st')).
Proof.
  intros Hwf Hty1 Hty2 Hok.
  destruct (binary_op_dtype operation t1 t2 st v st' Hwf Hok)
    as (r & ty & -> & Hl & Hkept & Hd & Happ).
  exists (length (heap st)), r. split; [done|]. split; [done|].
  unfold kept_dtype in Hkept.
  split; [|split; [|split]]; intros Hs1 Hs2; rewrite Hs1 in Hkept;
    rewrite ?(promote_types_le _ _ Hs2), ?(promote_types_ge _ _ Hs2);
    simplify_eq; done.
Qed.

(** C3, as the code has it (lines 75-100): the replication is part of the
    branch for two handles and comes after the layout guard and the
    broadcast of the global shapes. A call broadcasts if and only if both
    operands are handles, the second one is unsplit or split like the
    first, the global shapes broadcast, and one of the operands is split
    with global extent 1 along its split axis on a communicator of more
    than one participant. Every broadcast comes right after a warning,
    and there is no other communication; in particular none for a scalar
    operand, and none for two operands split along the same axis with
    extents greater than 1. *)
Theorem binary_op_communication operation (t1 t2 : pyvalue) st :
  Forall well_formed (heap st) ->
  let st' := snd (binary_op operation t1 t2 st) in
  trace st' = trace st ++ new_events st st' /\
  (forall c op, Allreduce c op ∉ new_events st st') /\
  (forall pre c l post, new_events st st' = pre ++ Bcast c l :: post ->
     exists pre' o, pre = pre' ++ [Warn o]) /\
  ((exists c l, Bcast c l ∈ new_events st st') <->
   (exists l1 l2 a1 a2 s,
       t1 = PyRef l1 /\ t2 = PyRef l2 /\
       heap st !! l1 = Some a1 /\ heap st !! l2 = Some a2 /\
       (split a2 = None \/ split a2 = split a1) /\
       stride_tricks.broadcast_shape (gshape a1) (gshape a2) = Ok s /\
       (needs_bcast a1 = true \/ needs_bcast a2 = true))).
Proof.
  intros Hwf st'. subst st'.
  destruct (binary_op_cases operation t1 t2 st Hwf)
    as [e Hraise Hno | r ty Hsc _ Hr _ | l1 l2 a1 a2 s r -> -> H1 H2 Hg Hbs Hr _ _ _
        | e ty Hsc _ He | l1 l2 a1 a2 s e -> -> H1 H2 Hg Hbs He].
  - rewrite Hraise. unfold new_events. simpl. rewrite drop_all, app_nil_r.
    split; [done|]. split; [intros ? ?; apply not_elem_of_nil|].
    split; [by intros [|? ?] ? ? ? ?|].
    split.
    + intros (? & ? & Hin). by apply elem_of_nil in Hin.
    + intros (l1 & l2 & a1 & a2 & s & -> & -> & ? & ? & ? & ? & _). exfalso. eauto.
  - destruct (binary_op operation t1 t2 st) as [res st'] eqn:Hout.
    destruct (produced_ok _ _ _ _ _ Hr) as [st'' [= -> <-]].
    destruct (produced_facts _ _ _ _ _ _ Hr) as (_ & _ & Htr & ev & Hnew & Hev).
    simpl. split; [done|]. rewrite Hnew. simpl.
    assert (forall c l, Bcast c l ∉ ev) as Hnb.
    { intros c l. destruct Hev as [-> | (a & b & -> & _)];
        [apply not_elem_of_nil | by rewrite list_elem_of_singleton]. }
    split; [|split; [|split]].
    + intros c op. destruct Hev as [-> | (a & b & -> & _)];
        [apply not_elem_of_nil | by rewrite list_elem_of_singleton].
    + intros pre c l post Heq. exfalso. apply (Hnb c l). rewrite Heq.
      apply elem_of_app. right. left.
    + intros (c & l & Hin). by apply Hnb in Hin.
    + intros (l1 & l2 & ? & ? & ? & -> & -> & _). by destruct Hsc.
  - destruct (binary_op operation (PyRef l1) (PyRef l2) st) as [res st'] eqn:Hout.
    destruct (produced_ok _ _ _ _ _ Hr) as [st'' [= -> <-]].
    destruct (produced_facts _ _ _ _ _ _ Hr) as (_ & _ & Htr & ev & Hnew & Hev).
    simpl. split; [done|]. rewrite Hnew, <- app_assoc.
    destruct (replication_events first_operator l1 a1 second_operator l2 a2 ev)
      as (Hna & Hpre & Hiff).
    { destruct Hev as [-> | (a & b & -> & _)]; [by left | right; by eexists _, _]. }
    split; [done|]. split; [done|]. rewrite Hiff. split.
    + intros Hn. by exists l1, l2, a1, a2, s.
    + intros (? & ? & b1 & b2 & ? & [= <-] & [= <-] & Hb1 & Hb2 & _ & _ & Hn).
      rewrite H1 in Hb1. rewrite H2 in Hb2. by simplify_eq.
  - destruct (binary_op operation t1 t2 st) as [res st'] eqn:Hout.
    destruct (operation_raised_facts _ _ _ _ _ _ _ He) as (_ & _ & Htr & a & b & Hnew & _).
    simpl. split; [done|]. rewrite Hnew. simpl.
    split; [|split; [|split]].
    + intros c op. by rewrite list_elem_of_singleton.
    + intros pre c l post Heq. by destruct pre as [|? [|? ?]].
    + intros (c & l & Hin). by apply list_elem_of_singleton in Hin.
    + intros (l1 & l2 & ? & ? & ? & -> & -> & _). by destruct Hsc.
  - destruct (binary_op operation (PyRef l1) (PyRef l2) st) as [res st'] eqn:Hout.
    destruct (operation_raised_facts _ _ _ _ _ _ _ He) as (_ & _ & Htr & a & b & Hnew & _).
    simpl. split; [done|]. rewrite Hnew, <- app_assoc.
    destruct (replication_events first_operator l1 a1 second_operator l2 a2 [Apply a b])
      as (Hna & Hpre & Hiff).
    { right. by eexists _, _. }
    split; [done|]. split; [done|]. rewrite Hiff. split.
    + intros Hn. by exists l1, l2, a1, a2, s.
    + intros (? & ? & b1 & b2 & ? & [= <-] & [= <-] & Hb1 & Hb2 & _ & _ & Hn).
      rewrite H1 in Hb1. rewrite H2 in Hb2. by simplify_eq.
Qed.

(** Lines 112-114: an empty shard of a split first operand is returned
    cast, and the operation is not invoked. *)
Lemma binary_op_first_shard_empty operation st l1 (a1 : DNDarray) ty2 x2 :
  heap st !! l1 = Some a1 -> well_formed a1 -> first_shard_empty a1 = true ->
  binary_op operation (PyRef l1) (PyNum ty2 x2) st =
    (Ok (PyRef (length (heap st))),
     {| heap := heap st ++
                [{| array := type_ (array a1) (dtype a1); gshape := gshape a1;
                    dtype := dtype a1; split := split a1; device := device a1;
                    comm := comm a1 |}];
        trace := trace st |}).
Proof.
  intros H1 Hwf Hempty. pose proof (lookup_lt_Some _ _ _ H1).
  unfold binary_op, bind at 1.
  assert (exists b2, dtype b2 = dtype a1 /\
            normalize (PyRef l1) (PyNum ty2 x2) st =
              (Ok {| n_t1 := a1; n_t2 := b2; output_shape := gshape a1;
                     output_split := split a1; output_device := device a1;
                     output_comm := comm a1 |}, st)) as (b2 & Hb2 & ->).
  { unfold normalize. run. rewrite decide_True by done. rewrite H1. simpl.
    case_bool_decide as Hty; simpl; eexists; (split; [|reflexivity]); simpl.
    - done.
    - exact Hty. }
  unfold bind. simpl. rewrite (local_result_spec _ _ _ _ Hwf), Hempty.
  simpl. rewrite Hb2, promote_types_idem. done.
Qed.

(** C10, as the code has it (lines 42, 48, 59, 73, 103 and 109): with a
    supported first operand, a second operand that is neither a numeric
    scalar nor a handle is a [TypeError]; a first operand that is a scalar
    the factory rejects is a [TypeError]; a first operand that is neither
    a scalar nor a handle is a [NotImplementedError]. *)
Theorem binary_op_unsupported_operand operation (t1 t2 : pyvalue) st :
  (recognized st t1 -> ~ recognized st t2 ->
     binary_op operation t1 t2 st = (Raise TypeError, st)) /\
  (~ recognized st t1 -> np_isscalar t1 = true ->
     binary_op operation t1 t2 st = (Raise TypeError, st)) /\
  (~ recognized st t1 -> np_isscalar t1 = false ->
     binary_op operation t1 t2 st = (Raise NotImplementedError, st)).
Proof. apply binary_op_rejects. Qed.

End BinaryOp.

Section BinaryOpExamples.
#[local] Existing Instance Zrt.runtime.

Lemma objects_well_formed : Forall well_formed (heap Examples.initial).
Proof. repeat constructor; simpl; lia. Defined.

(** The guard accepts rank 0's shard of a 4-element array split along
    axis 0 against an unsplit array of one element, and the sum of the
    two local buffers is returned. *)
Lemma binary_op_layout_guard_witness :
  well_formed
    (Examples.handle (Examples.floats [2] [3; 4]%Z) [4] (Some 0) (Examples.world2 0)) /\
  exists r,
    produced Zrt.add Examples.initial
      (binary_op Zrt.add (PyRef 6) (PyRef 4) Examples.initial) r [] /\
    gshape r = [4] /\ split r = Some 0 /\
    array r = Examples.floats [2] [-6; -5]%Z.
Proof.
  assert (well_formed
    (Examples.handle (Examples.floats [2] [3; 4]%Z) [4] (Some 0) (Examples.world2 0)))
    as Hwf by (split; [reflexivity | simpl; lia]).
  split; [exact Hwf|].
  destruct (proj2 (binary_op_layout_guard (R := Zrt.runtime) Zrt.add Examples.initial
                     6 4 _ _ eq_refl eq_refl Hwf (conj eq_refl I))
              [4] (or_introl eq_refl) eq_refl)
    as [(r & Hr & Hg & Hs) | (e & h' & a & b & Hout & _)].
  - exists r. split; [exact Hr|]. split; [exact Hg|]. split; [exact Hs|].
    destruct Hr as (h & ev & Hout & Hlen & _).
    assert (heap (snd (binary_op Zrt.add (PyRef 6) (PyRef 4) Examples.initial)) !! 8
            = Some (Examples.handle (Examples.floats [2] [-6; -5]%Z) [4] (Some 0)
                      (Examples.world2 0))) as Hres by reflexivity.
    rewrite Hout in Hres. simpl in Hres, Hlen.
    rewrite lookup_app_r in Hres by lia. rewrite Hlen in Hres. simpl in Hres.
    injection Hres as ->. reflexivity.
  - assert (fst (binary_op Zrt.add (PyRef 6) (PyRef 4) Examples.initial) = Ok (PyRef 8))
      as Hres by reflexivity.
    rewrite Hout in Hres. discriminate Hres.
Defined.

(** C1, the sentence as written fails: an unsplit first operand against a
    second operand split along axis 1 is rejected with the hard failure,
    although one of the two is unsplit. *)
Lemma binary_op_unsplit_first_rejected :
  ~ layout_rule_as_stated Zrt.add Examples.initial 0 3.
Proof.
  intros H. edestruct H as [Hproceeds _]; [reflexivity | reflexivity |].
  apply Hproceeds; [right; left; reflexivity | reflexivity].
Qed.

(** An integer array plus a float scalar: the scalar is cast to the
    integer type and the result is an integer array. *)
Lemma binary_op_result_type_witness :
  let st := Examples.initial in
  let st' := snd (binary_op Zrt.add (PyRef 0) (PyNum types.float32 2%Z) st) in
  Forall well_formed (heap st) /\
  binary_op Zrt.add (PyRef 0) (PyNum types.float32 2%Z) st = (Ok (PyRef 8), st') /\
  exists l r, PyRef 8 = PyRef l /\ heap st' !! l = Some r /\
    dtype r = types.int32 /\ applied_in types.int32 (new_events st st').
Proof.
  intros st st'. split; [exact objects_well_formed|]. split; [reflexivity|].
  destruct (binary_op_result_type (R := Zrt.runtime) Zrt.add (PyRef 0)
              (@PyNum Zrt.runtime types.float32 2%Z) st
              types.int32 types.float32 (PyRef 8) st'
              objects_well_formed eq_refl eq_refl eq_refl)
    as (l & r & Hv & Hl & _ & Harray & _).
  exists l, r. split; [exact Hv|]. split; [exact Hl|].
  exact (Harray eq_refl eq_refl).
Defined.

(** C2, the sentence as written fails: for an integer array and a float
    scalar the promoted type is the float type, the returned handle is an
    integer array. *)
Lemma binary_op_scalar_not_promoted :
  ~ promotion_as_stated Zrt.add Examples.initial (PyRef 0) (PyNum types.float32 2%Z).
Proof.
  intros H.
  edestruct H as (l & r & Hv & Hl & Hd & _);
    [reflexivity | reflexivity | discriminate | reflexivity |].
  injection Hv as <-.
  assert (dtype r = types.int32) as Hc by (by injection Hl as <-).
  rewrite Hd in Hc. discriminate Hc.
Qed.

(** A split array of global extent 1 against itself on two processes:
    its shard is replicated. *)
Lemma binary_op_communication_witness :
  let st := Examples.initial in
  let st' := snd (binary_op Zrt.add (PyRef 1) (PyRef 1) st) in
  Forall well_formed (heap st) /\
  exists c l, Bcast c l ∈ new_events st st'.
Proof.
  intros st st'. split; [exact objects_well_formed|].
  destruct (binary_op_communication (R := Zrt.runtime) Zrt.add (PyRef 1) (PyRef 1) st objects_well_formed)
    as (_ & _ & _ & Hiff).
  apply (proj2 Hiff).
  eexists 1, 1, _, _, [1].
  repeat (split; [reflexivity|]). split; [by right|]. split; [reflexivity|].
  left. reflexivity.
Defined.

(** C3, the sentence as written fails: a split array of global extent 1
    on two processes against a scalar is not broadcast. *)
Lemma binary_op_scalar_no_bcast :
  ~ bcast_rule_as_stated Zrt.add Examples.initial (PyRef 1) (PyNum types.float32 2%Z).
Proof.
  intros [_ H]. destruct H as (c & l & Hin).
  - eexists 1, _. split; [by left|]. split; reflexivity.
  - assert (new_events Examples.initial
              (snd (binary_op Zrt.add (PyRef 1) (PyNum types.float32 2%Z) Examples.initial))
            = []) as Hnew by reflexivity.
    rewrite Hnew in Hin. by apply elem_of_nil in Hin.
Qed.

(** A list as second operand of a handle. *)
Lemma binary_op_unsupported_operand_witness :
  recognized Examples.initial (PyRef 0) /\
  ~ recognized Examples.initial PyObj /\
  binary_op Zrt.add (PyRef 0) PyObj Examples.initial
    = (Raise TypeError, Examples.initial).
Proof.
  assert (recognized Examples.initial (PyRef 0)) as H1.
  { right. exists 0. split; [reflexivity | simpl; lia]. }
  assert (~ recognized Examples.initial PyObj) as H2.
  { intros [(? & ? & ?) | (? & ? & ?)]; discriminate. }
  split; [exact H1|]. split; [exact H2|].
  exact (proj1 (binary_op_unsupported_operand Zrt.add
                  (PyRef 0) PyObj Examples.initial) H1 H2).
Defined.

(** C10, the sentence as written fails: a list as first operand is a
    [NotImplementedError]. *)
Lemma binary_op_first_operand_not_type_error :
  ~ type_error_as_stated Zrt.add Examples.initial
      PyObj (PyNum types.int64 7%Z).
Proof.
  intros H. unfold type_error_as_stated in H.
  assert (Raise NotImplementedError = @Raise pyvalue TypeError) as Habs; [|discriminate].
  apply H. left. intros [(? & ? & ?) | (? & ? & ?)]; discriminate.
Qed.

(** C4, the code at an empty shard of the second operand: a scalar first,
    the second operand split along axis 0 with no element on this process.
    The test of line 117 repeats the one of line 112, so the operation is
    invoked on the empty buffer. *)
Theorem binary_op_second_shard_empty_applies :
  let shard := Examples.handle (Examples.floats [0] []) [1] (Some 0) (Examples.world2 1) in
  let out := binary_op Zrt.add (PyNum types.int64 7%Z) (PyRef 1)
               Examples.initial in
  heap Examples.initial !! 1 = Some shard /\
  split shard = Some 0 /\ lshape shard !! 0 = Some 0 /\
  fst out = Ok (PyRef 8) /\
  trace (snd out) = [Apply (Examples.floats [1] [7]%Z) (Examples.floats [0] [])] /\
  Zrt.add (Examples.floats [1] [7]%Z) (Examples.floats [0] [])
    = Ok (Examples.floats [0] []) /\
  array <$> heap (snd out) !! 8 = Some (Examples.floats [0] []).
Proof. cbv zeta. repeat split. Qed.

End BinaryOpExamples.

(** ** Properties of [__local_op] *)

Section LocalOp.
Context {R : Runtime}.
Implicit Types (st : state) (l : loc).

Lemma multiples_of_state (a b : shape) st :
  snd (multiples_of a b st) = st.
Proof.
  revert b st. induction a as [|x a IH]; intros [|y b] st; simpl; try done.
  destruct (y =? 0); [done|]. unfold bind. specialize (IH b st).
  destruct (multiples_of a b st) as [[ms | e] st2]; simpl in *; by subst.
Qed.

(** C9, as the code has it (lines 162-168 and 174-183): with [out]
    absent the call returns a fresh handle with the global shape, split
    axis, device and communicator of the input, whose element type is the
    promotion of the input's type with [float32] and whose buffer is the
    operation applied to the input's buffer cast to that type (what the
    operation raises is raised, and nothing is created). With [out]
    given, every successful call returns [out] itself: its buffer is
    written, its element type and the rest of its layout stay as they
    were. *)
Theorem local_op_result (operation : buffer -> option buffer -> result buffer) st lx
    (tx : DNDarray) :
  heap st !! lx = Some tx ->
  let p := types.promote_types (dtype tx) types.float32 in
  local_op operation (PyRef lx) PyNone st =
    match operation (type_ (array tx) p) None with
    | Ok res =>
        (Ok (PyRef (length (heap st))),
         {| heap := heap st ++
                    [{| array := res;
                        gshape := gshape tx; dtype := p; split := split tx;
                        device := device tx; comm := comm tx |}];
            trace := trace st |})
    | Raise e => (Raise e, st)
    end /\
  (forall lo tout v st',
      heap st !! lo = Some tout ->
      local_op operation (PyRef lx) (PyRef lo) st = (Ok v, st') ->
      v = PyRef lo /\
      exists a written,
        (a = type_ (array tx) p \/ exists ms, a = torch_repeat (type_ (array tx) p) ms) /\
        operation a (Some (array tout)) = Ok written /\
        st' = {| heap := <[lo := set_array tout written]> (heap st);
                 trace := trace st |}).
Proof.
  intros Hx p. pose proof (lookup_lt_Some _ _ _ Hx) as Hlx. split.
  - unfold local_op. run. rewrite decide_True by done. rewrite Hx. simpl.
    fold p. by destruct (operation (type_ (array tx) p) None).
  - intros lo tout v st' Ho. pose proof (lookup_lt_Some _ _ _ Ho) as Hlo.
    unfold local_op. run. rewrite !decide_True by done.
    rewrite bool_decide_eq_true_2 by eauto. simpl. rewrite Hx, Ho. simpl.
    destruct (stride_tricks.broadcast_shape (lshape tx) (lshape tout)) as [bs | e];
      [|done].
    pose proof (multiples_of_state bs
                  (replicate (length bs - length (lshape tx)) 1 ++ lshape tx) st) as Hst.
    destruct (multiples_of bs _ st) as [[ms | e] st2]; simpl in Hst; subst st2; [|done].
    destruct (operation _ (Some (array tout))) as [written | e] eqn:Hop; [|done].
    intros [= <- <-]. split; [done|].
    eexists _, written. split; [|split; [exact Hop | reflexivity]].
    destruct (existsb _ ms); [right; by eexists | by left].
Qed.

End LocalOp.

Section LocalOpExamples.
#[local] Existing Instance Zrt.runtime.

(** The absolute value of an unsplit 2x3 integer array is a new float
    array of the same shape. *)
Lemma local_op_result_witness :
  let out := local_op Zrt.abs (PyRef 0) PyNone Examples.initial in
  heap Examples.initial !! 0
    = Some (Examples.handle (Examples.ints [2; 3] [1; 2; 3; 4; 5; 6]%Z) [2; 3] None
              Examples.world1) /\
  fst out = Ok (PyRef 8) /\
  heap (snd out) !! 8
    = Some {| array := Examples.floats [2; 3] [1; 2; 3; 4; 5; 6]%Z;
              gshape := [2; 3]; dtype := types.float32; split := None;
              device := None; comm := Examples.world1 |}.
Proof.
  intros out. subst out. split; [reflexivity|].
  rewrite (proj1 (local_op_result (R := Zrt.runtime) Zrt.abs Examples.initial 0 _ eq_refl)).
  split; reflexivity.
Defined.

(** C9, the sentence as written fails: the square of a float input,
    copied into a double [out], returns the double handle, and the
    promotion of the input's type with [float32] is [float32]. *)
Lemma local_op_out_keeps_type :
  ~ local_op_type_as_stated Zrt.square Examples.initial (PyRef 4) (PyRef 5).
Proof.
  intros H.
  destruct (H 4 _ (PyRef 5)
              (snd (local_op (R := Zrt.runtime) Zrt.square (PyRef 4) (PyRef 5)
                      Examples.initial))
              eq_refl eq_refl eq_refl)
    as (l & r & Hv & Hl & Hd).
  injection Hv as <-.
  assert (dtype r = types.float64) as Hc by (by injection Hl as <-).
  rewrite Hd in Hc. discriminate Hc.
Qed.

End LocalOpExamples.

(** ** Properties of [__reduce_op] *)

Section ReduceOp.
Context {R : Runtime}.
Implicit Types (st : state) (l : loc).

Lemma across_split_spec (x : DNDarray) (axn : stride_tricks.axis_t) :
  across_split x (axis_tuple axn) = true <-> reduces_split_axis x axn.
Proof.
  unfold across_split, reduces_split_axis.
  destruct (split x) as [s|]; [|done].
  destruct axn as [| a | l]; simpl; rewrite ?bool_decide_eq_true; [done| |done].
  rewrite list_elem_of_singleton. done.
Qed.

Lemma state_eta st : {| heap := heap st; trace := trace st |} = st.
Proof. by destruct st. Qed.

(** The five assignments to [out], also when [out] is [x] itself. *)
Lemma overwrite_spec lo lx (tx tout : DNDarray) partial ty split1 st :
  heap st !! lx = Some tx -> heap st !! lo = Some tout ->
  overwrite lo lx partial ty split1 st =
    (Ok tt,
     {| heap := <[lo := {| array := partial; gshape := gshape tout; dtype := ty;
                           split := split1; device := device tx; comm := comm tx |}]>
                  (heap st);
        trace := trace st |}).
Proof.
  intros Hx Ho. pose proof (lookup_lt_Some _ _ _ Ho) as Hlo.
  unfold overwrite. run. rewrite Ho. simpl.
  repeat (rewrite list_lookup_insert_eq by (by rewrite ?length_insert); simpl).
  destruct (decide (lo = lx)) as [-> | Hne].
  - assert (tout = tx) as -> by congruence.
    repeat (rewrite list_lookup_insert_eq by (by rewrite ?length_insert); simpl).
    by rewrite !list_insert_insert_eq.
  - repeat (rewrite !list_lookup_insert_ne by done; rewrite Hx; simpl;
            rewrite ?list_lookup_insert_eq by (by rewrite ?length_insert); simpl).
    by rewrite !list_insert_insert_eq.
Qed.

(** The dispatcher computes its closed form. *)
Lemma reduce_op_closed_form partial_op reduction_op axis keepdim st lx (tx : DNDarray)
    (out : pyvalue) (o : option (loc * DNDarray)) :
  heap st !! lx = Some tx ->
  match o with
  | Some (lo, tout) => out = PyRef lo /\ heap st !! lo = Some tout
  | None => out = PyNone
  end ->
  reduce_op (PyRef lx) partial_op reduction_op axis keepdim out st
    = reduce_outcome partial_op reduction_op axis keepdim st tx o.
Proof.
  intros Hx Ho. pose proof (lookup_lt_Some _ _ _ Hx) as Hlx.
  unfold reduce_op, reduce_outcome. run. rewrite decide_True by done.
  destruct o as [[lo tout]|].
  - destruct Ho as [-> Ho]. pose proof (lookup_lt_Some _ _ _ Ho) as Hlo.
    rewrite decide_True by done. rewrite bool_decide_eq_true_2 by eauto. simpl.
    rewrite Hx.
    destruct (stride_tricks.sanitize_axis (gshape tx) axis) as [axn|e]; [|done].
    destruct (local_phase partial_op tx (axis_tuple axn) keepdim)
      as [[partial oshape]|e]; [|done].
    rewrite Ho. simpl. case_bool_decide; [done|]. simpl. rewrite Hx. simpl.
    unfold reduced, combined, allreduce_events.
    destruct (across_split tx (axis_tuple axn)); simpl;
      [destruct (MPI.is_distributed (comm tx)); simpl|].
    all: rewrite ?app_nil_r, ?state_eta;
      destruct (tensor_type reduction_op _) as [ty|e]; [|done].
    all: erewrite overwrite_spec by eauto; done.
  - subst out. simpl. rewrite Hx.
    destruct (stride_tricks.sanitize_axis (gshape tx) axis) as [axn|e]; [|done].
    destruct (local_phase partial_op tx (axis_tuple axn) keepdim)
      as [[partial oshape]|e]; [|done].
    simpl. rewrite Hx. simpl.
    unfold reduced, combined, allreduce_events.
    destruct (across_split tx (axis_tuple axn)); simpl;
      [destruct (MPI.is_distributed (comm tx)); simpl|].
    all: rewrite ?app_nil_r, ?state_eta;
      destruct (tensor_type reduction_op _) as [ty|e]; [|done];
      simpl; rewrite ?Hx; done.
Qed.

(** The [out] keyword is absent, a handle, or rejected at line 193. *)
Lemma reduce_op_out_cases partial_op reduction_op axis keepdim st lx (tx : DNDarray)
    (out : pyvalue) :
  heap st !! lx = Some tx ->
  (exists o : option (loc * DNDarray),
      match o with
      | Some (lo, tout) => out = PyRef lo /\ heap st !! lo = Some tout
      | None => out = PyNone
      end) \/
  reduce_op (PyRef lx) partial_op reduction_op axis keepdim out st = (Raise TypeError, st).
Proof.
  intros Hx. pose proof (lookup_lt_Some _ _ _ Hx) as Hlx.
  destruct out as [| ty v | | lo |].
  - left. by exists None.
  - right. unfold reduce_op. run. by rewrite decide_True.
  - right. unfold reduce_op. run. by rewrite decide_True.
  - destruct (heap st !! lo) as [tout|] eqn:Ho.
    + left. by exists (Some (lo, tout)).
    + right. apply lookup_ge_None in Ho.
      unfold reduce_op. run. rewrite decide_True by done.
      rewrite decide_False by lia. done.
  - right. unfold reduce_op. run. by rewrite decide_True.
Qed.

(** C5: for every call of [reduce_op] that returns, if the normalized
    axis set includes the split axis of the input, or the axis is [None]
    and the input is split, the returned handle is unsplit and the
    in-place all-reduce with the combine operator is invoked exactly when
    the communicator has more than one participant; otherwise no
    all-reduce is invoked and the returned handle keeps the split axis of
    the input. In place: the buffer of the returned handle is the partial
    result of the local phase, holding what the all-reduce delivered when
    it was invoked and the partial result itself when it was not. *)
Theorem reduce_op_split partial_op reduction_op axis keepdim (out : pyvalue)
    st lx (tx : DNDarray) v st' :
  heap st !! lx = Some tx ->
  reduce_op (PyRef lx) partial_op reduction_op axis keepdim out st = (Ok v, st') ->
  exists l r axn partial oshape,
    v = PyRef l /\ heap st' !! l = Some r /\
    stride_tricks.sanitize_axis (gshape tx) axis = Ok axn /\
    local_phase partial_op tx (axis_tuple axn) keepdim = Ok (partial, oshape) /\
    trace st' = trace st ++ new_events st st' /\
    tshape (array r) = tshape partial /\ tdtype (array r) = tdtype partial /\
    (reduces_split_axis tx axn ->
       split r = None /\
       new_events st st' =
         (if MPI.is_distributed (comm tx) then [Allreduce (comm tx) reduction_op] else []) /\
       tdata (array r) =
         (if MPI.is_distributed (comm tx)
          then Allreduce_recv (comm tx) reduction_op partial
          else tdata partial)) /\
    (~ reduces_split_axis tx axn ->
       split r = split tx /\ new_events st st' = [] /\ array r = partial).
Proof.
  intros Hx Hok.
  destruct (reduce_op_out_cases partial_op reduction_op axis keepdim st lx tx out Hx)
    as [[o Ho] | Herr]; [|congruence].
  rewrite (reduce_op_closed_form _ _ _ _ _ _ _ _ _ Hx Ho) in Hok.
  unfold reduce_outcome in Hok.
  destruct (stride_tricks.sanitize_axis (gshape tx) axis) as [axn|e]; [|done].
  destruct (local_phase partial_op tx (axis_tuple axn) keepdim)
    as [[partial oshape]|e] eqn:Hlp; [|done].
  destruct (match o with Some (_, tout) => bool_decide (gshape tout <> oshape)
                       | None => false end); [done|].
  destruct (tensor_type reduction_op _) as [ty|e]; [|done].
  pose proof (across_split_spec tx axn) as Hspec.
  assert (exists l r, v = PyRef l /\ heap st' !! l = Some r /\
            r = reduced reduction_op tx (axis_tuple axn) partial ty (gshape r) /\
            trace st' = trace st ++ allreduce_events reduction_op tx (axis_tuple axn))
    as (l & r & -> & Hl & Hr & Htr).
  { destruct o as [[lo tout]|]; injection Hok as <- <-; simpl.
    - destruct Ho as [_ Ho]. eexists _, _. split; [done|].
      split; [apply list_lookup_insert_eq; by eapply lookup_lt_Some|]. done.
    - eexists _, _. split; [done|]. split; [apply list_lookup_middle; done|]. done. }
  exists l, r, axn, partial, oshape. do 4 (split; [done|]).
  unfold new_events. rewrite Htr, drop_app_length. split; [done|].
  rewrite Hr. unfold reduced, combined, allreduce_events. simpl.
  destruct (across_split tx (axis_tuple axn)); simpl.
  - split; [by destruct (MPI.is_distributed (comm tx))|].
    split; [by destruct (MPI.is_distributed (comm tx))|].
    split; [by destruct (MPI.is_distributed (comm tx))|].
    intros Hn. exfalso. apply Hn, Hspec. done.
  - split; [done|]. split; [done|]. split; [|done].
    intros Hyes. apply Hspec in Hyes. done.
Qed.


(** Line 210 inside the loop: after the last iteration [shape_keepdim] is
    the global shape with extent 1 at the last axis of the tuple only. *)
Lemma reduce_axes_last partial_op (x : DNDarray) axes d :
  snd (reduce_axes partial_op x (axes ++ [d]))
    = Some (take d (gshape x) ++ [1] ++ drop (d + 1) (gshape x)).
Proof.
  unfold reduce_axes. rewrite fold_left_app. simpl.
  by destruct (fold_left _ axes _).
Qed.

Lemma omap_ext_seq {A} (f g : nat -> option A) k n :
  (forall d, k <= d -> f d = g d) -> omap f (seq k n) = omap g (seq k n).
Proof.
  intros Hfg. apply list_omap_ext, Forall_Forall2_diag, Forall_forall.
  intros d Hd. apply Hfg. apply in_seq in Hd. lia.
Qed.

Lemma shape_losedim_from (g : shape) (axes : list nat) k :
  map snd (filter (fun p => fst p ∉ axes) (imap (fun i n => (k + i, n)) g))
    = omap (fun dim => if bool_decide (dim ∈ axes) then None else g !! (dim - k))
           (seq k (length g)).
Proof.
  revert k. induction g as [|n g IH]; intros k; [done|].
  simpl. rewrite Nat.add_0_r, Nat.sub_diag. simpl.
  assert (imap ((fun i n0 => (k + i, n0)) ∘ S) g = imap (fun i n0 => (S k + i, n0)) g) as ->.
  { apply imap_ext. intros i y _. simpl. f_equal. lia. }
  rewrite (omap_ext_seq _
             (fun dim => if bool_decide (dim ∈ axes) then None else g !! (dim - S k))
             (S k) (length g)).
  2: { intros d Hd. case_bool_decide; [done|].
       replace (d - k) with (S (d - S k)) by lia. done. }
  rewrite <- IH. rewrite filter_cons. simpl.
  case_bool_decide; case_decide; try done; simpl; by f_equal.
Qed.

(** Line 211 is the shape of the sentence: every reduced axis removed. *)
Lemma shape_losedim_spec (x : DNDarray) (axes : list nat) :
  shape_losedim x axes = losedim_shape (gshape x) axes.
Proof.
  unfold shape_losedim, losedim_shape.
  etransitivity; [|symmetry; exact (shape_losedim_from (gshape x) axes 0)].
  apply omap_ext_seq. intros d _. by rewrite Nat.sub_0_r.
Qed.

(** The local phase over a non-empty tuple of axes: without [keepdim] the
    output shape is the one of the specification, with [keepdim] only the
    last axis of the tuple has extent 1. *)
Lemma local_phase_tuple partial_op (x : DNDarray) axes d (keepdim : Datatypes.bool) :
  local_phase partial_op x (Some (axes ++ [d])) keepdim
    = Ok (fst (reduce_axes partial_op x (axes ++ [d])),
          if keepdim then take d (gshape x) ++ [1] ++ drop (d + 1) (gshape x)
          else losedim_shape (gshape x) (axes ++ [d])).
Proof.
  unfold local_phase. pose proof (reduce_axes_last partial_op x axes d) as Hlast.
  destruct (reduce_axes partial_op x (axes ++ [d])) as [partial sk]. simpl in *.
  subst sk. destruct keepdim; [done|]. by rewrite shape_losedim_spec.
Qed.

End ReduceOp.

Section ReduceOpExamples.
#[local] Existing Instance Zrt.runtime.

(** Summing rank 0's shard of a 4-element array split along axis 0 over
    all axes, on two processes: one all-reduce, an unsplit result that
    holds what the all-reduce delivered. *)
Lemma reduce_op_split_witness :
  let st := Examples.initial in
  let st' := snd (reduce_op (PyRef 6) Zrt.sum MPI.SUM stride_tricks.AxisNone false PyNone st) in
  reduce_op (PyRef 6) Zrt.sum MPI.SUM stride_tricks.AxisNone false PyNone st = (Ok (PyRef 8), st') /\
  exists l r, PyRef 8 = PyRef l /\ heap st' !! l = Some r /\ split r = None /\
    new_events st st' = [Allreduce (Examples.world2 0) MPI.SUM] /\
    array r = Examples.floats [1] [14]%Z.
Proof.
  intros st st'. split; [reflexivity|].
  destruct (reduce_op_split (R := Zrt.runtime) Zrt.sum MPI.SUM stride_tricks.AxisNone false PyNone st 6 _
              (PyRef 8) st' eq_refl eq_refl)
    as (l & r & axn & partial & oshape & Hv & Hl & Hax & Hlp & _ & Hshape & Hty & Hyes & _).
  injection Hax as <-. injection Hlp as <- _.
  destruct (Hyes I) as (Hs & Hev & Hdata).
  exists l, r. split; [exact Hv|]. split; [exact Hl|]. split; [exact Hs|].
  split; [exact Hev|].
  destruct (array r) as [rs rt rd]. simpl in Hshape, Hty, Hdata.
  rewrite Hshape, Hty, Hdata. reflexivity.
Defined.



(** C6, the code over two axes with [keepdim]: reducing an unsplit
    2x3x4 array over axes 0 and 1 records the global shape (2, 1, 4), only
    the last axis of the tuple is set to 1, while the shape the sentence
    asks for, and the shape of the buffer, is (1, 1, 4). *)
Theorem reduce_op_keepdim_two_axes :
  let out := reduce_op (PyRef 2) Zrt.sum MPI.SUM (stride_tricks.AxisTuple [0; 1]%Z) true PyNone
               Examples.initial in
  fst out = Ok (PyRef 8) /\
  gshape <$> heap (snd out) !! 8 = Some [2; 1; 4] /\
  lshape <$> heap (snd out) !! 8 = Some [1; 1; 4] /\
  keepdim_shape [2; 3; 4] [0; 1] = [1; 1; 4].
Proof. cbv zeta. repeat split. Qed.

(** C8, the code on an unsplit input: reducing an unsplit 2x3 array over
    axis 0 without [keepdim] returns an unsplit handle of global shape
    (3,) whose local buffer has shape (1, 3). *)
Theorem reduce_op_unsplit_shapes_differ :
  let out := reduce_op (PyRef 0) Zrt.sum MPI.SUM (stride_tricks.AxisInt 0%Z) false PyNone
               Examples.initial in
  fst out = Ok (PyRef 8) /\
  split <$> heap (snd out) !! 8 = Some None /\
  gshape <$> heap (snd out) !! 8 = Some [3] /\
  lshape <$> heap (snd out) !! 8 = Some [1; 3].
Proof. cbv zeta. repeat split. Qed.

End ReduceOpExamples.


(** ** Further properties of [__binary_op] *)

Section BinaryOpFurther.
Context {R : Runtime}.
Implicit Types (st : state) (l : loc).

Lemma needs_bcast_after_bcast (t : DNDarray) :
  needs_bcast (after_bcast t) = needs_bcast t.
Proof. unfold after_bcast. by destruct (needs_bcast t) eqn:H. Qed.

Lemma same_layout_after_bcast (t : DNDarray) : same_layout t (after_bcast t).
Proof. unfold after_bcast. by destruct (needs_bcast t). Qed.

Lemma well_formed_after_bcast (t : DNDarray) :
  well_formed t -> well_formed (after_bcast t).
Proof.
  intros Hwf. unfold after_bcast. destruct (needs_bcast t); [|done].
  apply well_formed_set_array; [done|]. unfold replicated.
  destruct (0 <? MPI.rank (comm t)); [by right | by left].
Qed.

Lemma bcast_events_after_bcast o l (t : DNDarray) :
  bcast_events o l (after_bcast t) = bcast_events o l t.
Proof.
  unfold bcast_events. rewrite needs_bcast_after_bcast.
  by assert (comm (after_bcast t) = comm t) as -> by apply same_layout_after_bcast.
Qed.

(** Lines 88-93 on a well-formed handle, exactly. *)
Lemma bcast_if_needed_precise o l st (t : DNDarray) :
  heap st !! l = Some t -> well_formed t ->
  bcast_if_needed o l st =
    (Ok tt, {| heap := <[l := after_bcast t]> (heap st);
               trace := trace st ++ bcast_events o l t |}).
Proof.
  intros Ht [Hlen Hs].
  assert ((Ok tt, st) = (@Ok unit tt,
            {| heap := <[l := t]> (heap st); trace := trace st ++ [] |})) as Hquiet.
  { rewrite list_insert_id, app_nil_r by done. by destruct st. }
  unfold bcast_if_needed, bcast_events, after_bcast, needs_bcast, replicated.
  run. rewrite Ht. destruct (split t) as [s|] eqn:Hsplit; [|done].
  destruct (lookup_lt_is_Some_2 _ _ Hs) as [extent He]. rewrite He. simpl.
  destruct (extent =? 1) eqn:Hext; simpl.
  - apply Nat.eqb_eq in Hext. subst extent.
    rewrite bool_decide_eq_true_2 by done. simpl.
    destruct (MPI.is_distributed (comm t)); [|done].
    destruct (0 <? MPI.rank (comm t)); simpl.
    + rewrite list_lookup_insert_eq by (by eapply lookup_lt_Some). simpl.
      by rewrite list_insert_insert_eq, <- app_assoc.
    + rewrite Ht. simpl. by rewrite <- app_assoc.
  - apply Nat.eqb_neq in Hext.
    rewrite bool_decide_eq_false_2 by congruence. done.
Qed.

(** Lines 64-106 on two handles, exactly: the operands after the
    replication, what is left in the heap, and the events. The second
    operand may be the first one. *)
Lemma normalize_handles_precise st l1 l2 (a1 a2 : DNDarray) s :
  heap st !! l1 = Some a1 -> heap st !! l2 = Some a2 ->
  well_formed a1 -> well_formed a2 ->
  split a2 = None \/ split a2 = split a1 ->
  stride_tricks.broadcast_shape (gshape a1) (gshape a2) = Ok s ->
  let b1 := after_bcast a1 in
  let b2 := after_bcast (if decide (l1 = l2) then b1 else a2) in
  let c1 := if decide (l1 = l2) then b2 else b1 in
  normalize (PyRef l1) (PyRef l2) st =
    (Ok {| n_t1 := c1; n_t2 := cast_operand (dtype c1) b2; output_shape := s;
           output_split := split a1; output_device := device a1;
           output_comm := comm a1 |},
     {| heap := <[l2 := b2]> (<[l1 := b1]> (heap st));
        trace := trace st ++ bcast_events first_operator l1 a1
                          ++ bcast_events second_operator l2 a2 |}).
Proof.
  intros H1 H2 Hwf1 Hwf2 Hguard Hbs b1 b2 c1.
  pose proof (lookup_lt_Some _ _ _ H1) as Hl1.
  pose proof (lookup_lt_Some _ _ _ H2) as Hl2.
  unfold normalize. run. rewrite !decide_True by done. rewrite H1, H2. simpl.
  rewrite bool_decide_eq_true_2 by done. rewrite Hbs.
  rewrite (bcast_if_needed_precise first_operator l1 st a1 H1 Hwf1).
  fold b1. subst b2 c1.
  destruct (decide (l1 = l2)) as [<- | Hne].
  - assert (a2 = a1) as -> by congruence.
    erewrite (bcast_if_needed_precise second_operator l1 _ b1);
      [| by apply list_lookup_insert_eq | by apply well_formed_after_bcast].
    simpl. repeat (rewrite list_lookup_insert_eq by (by rewrite ?length_insert); simpl).
    subst b1. rewrite bcast_events_after_bcast, <- app_assoc.
    unfold cast_operand. case_bool_decide; case_decide; try congruence; done.
  - erewrite (bcast_if_needed_precise second_operator l2 _ a2);
      [| by simpl; rewrite list_lookup_insert_ne | done].
    simpl. rewrite list_lookup_insert_ne by done.
    rewrite list_lookup_insert_eq by done. simpl.
    rewrite list_lookup_insert_eq by (by rewrite length_insert). simpl.
    rewrite <- app_assoc.
    unfold cast_operand. case_bool_decide; case_decide; try congruence; done.
Qed.

(** Lines 111-125 after a successful normalization, exactly: the new
    handle around the local result, or what the operation raised. *)
Lemma binary_op_run_after operation (t1 t2 : pyvalue) st n st1 :
  normalize t1 t2 st = (Ok n, st1) ->
  well_formed (n_t1 n) -> dtype (n_t2 n) = dtype (n_t1 n) ->
  binary_op operation t1 t2 st =
    match local_buffer operation (dtype (n_t1 n)) (n_t1 n) (n_t2 n) with
    | Ok res =>
        (Ok (PyRef (length (heap st1))),
         {| heap := heap st1 ++
                    [{| array := res;
                        gshape := output_shape n; dtype := dtype (n_t1 n);
                        split := output_split n; device := output_device n;
                        comm := output_comm n |}];
            trace := trace st1 ++ local_events (dtype (n_t1 n)) (n_t1 n) (n_t2 n) |})
    | Raise e =>
        (Raise e,
         {| heap := heap st1;
            trace := trace st1 ++ local_events (dtype (n_t1 n)) (n_t1 n) (n_t2 n) |})
    end.
Proof.
  intros Hn Hwf Hty. unfold binary_op, bind. rewrite Hn.
  rewrite (local_result_spec _ _ _ _ Hwf), Hty, promote_types_idem.
  unfold local_buffer, local_events, new_DNDarray, types.canonical_heat_type.
  destruct (first_shard_empty (n_t1 n)); simpl; [by rewrite app_nil_r|].
  by destruct (operation _ _).
Qed.

(** The local result fails only in the operation. *)
Lemma local_buffer_raised operation ty (t1 t2 : DNDarray) e :
  local_buffer operation ty t1 t2 = Raise e ->
  local_events ty t1 t2 = [Apply (type_ (array t1) ty) (type_ (array t2) ty)] /\
  operation (type_ (array t1) ty) (type_ (array t2) ty) = Raise e.
Proof.
  unfold local_buffer, local_events. by destruct (first_shard_empty t1).
Qed.

Lemma dtype_cast_operand ty (t : DNDarray) : dtype (cast_operand ty t) = ty.
Proof. unfold cast_operand. by case_decide. Qed.

Lemma well_formed_scalar_handle ty x : well_formed (scalar_handle ty x).
Proof. by split. Qed.

Lemma well_formed_cast_operand ty (t : DNDarray) :
  well_formed t -> well_formed (cast_operand ty t).
Proof. intros Hwf. unfold cast_operand. by case_decide. Qed.

Lemma first_shard_empty_unsplit (t : DNDarray) :
  split t = None -> first_shard_empty t = false.
Proof. intros Hs. unfold first_shard_empty. by rewrite Hs. Qed.

Lemma split_cast_operand ty (t : DNDarray) : split (cast_operand ty t) = split t.
Proof. unfold cast_operand. by case_decide. Qed.

Lemma normalize_two_scalars ty1 x1 ty2 x2 st :
  normalize (PyNum ty1 x1) (PyNum ty2 x2) st =
    (Ok {| n_t1 := cast_operand ty2 (scalar_handle ty1 x1);
           n_t2 := scalar_handle ty2 x2; output_shape := [1];
           output_split := None; output_device := None;
           output_comm := MPI_WORLD |}, st).
Proof.
  unfold normalize, cast_operand. run.
  case_bool_decide; case_decide; try congruence; done.
Qed.

Lemma normalize_scalar_then_handle ty1 x1 l2 (a2 : DNDarray) st :
  heap st !! l2 = Some a2 ->
  normalize (PyNum ty1 x1) (PyRef l2) st =
    (Ok {| n_t1 := cast_operand (dtype a2) (scalar_handle ty1 x1);
           n_t2 := a2; output_shape := gshape a2;
           output_split := split a2; output_device := device a2;
           output_comm := comm a2 |}, st).
Proof.
  intros H2. pose proof (lookup_lt_Some _ _ _ H2) as Hl2.
  unfold normalize, cast_operand. run. rewrite decide_True by done. rewrite H2. simpl.
  case_bool_decide; case_decide; try congruence; done.
Qed.

Lemma normalize_handle_then_scalar l1 (a1 : DNDarray) ty2 x2 st :
  heap st !! l1 = Some a1 ->
  normalize (PyRef l1) (PyNum ty2 x2) st =
    (Ok {| n_t1 := a1; n_t2 := cast_operand (dtype a1) (scalar_handle ty2 x2);
           output_shape := gshape a1; output_split := split a1;
           output_device := device a1; output_comm := comm a1 |}, st).
Proof.
  intros H1. pose proof (lookup_lt_Some _ _ _ H1) as Hl1.
  unfold normalize, cast_operand. run. rewrite decide_True by done. rewrite H1. simpl.
  case_bool_decide; case_decide; try congruence; done.
Qed.

(** Of two scalars the first is cast to the type of the second, whatever
    their ranks, and the operation is invoked once; the result is one
    element on the world communicator, unsplit and without a device, and
    nothing else is touched. What the operation raises is raised, after
    the invocation, and no object is created. *)
Theorem binary_op_two_scalars operation ty1 x1 ty2 x2 st :
  let a := type_ (array (cast_operand ty2 (scalar_handle ty1 x1))) ty2 in
  let b := type_ (array (scalar_handle ty2 x2)) ty2 in
  binary_op operation (PyNum ty1 x1) (PyNum ty2 x2) st =
    match operation a b with
    | Ok res =>
        (Ok (PyRef (length (heap st))),
         {| heap := heap st ++
                    [{| array := res; gshape := [1]; dtype := ty2;
                        split := None; device := None; comm := MPI_WORLD |}];
            trace := trace st ++ [Apply a b] |})
    | Raise e => (Raise e, {| heap := heap st; trace := trace st ++ [Apply a b] |})
    end.
Proof.
  intros a b. subst a b.
  pose proof (normalize_two_scalars ty1 x1 ty2 x2 st) as Hn.
  rewrite (binary_op_run_after _ _ _ _ _ _ Hn); simpl.
  - rewrite dtype_cast_operand. unfold local_buffer, local_events.
    rewrite first_shard_empty_unsplit by (by rewrite split_cast_operand). done.
  - apply well_formed_cast_operand, well_formed_scalar_handle.
  - by rewrite dtype_cast_operand.
Qed.

(** A scalar first and a handle second (lines 53-62): the scalar is cast
    to the type of the array, the result takes global shape, split axis,
    device and communicator from the array, the operation is invoked once,
    and no existing object is touched. What the operation raises is
    raised, after the invocation, and no object is created. *)
Theorem binary_op_scalar_then_handle operation ty1 x1 l2 (a2 : DNDarray) st :
  heap st !! l2 = Some a2 ->
  let a := type_ (array (cast_operand (dtype a2) (scalar_handle ty1 x1))) (dtype a2) in
  let b := type_ (array a2) (dtype a2) in
  binary_op operation (PyNum ty1 x1) (PyRef l2) st =
    match operation a b with
    | Ok res =>
        (Ok (PyRef (length (heap st))),
         {| heap := heap st ++
                    [{| array := res; gshape := gshape a2; dtype := dtype a2;
                        split := split a2; device := device a2; comm := comm a2 |}];
            trace := trace st ++ [Apply a b] |})
    | Raise e => (Raise e, {| heap := heap st; trace := trace st ++ [Apply a b] |})
    end.
Proof.
  intros H2 a b. subst a b.
  pose proof (normalize_scalar_then_handle ty1 x1 l2 a2 st H2) as Hn.
  rewrite (binary_op_run_after _ _ _ _ _ _ Hn); simpl.
  - rewrite dtype_cast_operand. unfold local_buffer, local_events.
    rewrite first_shard_empty_unsplit by (by rewrite split_cast_operand). done.
  - apply well_formed_cast_operand, well_formed_scalar_handle.
  - by rewrite dtype_cast_operand.
Qed.

(** A handle first and a scalar second (lines 64-73, 105-106 and 111-125):
    the scalar is cast to the type of the array and the result takes its
    layout from the array. When the shard of the array is empty along its
    split axis the operation is not invoked and the result is the empty
    buffer; otherwise the operation is invoked once, and what it raises
    is raised. No existing object is touched. *)
Theorem binary_op_handle_then_scalar operation l1 (a1 : DNDarray) ty2 x2 st :
  heap st !! l1 = Some a1 -> well_formed a1 ->
  let t2 := cast_operand (dtype a1) (scalar_handle ty2 x2) in
  binary_op operation (PyRef l1) (PyNum ty2 x2) st =
    match local_buffer operation (dtype a1) a1 t2 with
    | Ok res =>
        (Ok (PyRef (length (heap st))),
         {| heap := heap st ++
                    [{| array := res;
                        gshape := gshape a1; dtype := dtype a1; split := split a1;
                        device := device a1; comm := comm a1 |}];
            trace := trace st ++ local_events (dtype a1) a1 t2 |})
    | Raise e =>
        (Raise e,
         {| heap := heap st; trace := trace st ++ local_events (dtype a1) a1 t2 |})
    end.
Proof.
  intros H1 Hwf t2. subst t2.
  pose proof (normalize_handle_then_scalar l1 a1 ty2 x2 st H1) as Hn.
  rewrite (binary_op_run_after _ _ _ _ _ _ Hn); simpl; [done | done |].
  by rewrite dtype_cast_operand.
Qed.

Lemma after_bcast_quiet (t : DNDarray) : needs_bcast t = false -> after_bcast t = t.
Proof. intros H. unfold after_bcast. by rewrite H. Qed.

(** Two handles that need no replication (lines 75-125): the second
    operand is cast to the type of the first, there is no warning and no
    collective call, and no existing object is touched. The local result
    is the empty shard of the first operand, or what the operation returns
    on the two local shards; the new handle around it has the broadcast
    global shape and the split axis, device and communicator of the first
    operand. When the operation raises, as it does on two shards it
    cannot combine, that is raised after the invocation and no handle is
    created. *)
Theorem binary_op_handles_without_replication operation l1 l2
    (a1 a2 : DNDarray) s st :
  heap st !! l1 = Some a1 -> heap st !! l2 = Some a2 ->
  well_formed a1 -> well_formed a2 ->
  split a2 = None \/ split a2 = split a1 ->
  stride_tricks.broadcast_shape (gshape a1) (gshape a2) = Ok s ->
  needs_bcast a1 = false -> needs_bcast a2 = false ->
  let t2 := cast_operand (dtype a1) a2 in
  binary_op operation (PyRef l1) (PyRef l2) st =
    match local_buffer operation (dtype a1) a1 t2 with
    | Ok res =>
        (Ok (PyRef (length (heap st))),
         {| heap := heap st ++
                    [{| array := res;
                        gshape := s; dtype := dtype a1; split := split a1;
                        device := device a1; comm := comm a1 |}];
            trace := trace st ++ local_events (dtype a1) a1 t2 |})
    | Raise e =>
        (Raise e,
         {| heap := heap st; trace := trace st ++ local_events (dtype a1) a1 t2 |})
    end.
Proof.
  intros H1 H2 Hwf1 Hwf2 Hg Hbs Hq1 Hq2 t2. subst t2.
  pose proof (normalize_handles_precise st l1 l2 a1 a2 s H1 H2 Hwf1 Hwf2 Hg Hbs) as Hn.
  simpl in Hn. rewrite (after_bcast_quiet a1 Hq1) in Hn.
  assert ((if decide (l1 = l2) then a1 else a2) = a2) as Ha2.
  { case_decide; [congruence | done]. }
  rewrite Ha2, (after_bcast_quiet a2 Hq2) in Hn.
  assert ((if decide (l1 = l2) then a2 else a1) = a1) as Ha1.
  { case_decide; [congruence | done]. }
  rewrite Ha1 in Hn.
  rewrite (list_insert_id (heap st) l1 a1 H1) in Hn.
  rewrite (list_insert_id (heap st) l2 a2 H2) in Hn.
  unfold bcast_events in Hn. rewrite Hq1, Hq2, !app_nil_r in Hn.
  rewrite (binary_op_run_after _ _ _ _ _ _ Hn); simpl; [done | done |].
  by rewrite dtype_cast_operand.
Qed.

(** A split first operand of global extent 1 on several processes against
    an unsplit second operand (lines 88-93): the first operand is changed
    in place. A warning and one broadcast are recorded, the buffer of the
    operand becomes the received one (of the global shape on ranks above
    0), its layout stays, and the result is computed from that buffer.
    When the operation raises, the operand stays changed and no handle is
    created. *)
Theorem binary_op_replicates_first_operand operation l1 l2 (a1 a2 : DNDarray) s st :
  heap st !! l1 = Some a1 -> heap st !! l2 = Some a2 ->
  well_formed a1 -> well_formed a2 ->
  split a2 = None ->
  stride_tricks.broadcast_shape (gshape a1) (gshape a2) = Ok s ->
  needs_bcast a1 = true ->
  let t1 := set_array a1 (replicated a1) in
  let t2 := cast_operand (dtype a1) a2 in
  binary_op operation (PyRef l1) (PyRef l2) st =
    match local_buffer operation (dtype a1) t1 t2 with
    | Ok res =>
        (Ok (PyRef (length (heap st))),
         {| heap := <[l1 := t1]> (heap st) ++
                    [{| array := res;
                        gshape := s; dtype := dtype a1; split := split a1;
                        device := device a1; comm := comm a1 |}];
            trace := trace st ++ [Warn first_operator; Bcast (comm a1) l1]
                              ++ local_events (dtype a1) t1 t2 |})
    | Raise e =>
        (Raise e,
         {| heap := <[l1 := t1]> (heap st);
            trace := trace st ++ [Warn first_operator; Bcast (comm a1) l1]
                              ++ local_events (dtype a1) t1 t2 |})
    end.
Proof.
  intros H1 H2 Hwf1 Hwf2 Hs2 Hbs Hn1 t1 t2. subst t1 t2.
  assert (needs_bcast a2 = false) as Hq2 by (unfold needs_bcast; by rewrite Hs2).
  assert (l1 <> l2) as Hne.
  { intros <-. assert (a2 = a1) as -> by congruence. congruence. }
  pose proof (normalize_handles_precise st l1 l2 a1 a2 s H1 H2 Hwf1 Hwf2
                (or_introl Hs2) Hbs) as Hn.
  simpl in Hn. rewrite !decide_False in Hn by done.
  rewrite (after_bcast_quiet a2 Hq2) in Hn.
  rewrite (list_insert_id (<[l1:=after_bcast a1]> (heap st)) l2 a2) in Hn
    by (by rewrite list_lookup_insert_ne).
  unfold bcast_events in Hn. rewrite Hn1, Hq2, app_nil_r in Hn.
  unfold after_bcast in Hn. rewrite Hn1 in Hn.
  rewrite (binary_op_run_after _ _ _ _ _ _ Hn); simpl.
  - rewrite length_insert, <- app_assoc. done.
  - apply (well_formed_after_bcast a1) in Hwf1. unfold after_bcast in Hwf1.
    by rewrite Hn1 in Hwf1.
  - by rewrite dtype_cast_operand.
Qed.

(** What the replication leaves in the heap: every object keeps its
    layout and stays well formed, objects other than the operands are
    untouched. *)
Lemma replication_frame (h : list DNDarray) l1 l2 (a1 a2 : DNDarray) :
  h !! l1 = Some a1 -> h !! l2 = Some a2 ->
  Forall well_formed h ->
  let b1 := after_bcast a1 in
  let b2 := after_bcast (if decide (l1 = l2) then b1 else a2) in
  let h' := <[l2 := b2]> (<[l1 := b1]> h) in
  length h' = length h /\ Forall well_formed h' /\
  (forall l t, h !! l = Some t -> exists t', h' !! l = Some t' /\ same_layout t t') /\
  (forall l, l <> l1 -> l <> l2 -> h' !! l = h !! l).
Proof.
  intros H1 H2 Hwf b1 b2 h'. subst h'.
  pose proof (lookup_lt_Some _ _ _ H1) as Hl1.
  pose proof (lookup_lt_Some _ _ _ H2) as Hl2.
  assert (well_formed a1) as Hwf1 by (eapply Forall_lookup_1; eauto).
  assert (well_formed a2) as Hwf2 by (eapply Forall_lookup_1; eauto).
  assert (well_formed b1) as Hwb1 by (by apply well_formed_after_bcast).
  assert (well_formed b2 /\ same_layout a2 b2) as [Hwb2 Hsl2].
  { subst b2. case_decide as Heq.
    - subst l2. assert (a2 = a1) as -> by congruence. split.
      + by apply well_formed_after_bcast.
      + pose proof (same_layout_after_bcast a1) as (? & ? & ? & ? & ?).
        pose proof (same_layout_after_bcast b1) as (? & ? & ? & ? & ?).
        subst b1. repeat split; congruence.
    - split; [by apply well_formed_after_bcast | apply same_layout_after_bcast]. }
  split; [by rewrite !length_insert|].
  split; [by repeat apply Forall_insert|].
  split.
  - intros l t Hl. destruct (decide (l = l2)) as [-> | Hn2].
    + exists b2. split; [by rewrite list_lookup_insert_eq by (by rewrite length_insert)|].
      by assert (t = a2) as -> by congruence.
    + rewrite list_lookup_insert_ne by done.
      destruct (decide (l = l1)) as [-> | Hn1].
      * exists b1. split; [by rewrite list_lookup_insert_eq|].
        assert (t = a1) as -> by congruence. apply same_layout_after_bcast.
      * exists t. by rewrite list_lookup_insert_ne.
  - intros l Hn1 Hn2. by rewrite !list_lookup_insert_ne.
Qed.

(** After a successful normalization the call returns a new object or
    raises what the operation raised, right after the invocation. *)
Lemma run_after_outcomes operation (t1 t2 : pyvalue) st n st1 bev :
  normalize t1 t2 st = (Ok n, st1) ->
  well_formed (n_t1 n) -> dtype (n_t2 n) = dtype (n_t1 n) ->
  trace st1 = trace st ++ bev ->
  exists ev,
    (exists r,
       binary_op operation t1 t2 st =
         (Ok (PyRef (length (heap st1))),
          {| heap := heap st1 ++ [r]; trace := trace st ++ ev |})) \/
    (exists e a b pre,
       binary_op operation t1 t2 st =
         (Raise e, {| heap := heap st1; trace := trace st ++ ev |}) /\
       ev = pre ++ [Apply a b] /\ operation a b = Raise e).
Proof.
  intros Hn Hwf Hty Htr. rewrite (binary_op_run_after _ _ _ _ _ _ Hn Hwf Hty), Htr.
  destruct (local_buffer operation _ _ _) as [res | e] eqn:Hlb.
  - eexists. left. eexists. rewrite <- app_assoc. reflexivity.
  - apply local_buffer_raised in Hlb as [Hev Hop]. rewrite Hev.
    eexists. right. eexists e, _, _, bev. rewrite <- app_assoc.
    split; [reflexivity|]. split; [reflexivity | exact Hop].
Qed.

(** Every call raises with the state as it was, or reaches the local
    operation with a heap whose objects kept their layout; then it adds
    one object, or raises what the operation raised. *)
Lemma binary_op_outcomes operation (t1 t2 : pyvalue) st :
  Forall well_formed (heap st) ->
  (exists e, binary_op operation t1 t2 st = (Raise e, st) /\
             (e = TypeError \/ e = NotImplementedError \/ e = ShapeError)) \/
  (exists h ev,
      length h = length (heap st) /\ Forall well_formed h /\
      (forall l t, heap st !! l = Some t ->
         exists t', h !! l = Some t' /\ same_layout t t') /\
      (forall l, t1 <> PyRef l -> t2 <> PyRef l -> h !! l = heap st !! l) /\
      ((exists r,
          binary_op operation t1 t2 st =
            (Ok (PyRef (length (heap st))),
             {| heap := h ++ [r]; trace := trace st ++ ev |})) \/
       (exists e a b pre,
          binary_op operation t1 t2 st =
            (Raise e, {| heap := h; trace := trace st ++ ev |}) /\
          ev = pre ++ [Apply a b] /\ operation a b = Raise e))).
Proof.
  intros Hwf.
  assert (forall l a, heap st !! l = Some a -> well_formed a) as Hwf'.
  { intros l a Hl. eapply Forall_lookup_1; eauto. }
  assert (forall n,
            normalize t1 t2 st = (Ok n, st) ->
            well_formed (n_t1 n) -> dtype (n_t2 n) = dtype (n_t1 n) ->
            exists h ev,
              length h = length (heap st) /\ Forall well_formed h /\
              (forall l t, heap st !! l = Some t ->
                 exists t', h !! l = Some t' /\ same_layout t t') /\
              (forall l, t1 <> PyRef l -> t2 <> PyRef l -> h !! l = heap st !! l) /\
              ((exists r,
                  binary_op operation t1 t2 st =
                    (Ok (PyRef (length (heap st))),
                     {| heap := h ++ [r]; trace := trace st ++ ev |})) \/
               (exists e a b pre,
                  binary_op operation t1 t2 st =
                    (Raise e, {| heap := h; trace := trace st ++ ev |}) /\
                  ev = pre ++ [Apply a b] /\ operation a b = Raise e)))
    as Hpure.
  { intros n Hn Hwfn Hty.
    destruct (run_after_outcomes operation t1 t2 st n st [] Hn Hwfn Hty)
      as [ev Hout]; [by rewrite app_nil_r|].
    exists (heap st), ev. repeat split; try done.
    intros l t Hl. by exists t. }
  destruct (binary_op_rejects operation t1 t2 st) as (Hr1 & Hr2 & Hr3).
  destruct (recognized_dec st t1) as [H1 | H1]; last first.
  { left. destruct (np_isscalar t1) eqn:Hs; eexists; split; eauto. }
  destruct (recognized_dec st t2) as [H2 | H2]; last first.
  { left. eexists; split; eauto. }
  destruct H1 as [(ty1 & x1 & ->) | (l1 & -> & Hl1)];
    destruct H2 as [(ty2 & x2 & ->) | (l2 & -> & Hl2)].
  - right. eapply Hpure; [apply normalize_two_scalars | |]; simpl.
    + apply well_formed_cast_operand, well_formed_scalar_handle.
    + by rewrite dtype_cast_operand.
  - right. destruct (lookup_lt_is_Some_2 _ _ Hl2) as [a2 Ha2].
    eapply Hpure; [by apply normalize_scalar_then_handle | |]; simpl.
    + apply well_formed_cast_operand, well_formed_scalar_handle.
    + by rewrite dtype_cast_operand.
  - right. destruct (lookup_lt_is_Some_2 _ _ Hl1) as [a1 Ha1].
    eapply Hpure; [by apply normalize_handle_then_scalar | |]; simpl.
    + eauto.
    + by rewrite dtype_cast_operand.
  - destruct (lookup_lt_is_Some_2 _ _ Hl1) as [a1 Ha1].
    destruct (lookup_lt_is_Some_2 _ _ Hl2) as [a2 Ha2].
    destruct (decide (split a2 = None \/ split a2 = split a1)) as [Hg | Hg]; last first.
    { left. eexists. split; [eapply binary_op_other_splittings; eauto | eauto]. }
    destruct (stride_tricks.broadcast_shape (gshape a1) (gshape a2)) as [s | e] eqn:Hbs;
      last first.
    { left. eexists. split; [eapply binary_op_not_broadcastable; eauto | eauto]. }
    right.
    pose proof (normalize_handles_precise st l1 l2 a1 a2 s Ha1 Ha2
                  (Hwf' _ _ Ha1) (Hwf' _ _ Ha2) Hg Hbs) as Hn.
    destruct (replication_frame (heap st) l1 l2 a1 a2 Ha1 Ha2 Hwf)
      as (Hlen & Hwfh & Hkept & Hother).
    simpl in Hn, Hlen, Hwfh, Hkept, Hother.
    destruct (run_after_outcomes operation (PyRef l1) (PyRef l2) st _ _
                (bcast_events first_operator l1 a1 ++ bcast_events second_operator l2 a2)
                Hn)
      as [ev Hout]; simpl.
    + case_decide.
      * eapply Forall_lookup_1; [exact Hwfh|].
        apply list_lookup_insert_eq. by rewrite length_insert.
      * apply well_formed_after_bcast. eauto.
    + by rewrite dtype_cast_operand.
    + reflexivity.
    + simpl in Hout. rewrite Hlen in Hout.
      eexists _, ev. split; [exact Hlen|]. split; [exact Hwfh|].
      split; [exact Hkept|]. split; [|exact Hout].
      intros l Hn1 Hn2. apply Hother; congruence.
Qed.

(** Every failure of the dispatcher's own comes before any effect: no
    object was changed, no warning given, no collective issued and the
    operation not invoked. On handles that satisfy the data model these
    failures are a [TypeError], a [NotImplementedError] or the broadcast
    failure of the global shapes. The one other failure is what the
    operation itself raises: it is raised right after the invocation, no
    object was created and every object has the layout it had. *)
Theorem binary_op_raises_before_effects operation (t1 t2 : pyvalue) st e st' :
  Forall well_formed (heap st) ->
  binary_op operation t1 t2 st = (Raise e, st') ->
  (st' = st /\ (e = TypeError \/ e = NotImplementedError \/ e = ShapeError)) \/
  (exists a b pre,
     operation a b = Raise e /\
     trace st' = trace st ++ pre ++ [Apply a b] /\
     length (heap st') = length (heap st) /\
     layouts_kept st st').
Proof.
  intros Hwf Hraise.
  destruct (binary_op_outcomes operation t1 t2 st Hwf)
    as [(e0 & Heq & He)
       | (h & ev & Hlen & _ & Hkept & _ & [(r & Heq) | (e0 & a & b & pre & Heq & Hev & Hop)])];
    rewrite Heq in Hraise.
  - left. by injection Hraise as <- <-.
  - done.
  - right. injection Hraise as <- <-. exists a, b, pre. simpl.
    split; [done|]. split; [by rewrite Hev|]. split; [done|]. exact Hkept.
Qed.

(** A successful call adds exactly one object. Every object that existed
    keeps its global shape, element type, split axis, device and
    communicator and still satisfies the data model; only the buffers of
    the operands can change, objects that are not operands are untouched. *)
Theorem binary_op_keeps_layouts operation (t1 t2 : pyvalue) st v st' :
  Forall well_formed (heap st) ->
  binary_op operation t1 t2 st = (Ok v, st') ->
  v = PyRef (length (heap st)) /\
  length (heap st') = S (length (heap st)) /\
  layouts_kept st st' /\
  Forall well_formed (take (length (heap st)) (heap st')) /\
  (forall l, l < length (heap st) -> t1 <> PyRef l -> t2 <> PyRef l ->
     heap st' !! l = heap st !! l).
Proof.
  intros Hwf Hok.
  destruct (binary_op_outcomes operation t1 t2 st Hwf)
    as [(e0 & Heq & He)
       | (h & ev & Hlen & Hwfh & Hkept & Hother & [(r & Heq) | (e0 & ? & ? & ? & Heq & _)])];
    rewrite Heq in Hok; [done| |done].
  injection Hok as <- <-. simpl.
  split; [done|]. split; [rewrite length_app, Hlen; simpl; lia|].
  split; [|split].
  - intros l t Hl. destruct (Hkept l t Hl) as (t' & Hl' & Hsl).
    exists t'. split; [|done]. by apply lookup_app_l_Some.
  - by rewrite <- Hlen, take_app_length.
  - intros l Hl Hn1 Hn2. rewrite lookup_app_l by lia. by apply Hother.
Qed.

End BinaryOpFurther.

(** ** Further properties of [__local_op] *)

Section LocalOpFurther.
Context {R : Runtime}.
Implicit Types (st : state) (l : loc).

Lemma multiples_of_run (a b : shape) st :
  exists r, multiples_of a b st = (r, st) /\
    match r with
    | Ok _ => True
    | Raise e => e = ZeroDivisionError
    end.
Proof.
  revert b. induction a as [|x a IH]; intros [|y b]; simpl; try (by eexists (Ok [])).
  destruct (y =? 0); [by eexists (Raise _)|].
  destruct (IH b) as ([ms | e] & Hr & He); unfold bind; rewrite Hr.
  - by eexists (Ok _).
  - by eexists (Raise _).
Qed.

(** The ways a call on a handle [x] with a handle [out] can go. *)
Lemma local_op_out_cases (operation : buffer -> option buffer -> result buffer) st lx lo
    (tx tout : DNDarray) :
  heap st !! lx = Some tx -> heap st !! lo = Some tout ->
  (exists e, local_op operation (PyRef lx) (PyRef lo) st = (Raise e, st) /\
             (e = ShapeError \/ e = ZeroDivisionError \/
              exists a o, operation a o = Raise e)) \/
  (exists a w, operation a (Some (array tout)) = Ok w /\
               local_op operation (PyRef lx) (PyRef lo) st =
                 (Ok (PyRef lo),
                  {| heap := <[lo := set_array tout w]> (heap st); trace := trace st |})).
Proof.
  intros Hx Ho.
  pose proof (lookup_lt_Some _ _ _ Hx) as Hlx.
  pose proof (lookup_lt_Some _ _ _ Ho) as Hlo.
  unfold local_op. run. rewrite !decide_True by done.
  rewrite bool_decide_eq_true_2 by eauto. simpl. rewrite Hx, Ho. simpl.
  destruct (stride_tricks.broadcast_shape (lshape tx) (lshape tout)) as [bs | e] eqn:Hbs.
  - destruct (multiples_of_run bs
                (replicate (length bs - length (lshape tx)) 1 ++ lshape tx) st)
      as ([ms | e] & -> & He).
    + destruct (operation _ (Some (array tout))) as [w | e] eqn:Hop.
      * right. by eexists _, _.
      * left. exists e. split; [done|]. right. right. by eexists _, _.
    + left. subst e. eauto.
  - left. exists ShapeError. split; [|by left].
    by rewrite (broadcast_aligned_error _ _ _ Hbs).
Qed.

Lemma local_op_rejects (operation : buffer -> option buffer -> result buffer)
    (x out : pyvalue) st :
  (~ is_handle st x -> local_op operation x out st = (Raise TypeError, st)) /\
  (is_handle st x -> out <> PyNone -> ~ is_handle st out ->
     local_op operation x out st = (Raise TypeError, st)).
Proof.
  split.
  - intros Hx. unfold local_op. run. destruct x as [| | | l |]; try done.
    case_decide; [|done]. exfalso. apply Hx. by exists l.
  - intros (lx & -> & Hlx) Hnone Hout. unfold local_op. run.
    rewrite decide_True by done.
    destruct out as [| | | lo |]; try done.
    case_decide; [|done]. exfalso. apply Hout. by exists lo.
Qed.

(** Every call raises with the state as it was, or returns with the trace
    as it was and a heap in which at most [out] was written or one object
    was added. *)
Lemma local_op_outcomes (operation : buffer -> option buffer -> result buffer)
    (x out : pyvalue) st :
  (exists e, local_op operation x out st = (Raise e, st) /\
             (e = TypeError \/ e = ShapeError \/ e = ZeroDivisionError \/
              exists a o, operation a o = Raise e)) \/
  (exists v h, local_op operation x out st = (Ok v, {| heap := h; trace := trace st |}) /\
     ((exists r, out = PyNone /\ h = heap st ++ [r]) \/
      (exists lo tout a, out = PyRef lo /\ heap st !! lo = Some tout /\
                         h = <[lo := set_array tout a]> (heap st)))).
Proof.
  destruct (local_op_rejects operation x out st) as [Hx Hout].
  assert (forall v : pyvalue, ~ is_handle st v \/ exists l t, v = PyRef l /\ heap st !! l = Some t)
    as Hcls.
  { intros [| | | l |]; try (left; intros (? & ? & ?); done).
    destruct (heap st !! l) as [t|] eqn:Hl; [right; by exists l, t|].
    left. intros (? & [= <-] & Hlt). apply lookup_ge_None in Hl. lia. }
  destruct (Hcls x) as [Hnx | (lx & tx & -> & Htx)]; [left; eauto|].
  pose proof (lookup_lt_Some _ _ _ Htx) as Hlx.
  destruct (Hcls out) as [Hno | (lo & tout & -> & Hto)].
  - assert (out = PyNone \/ out <> PyNone) as [-> | Hnone]
      by (destruct out; (by left) || (by right)).
    + unfold local_op. run. rewrite decide_True by done. rewrite Htx. simpl.
      destruct (operation _ None) as [res | e] eqn:Hop.
      * right. eexists _, _. split; [reflexivity|]. left. by eexists.
      * left. exists e. split; [done|]. do 3 right. by eexists _, _.
    + left. exists TypeError. split; [|by left]. apply Hout; [by exists lx | done | done].
  - destruct (local_op_out_cases operation st lx lo tx tout Htx Hto)
      as [(e0 & Heq & He) | (a & w & _ & Heq)].
    + left. exists e0. split; [done|]. destruct He as [-> | [-> | He]]; eauto.
    + right. eexists _, _. split; [exact Heq|]. right. by exists lo, tout, w.
Qed.

(** The sanitation of lines 155-158: an input that is not a handle, or an
    output that is neither absent nor a handle, is a [TypeError] and
    nothing is touched. *)
Theorem local_op_type_errors (operation : buffer -> option buffer -> result buffer)
    (x out : pyvalue) st :
  (~ is_handle st x -> local_op operation x out st = (Raise TypeError, st)) /\
  (is_handle st x -> out <> PyNone -> ~ is_handle st out ->
     local_op operation x out st = (Raise TypeError, st)).
Proof. apply local_op_rejects. Qed.

(** Every failure of the dispatcher's own comes before the operation is
    called: the state is as it was. These failures are the [TypeError]s
    of the sanitation, the broadcast failure of the two local shapes and
    the division by an extent of 0. The one other failure is what the
    operation itself raises; the dispatcher has then assigned nothing, no
    event is recorded and every object has the layout it had. *)
Theorem local_op_raises_before_effects
    (operation : buffer -> option buffer -> result buffer)
    (x out : pyvalue) st e st' :
  local_op operation x out st = (Raise e, st') ->
  (st' = st /\ (e = TypeError \/ e = ShapeError \/ e = ZeroDivisionError)) \/
  (exists a o, operation a o = Raise e /\
               trace st' = trace st /\ layouts_kept st st').
Proof.
  intros Hraise.
  destruct (local_op_outcomes operation x out st)
    as [(e0 & Heq & He) | (v & h & Heq & _)]; rewrite Heq in Hraise; [|done].
  injection Hraise as <- <-.
  destruct He as [-> | [-> | [-> | (a & o & Hop)]]]; [left; tauto..|].
  right. exists a, o. split; [done|]. split; [done|].
  intros l t Hl. by exists t.
Qed.

(** The dispatcher is local: whatever the outcome, no event is recorded,
    so there is no warning and no collective call, and every object keeps
    its global shape, element type, split axis, device and communicator;
    a handle given as [out] keeps them too. *)
Theorem local_op_is_local (operation : buffer -> option buffer -> result buffer)
    (x out : pyvalue) st r st' :
  local_op operation x out st = (r, st') ->
  trace st' = trace st /\ layouts_kept st st'.
Proof.
  intros Hrun.
  destruct (local_op_outcomes operation x out st)
    as [(e0 & Heq & He) | (v & h & Heq & Hh)]; rewrite Heq in Hrun;
    injection Hrun as <- <-.
  - split; [done|]. intros l t Hl. by exists t.
  - simpl. split; [done|].
    destruct Hh as [(r0 & -> & ->) | (lo & tout & a & -> & Hto & ->)].
    + intros l t Hl. exists t. simpl. split; [by apply lookup_app_l_Some | done].
    + pose proof (lookup_lt_Some _ _ _ Hto) as Hlo.
      intros l t Hl. destruct (decide (l = lo)) as [-> | Hne].
      * exists (set_array tout a). simpl. rewrite list_lookup_insert_eq by done.
        split; [done|]. by assert (t = tout) as -> by congruence.
      * exists t. simpl. by rewrite list_lookup_insert_ne.
Qed.

Lemma broadcast_aligned_length a b s :
  stride_tricks.broadcast_aligned a b = Ok s ->
  length s = Nat.min (length a) (length b).
Proof.
  revert b s. induction a as [|x a IH]; intros [|y b] s; simpl; try (by intros [= <-]).
  destruct ((x =? y) || (x =? 1) || (y =? 1)); [|done].
  destruct (stride_tricks.broadcast_aligned a b) as [s'|] eqn:Hab; [|done].
  intros [= <-]. simpl. by rewrite (IH b s').
Qed.

Lemma broadcast_shape_length a b s :
  stride_tricks.broadcast_shape a b = Ok s ->
  length s = Nat.max (length a) (length b).
Proof.
  unfold stride_tricks.broadcast_shape. intros H.
  apply broadcast_aligned_length in H.
  rewrite !length_app, !length_replicate in H. lia.
Qed.

Lemma broadcast_aligned_same s : stride_tricks.broadcast_aligned s s = Ok s.
Proof.
  induction s as [|x s IH]; [done|]. simpl.
  by rewrite Nat.eqb_refl, IH, Nat.max_id.
Qed.

Lemma broadcast_shape_same s : stride_tricks.broadcast_shape s s = Ok s.
Proof.
  unfold stride_tricks.broadcast_shape.
  rewrite Nat.max_id, Nat.sub_diag. apply broadcast_aligned_same.
Qed.

Lemma multiples_of_zero (bs ps : shape) st :
  length ps <= length bs -> 0 ∈ ps ->
  multiples_of bs ps st = (Raise ZeroDivisionError, st).
Proof.
  revert bs. induction ps as [|y ps IH]; intros bs Hlen Hin.
  - by apply elem_of_nil in Hin.
  - destruct bs as [|x bs]; simpl in Hlen; [lia|]. simpl.
    destruct (Nat.eqb_spec y 0) as [-> | Hy]; [done|].
    apply elem_of_cons in Hin as [Hin | Hin]; [congruence|].
    unfold bind. by rewrite IH by (done || lia).
Qed.

Lemma multiples_of_same (s : shape) st :
  0 ∉ s -> multiples_of s s st = (Ok (replicate (length s) 1), st).
Proof.
  induction s as [|x s IH]; intros Hz; [done|]. simpl.
  apply not_elem_of_cons in Hz as [Hx Hz].
  destruct (Nat.eqb_spec x 0) as [-> | _]; [done|].
  unfold bind. rewrite IH by done. simpl. by rewrite Nat.div_same by done.
Qed.

Lemma existsb_replicate_ones n :
  existsb (fun multiple => 1 <? multiple) (replicate n 1) = false.
Proof. by induction n. Qed.

(** Line 176 on an empty shard: when the local shape of the input has an
    extent of 0 and the two local shapes broadcast, writing into [out]
    divides by that extent; the call raises [ZeroDivisionError] and nothing
    is written. *)
Theorem local_op_out_empty_shard (operation : buffer -> option buffer -> result buffer)
    st lx lo (tx tout : DNDarray) bs :
  heap st !! lx = Some tx -> heap st !! lo = Some tout ->
  stride_tricks.broadcast_shape (lshape tx) (lshape tout) = Ok bs ->
  0 ∈ lshape tx ->
  local_op operation (PyRef lx) (PyRef lo) st = (Raise ZeroDivisionError, st).
Proof.
  intros Hx Ho Hbs Hz.
  pose proof (lookup_lt_Some _ _ _ Hx) as Hlx.
  pose proof (lookup_lt_Some _ _ _ Ho) as Hlo.
  pose proof (broadcast_shape_length _ _ _ Hbs) as Hlen.
  unfold local_op. run. rewrite !decide_True by done.
  rewrite bool_decide_eq_true_2 by eauto. simpl. rewrite Hx, Ho. simpl.
  rewrite Hbs. rewrite multiples_of_zero; [done | |].
  - rewrite length_app, length_replicate. lia.
  - apply elem_of_app. by right.
Qed.

(** Lines 174-183 when [out] has the local shape of the input and no
    extent is 0: nothing is repeated, the operation is called once, on the
    input's buffer cast to the promoted type, with the buffer of [out] to
    write into. When it returns, [out] is returned and holds what the
    operation wrote; when it raises, that is raised. No event is recorded
    either way. *)
Theorem local_op_out_same_shape (operation : buffer -> option buffer -> result buffer)
    st lx lo (tx tout : DNDarray) :
  heap st !! lx = Some tx -> heap st !! lo = Some tout ->
  lshape tout = lshape tx -> 0 ∉ lshape tx ->
  let p := types.promote_types (dtype tx) types.float32 in
  let call := local_op operation (PyRef lx) (PyRef lo) st in
  trace (snd call) = trace st /\
  match operation (type_ (array tx) p) (Some (array tout)) with
  | Ok written =>
      fst call = Ok (PyRef lo) /\
      heap (snd call) !! lo = Some (set_array tout written)
  | Raise e => fst call = Raise e
  end.
Proof.
  intros Hx Ho Hsame Hz p call. subst call.
  pose proof (lookup_lt_Some _ _ _ Hx) as Hlx.
  pose proof (lookup_lt_Some _ _ _ Ho) as Hlo.
  unfold local_op. run. rewrite !decide_True by done.
  rewrite bool_decide_eq_true_2 by eauto. simpl. rewrite Hx, Ho. simpl.
  rewrite Hsame, broadcast_shape_same, Nat.sub_diag. simpl.
  rewrite multiples_of_same by done. simpl.
  rewrite existsb_replicate_ones. fold p.
  destruct (operation (type_ (array tx) p) (Some (array tout))) as [written | e]; simpl.
  - split; [done|]. split; [done|]. by apply list_lookup_insert_eq.
  - done.
Qed.

End LocalOpFurther.

(** ** One object as both operands of [__binary_op] *)

Section SharedOperand.
Context {R : Runtime}.
Implicit Types (st : state) (l : loc).

(** Lines 88-100 when both operands are the same object, split with
    global extent 1 along its split axis on several processes: the
    replication runs once for each operand position. The object is warned
    about and broadcast twice, and the buffer left by the first broadcast
    is the one the second starts from (replaced by zeros again on ranks
    above 0). When the operation raises, the object stays changed and no
    handle is created. *)
Theorem binary_op_same_operand_replicated_twice operation l (a : DNDarray) st :
  heap st !! l = Some a -> well_formed a -> needs_bcast a = true ->
  let t := set_array a (replicated (set_array a (replicated a))) in
  binary_op operation (PyRef l) (PyRef l) st =
    match local_buffer operation (dtype a) t t with
    | Ok res =>
        (Ok (PyRef (length (heap st))),
         {| heap := <[l := t]> (heap st) ++
                    [{| array := res;
                        gshape := gshape a; dtype := dtype a; split := split a;
                        device := device a; comm := comm a |}];
            trace := trace st ++ [Warn first_operator; Bcast (comm a) l;
                                  Warn second_operator; Bcast (comm a) l]
                              ++ local_events (dtype a) t t |})
    | Raise e =>
        (Raise e,
         {| heap := <[l := t]> (heap st);
            trace := trace st ++ [Warn first_operator; Bcast (comm a) l;
                                  Warn second_operator; Bcast (comm a) l]
                              ++ local_events (dtype a) t t |})
    end.
Proof.
  intros Hl Hwf Hneeds t.
  pose proof (normalize_handles_precise st l l a a (gshape a) Hl Hl Hwf Hwf
                (or_intror eq_refl) (broadcast_shape_same (gshape a))) as Hn.
  simpl in Hn. rewrite !decide_True in Hn by done.
  assert (after_bcast a = set_array a (replicated a)) as Hb1
    by (unfold after_bcast; by rewrite Hneeds).
  assert (after_bcast (after_bcast a) = t) as Hb2.
  { unfold after_bcast at 1. rewrite needs_bcast_after_bcast, Hneeds, Hb1. done. }
  rewrite Hb2 in Hn. rewrite list_insert_insert_eq in Hn.
  assert (cast_operand (dtype t) t = t) as Hcast
    by (unfold cast_operand; by rewrite decide_True).
  rewrite Hcast in Hn.
  unfold bcast_events in Hn. rewrite Hneeds in Hn.
  rewrite (binary_op_run_after _ _ _ _ _ _ Hn); simpl.
  - rewrite length_insert, <- !app_assoc. done.
  - subst t. apply well_formed_set_array; [done|]. unfold replicated. simpl.
    destruct (0 <? MPI.rank (comm a)); [by right|]. left. simpl.
    unfold replicated. simpl. by destruct (0 <? MPI.rank (comm a)).
  - done.
Qed.

End SharedOperand.

(** ** Further properties of [__reduce_op] *)

Section ReduceOpFurther.
Context {R : Runtime}.
Implicit Types (st : state) (l : loc).

(** The sanitation of lines 189-193. *)
Lemma reduce_op_rejects partial_op reduction_op axis keepdim (x out : pyvalue) st :
  (~ is_handle st x ->
     reduce_op x partial_op reduction_op axis keepdim out st = (Raise TypeError, st)) /\
  (is_handle st x -> out <> PyNone -> ~ is_handle st out ->
     reduce_op x partial_op reduction_op axis keepdim out st = (Raise TypeError, st)).
Proof.
  split.
  - intros Hx. unfold reduce_op. run. destruct x as [| | | l |]; try done.
    case_decide; [|done]. exfalso. apply Hx. by exists l.
  - intros (lx & -> & Hlx) Hnone Hout. unfold reduce_op. run.
    rewrite decide_True by done.
    destruct out as [| | | lo |]; try done.
    case_decide; [|done]. exfalso. apply Hout. by exists lo.
Qed.

(** Every call is rejected by the sanitation or computes the closed form
    on the object behind [x]. *)
Lemma reduce_op_runs partial_op reduction_op axis keepdim (x out : pyvalue) st :
  reduce_op x partial_op reduction_op axis keepdim out st = (Raise TypeError, st) \/
  exists lx (tx : DNDarray) (o : option (loc * DNDarray)),
    x = PyRef lx /\ heap st !! lx = Some tx /\
    match o with
    | Some (lo, tout) => out = PyRef lo /\ heap st !! lo = Some tout
    | None => out = PyNone
    end /\
    reduce_op x partial_op reduction_op axis keepdim out st
      = reduce_outcome partial_op reduction_op axis keepdim st tx o.
Proof.
  destruct (reduce_op_rejects partial_op reduction_op axis keepdim x out st) as [Hx _].
  assert (~ is_handle st x \/ exists l t, x = PyRef l /\ heap st !! l = Some t)
    as [Hnx | (lx & tx & -> & Htx)].
  { destruct x as [| | | l |]; try (left; intros (? & ? & ?); done).
    destruct (heap st !! l) as [t|] eqn:Hl; [right; by exists l, t|].
    left. intros (? & [= <-] & Hlt). apply lookup_ge_None in Hl. lia. }
  - left. by apply Hx.
  - destruct (reduce_op_out_cases partial_op reduction_op axis keepdim st lx tx out Htx)
      as [[o Ho] | Herr]; [|by left].
    right. exists lx, tx, o. split; [done|]. split; [done|]. split; [done|].
    by apply reduce_op_closed_form.
Qed.

Lemma sanitize_axis_raises (s : shape) axis e :
  stride_tricks.sanitize_axis s axis = Raise e -> e = AxisError.
Proof.
  destruct axis as [| a | l]; simpl; [done| |].
  - destruct (stride_tricks.normalize_index _ _); [done|]. by intros [= <-].
  - destruct (mapM _ _); [|by intros [= <-]].
    case_bool_decide; [done|]. by intros [= <-].
Qed.

Lemma local_phase_raises partial_op (x : DNDarray) axes keepdim e :
  local_phase partial_op x axes keepdim = Raise e -> e = UnboundLocalError.
Proof.
  unfold local_phase. destruct axes as [dims|]; [|done].
  destruct (reduce_axes partial_op x dims) as [partial [s|]];
    destruct keepdim; try done. by intros [= <-].
Qed.

Lemma tensor_type_raises reduction_op (partial : buffer) e :
  tensor_type reduction_op partial = Raise e ->
  e = IndexError /\ reduction_op ∉ boolean_ops.
Proof.
  unfold tensor_type, first_dtype. case_bool_decide; [done|].
  destruct (tshape partial) as [|n s]; [by intros [= <-]|].
  destruct (n =? 0); [|done]. by intros [= <-].
Qed.

(** The ways the closed form can go. *)
Lemma reduce_outcome_cases partial_op reduction_op axis keepdim st (x : DNDarray)
    (o : option (loc * DNDarray)) :
  (exists e, reduce_outcome partial_op reduction_op axis keepdim st x o = (Raise e, st) /\
             (e = AxisError \/ e = UnboundLocalError \/ e = ValueError)) \/
  (exists axn partial oshape,
     stride_tricks.sanitize_axis (gshape x) axis = Ok axn /\
     local_phase partial_op x (axis_tuple axn) keepdim = Ok (partial, oshape) /\
     match o with Some (_, tout) => gshape tout = oshape | None => True end /\
     let tr := trace st ++ allreduce_events reduction_op x (axis_tuple axn) in
     match tensor_type reduction_op (combined reduction_op x (axis_tuple axn) partial) with
     | Raise e =>
         e = IndexError /\ (reduction_op ∉ boolean_ops) /\
         reduce_outcome partial_op reduction_op axis keepdim st x o
           = (Raise IndexError, {| heap := heap st; trace := tr |})
     | Ok ty =>
         reduce_outcome partial_op reduction_op axis keepdim st x o =
           match o with
           | Some (lo, tout) =>
               (Ok (PyRef lo),
                {| heap := <[lo := reduced reduction_op x (axis_tuple axn) partial ty
                                     (gshape tout)]> (heap st);
                   trace := tr |})
           | None =>
               (Ok (PyRef (length (heap st))),
                {| heap := heap st ++ [reduced reduction_op x (axis_tuple axn) partial ty
                                         oshape];
                   trace := tr |})
           end
     end).
Proof.
  unfold reduce_outcome.
  destruct (stride_tricks.sanitize_axis (gshape x) axis) as [axn|e] eqn:Hax.
  2: { left. exists e. split; [done|]. left. by eapply sanitize_axis_raises. }
  destruct (local_phase partial_op x (axis_tuple axn) keepdim)
    as [[partial oshape]|e] eqn:Hlp.
  2: { left. exists e. split; [done|]. right; left. by eapply local_phase_raises. }
  destruct (match o with Some (_, tout) => bool_decide (gshape tout <> oshape)
                       | None => false end) eqn:Hshape.
  { left. exists ValueError. split; [done|]. right. by right. }
  right. exists axn, partial, oshape. split; [done|]. split; [done|]. split.
  { destruct o as [[lo tout]|]; [|done].
    apply bool_decide_eq_false in Hshape. by destruct (decide (gshape tout = oshape)). }
  cbv zeta.
  destruct (tensor_type reduction_op _) as [ty|e] eqn:Hty.
  - by destruct o as [[lo tout]|].
  - apply tensor_type_raises in Hty as [-> Hnb]. done.
Qed.

(** A call that returns ran every stage of the closed form. *)
Lemma reduce_op_returns partial_op reduction_op axis keepdim (x out : pyvalue) st v st' :
  reduce_op x partial_op reduction_op axis keepdim out st = (Ok v, st') ->
  exists lx (tx : DNDarray) (o : option (loc * DNDarray)) axn partial oshape ty,
    x = PyRef lx /\ heap st !! lx = Some tx /\
    stride_tricks.sanitize_axis (gshape tx) axis = Ok axn /\
    local_phase partial_op tx (axis_tuple axn) keepdim = Ok (partial, oshape) /\
    tensor_type reduction_op (combined reduction_op tx (axis_tuple axn) partial) = Ok ty /\
    trace st' = trace st ++ allreduce_events reduction_op tx (axis_tuple axn) /\
    let r := reduced reduction_op tx (axis_tuple axn) partial ty oshape in
    match o with
    | Some (lo, tout) =>
        out = PyRef lo /\ heap st !! lo = Some tout /\ gshape tout = oshape /\
        v = PyRef lo /\ heap st' = <[lo := r]> (heap st)
    | None =>
        out = PyNone /\ v = PyRef (length (heap st)) /\ heap st' = heap st ++ [r]
    end.
Proof.
  intros Hok.
  destruct (reduce_op_runs partial_op reduction_op axis keepdim x out st)
    as [Herr | (lx & tx & o & -> & Htx & Ho & Heq)]; [congruence|].
  rewrite Heq in Hok.
  destruct (reduce_outcome_cases partial_op reduction_op axis keepdim st tx o)
    as [(e & Hr & _) | (axn & partial & oshape & Hax & Hlp & Hshape & Hrun)];
    [congruence|].
  cbv zeta in Hrun.
  destruct (tensor_type reduction_op _) as [ty|e] eqn:Hty;
    [|destruct Hrun as (_ & _ & Hrun); congruence].
  rewrite Hrun in Hok.
  exists lx, tx, o, axn, partial, oshape, ty.
  do 5 (split; [done|]).
  destruct o as [[lo tout]|]; injection Hok as <- <-; simpl.
  - destruct Ho as [-> Ho]. subst oshape. done.
  - done.
Qed.

Lemma normalize_index_lt n a d :
  stride_tricks.normalize_index n a = Some d -> d < n.
Proof.
  unfold stride_tricks.normalize_index.
  destruct ((- Z.of_nat n <=? a) && (a <? Z.of_nat n))%Z eqn:Hrange; [|done].
  intros [= <-]. apply andb_true_iff in Hrange as [Hlo Hhi].
  apply Z.leb_le in Hlo. apply Z.ltb_lt in Hhi.
  assert (0 < Z.of_nat n)%Z as Hn by lia.
  pose proof (Z.mod_pos_bound a (Z.of_nat n) Hn). lia.
Qed.

Lemma keepdim_shape_single (g : shape) d : keepdim_shape g [d] = <[d := 1]> g.
Proof.
  unfold keepdim_shape. apply list_eq. intros i. rewrite list_lookup_imap.
  destruct (decide (i = d)) as [-> | Hne].
  - destruct (g !! d) as [n|] eqn:Hd; simpl.
    + rewrite bool_decide_eq_true_2 by (by apply list_elem_of_singleton).
      symmetry. apply list_lookup_insert_eq. by eapply lookup_lt_Some.
    + symmetry. apply lookup_ge_None. rewrite length_insert.
      by apply lookup_ge_None.
  - rewrite list_lookup_insert_ne by done.
    destruct (g !! i) as [n|]; [|done]. simpl.
    rewrite bool_decide_eq_false_2; [done|]. by rewrite list_elem_of_singleton.
Qed.

Lemma losedim_shape_from (g : shape) (d k : nat) :
  map snd (filter (fun p => fst p ∉ [d]) (imap (fun i n => (k + i, n)) g))
    = if decide (k <= d) then delete (d - k) g else g.
Proof.
  revert k. induction g as [|n g IH]; intros k; [by case_decide|].
  simpl. rewrite Nat.add_0_r.
  assert (imap ((fun i n0 => (k + i, n0)) ∘ S) g = imap (fun i n0 => (S k + i, n0)) g) as ->.
  { apply imap_ext. intros i y _. simpl. f_equal. lia. }
  specialize (IH (S k)). simpl in IH. rewrite filter_cons. simpl.
  destruct (decide (k = d)) as [-> | Hne].
  - rewrite decide_False by (rewrite list_elem_of_singleton; tauto).
    rewrite IH. rewrite decide_False by lia. rewrite decide_True by lia.
    by rewrite Nat.sub_diag.
  - rewrite decide_True by (by rewrite list_elem_of_singleton).
    simpl. rewrite IH. destruct (decide (k <= d)) as [Hle | Hgt].
    + rewrite decide_True by lia.
      replace (d - k) with (S (d - S k)) by lia. done.
    + by rewrite decide_False by lia.
Qed.

Lemma losedim_shape_single (g : shape) d : losedim_shape g [d] = delete d g.
Proof.
  unfold losedim_shape.
  transitivity (if decide (0 <= d) then delete (d - 0) g else g);
    [exact (losedim_shape_from g d 0)|].
  rewrite decide_True by lia. by rewrite Nat.sub_0_r.
Qed.

Lemma losedim_shape_nil (g : shape) : losedim_shape g [] = g.
Proof.
  unfold losedim_shape.
  assert (forall (f : nat -> nat -> nat * nat),
            (forall i n, snd (f i n) = n) ->
            map snd (filter (fun p => fst p ∉ ([] : list nat)) (imap f g)) = g) as Hgen.
  { induction g as [|n g IH]; intros f Hf; [done|].
    simpl. rewrite Hf. f_equal. apply IH. intros i m. apply Hf. }
  by apply Hgen.
Qed.

(** The sanitation of lines 189-193 comes first: an input that is not a
    handle, or an output that is neither absent nor a handle, is a
    [TypeError] whatever the axis, and nothing is touched. *)
Theorem reduce_op_type_errors partial_op reduction_op axis keepdim (x out : pyvalue) st :
  (~ is_handle st x ->
     reduce_op x partial_op reduction_op axis keepdim out st = (Raise TypeError, st)) /\
  (is_handle st x -> out <> PyNone -> ~ is_handle st out ->
     reduce_op x partial_op reduction_op axis keepdim out st = (Raise TypeError, st)).
Proof. apply reduce_op_rejects. Qed.


(** Line 227 after line 223: when the combine operator is not a Boolean
    one and the partial result has no axis or an empty leading axis,
    [partial[0]] raises [IndexError]. The all-reduce of line 223 has
    already been invoked by then; [out] is not written and no object is
    created. *)
Theorem reduce_op_index_error_after_allreduce partial_op reduction_op axis keepdim st lx
    (tx : DNDarray) (out : pyvalue) (o : option (loc * DNDarray)) axn partial oshape :
  heap st !! lx = Some tx ->
  match o with
  | Some (lo, tout) => out = PyRef lo /\ heap st !! lo = Some tout /\ gshape tout = oshape
  | None => out = PyNone
  end ->
  stride_tricks.sanitize_axis (gshape tx) axis = Ok axn ->
  local_phase partial_op tx (axis_tuple axn) keepdim = Ok (partial, oshape) ->
  reduction_op ∉ boolean_ops ->
  tshape partial = [] \/ (exists s, tshape partial = 0 :: s) ->
  reduce_op (PyRef lx) partial_op reduction_op axis keepdim out st
    = (Raise IndexError,
       {| heap := heap st;
          trace := trace st ++ allreduce_events reduction_op tx (axis_tuple axn) |}).
Proof.
  intros Hx Ho Hax Hlp Hnb Hempty.
  rewrite (reduce_op_closed_form partial_op reduction_op axis keepdim st lx tx out
             (match o with Some (lo, tout) => Some (lo, tout) | None => None end)).
  2: done.
  2: { destruct o as [[lo tout]|]; [|done]. by destruct Ho as (? & ? & ?). }
  unfold reduce_outcome. rewrite Hax. simpl. rewrite Hlp.
  assert (tensor_type reduction_op (combined reduction_op tx (axis_tuple axn) partial)
            = Raise IndexError) as ->.
  { unfold tensor_type, first_dtype. rewrite bool_decide_eq_false_2 by done.
    assert (tshape (combined reduction_op tx (axis_tuple axn) partial) = tshape partial)
      as -> by (unfold combined; by destruct (_ && _)).
    by destruct Hempty as [-> | (s & ->)]. }
  destruct o as [[lo tout]|]; [|done].
  destruct Ho as (_ & _ & ->). by rewrite bool_decide_eq_false_2 by (by intros ?).
Qed.

(** Lines 226-227 and 231/241: a Boolean combine operator makes the
    returned handle Boolean, whatever the type of the buffer; any other
    operator gives it the type of the buffer it holds, whose leading axis
    is then not empty. *)
Theorem reduce_op_result_type partial_op reduction_op axis keepdim (x out : pyvalue)
    st v st' :
  reduce_op x partial_op reduction_op axis keepdim out st = (Ok v, st') ->
  exists l r,
    v = PyRef l /\ heap st' !! l = Some r /\
    (reduction_op ∈ boolean_ops -> dtype r = types.bool) /\
    (reduction_op ∉ boolean_ops ->
       dtype r = tdtype (array r) /\ exists n s, lshape r = S n :: s).
Proof.
  intros Hok.
  destruct (reduce_op_returns _ _ _ _ _ _ _ _ _ Hok)
    as (lx & tx & o & axn & partial & oshape & ty & -> & Htx & Hax & Hlp & Hty & Htr & Hres).
  cbv zeta in Hres.
  assert (exists l, v = PyRef l /\
            heap st' !! l = Some (reduced reduction_op tx (axis_tuple axn) partial ty oshape))
    as (l & -> & Hl).
  { destruct o as [[lo tout]|].
    - destruct Hres as (_ & Hto & _ & -> & ->). exists lo. split; [done|].
      apply list_lookup_insert_eq. by eapply lookup_lt_Some.
    - destruct Hres as (_ & -> & ->). eexists. split; [done|].
      by apply list_lookup_middle. }
  eexists _, _. split; [done|]. split; [exact Hl|]. simpl.
  unfold tensor_type, first_dtype in Hty. split.
  - intros Hb. rewrite bool_decide_eq_true_2 in Hty by done. congruence.
  - intros Hnb. rewrite bool_decide_eq_false_2 in Hty by done.
    unfold lshape. simpl.
    destruct (tshape (combined reduction_op tx (axis_tuple axn) partial))
      as [|n s]; [done|].
    destruct n as [|n]; [done|]. simpl in Hty. injection Hty as <-.
    split; [done|]. by exists n, s.
Qed.


(** Lines 203-213 for a single axis with [keepdim]: the new handle has the
    global shape of the input with extent 1 at the (normalized) axis,
    which is the shape with extent 1 at every reduced axis. *)
Theorem reduce_op_single_axis_keepdim partial_op reduction_op a st lx (tx : DNDarray)
    d v st' :
  heap st !! lx = Some tx ->
  stride_tricks.normalize_index (length (gshape tx)) a = Some d ->
  reduce_op (PyRef lx) partial_op reduction_op (stride_tricks.AxisInt a) true PyNone st
    = (Ok v, st') ->
  exists r, v = PyRef (length (heap st)) /\ heap st' = heap st ++ [r] /\
    gshape r = <[d := 1]> (gshape tx) /\
    gshape r = keepdim_shape (gshape tx) [d] /\
    length (gshape r) = length (gshape tx).
Proof.
  intros Hx Hd Hok.
  destruct (reduce_op_returns _ _ _ _ _ _ _ _ _ Hok)
    as (lx' & tx' & o & axn & partial & oshape & ty & [= <-] & Htx & Hax & Hlp & Hty
        & Htr & Hres).
  assert (tx' = tx) as -> by congruence.
  simpl in Hax. rewrite Hd in Hax. injection Hax as <-.
  pose proof (normalize_index_lt _ _ _ Hd) as Hlt.
  change (axis_tuple (stride_tricks.AxInt d)) with (Some ([] ++ [d])) in Hlp.
  rewrite local_phase_tuple in Hlp. injection Hlp as _ <-.
  cbv zeta in Hres. destruct o as [[lo tout]|]; [by destruct Hres as [? _]|].
  destruct Hres as (_ & -> & ->). eexists. split; [done|]. split; [done|]. simpl.
  assert (take d (gshape tx) ++ 1 :: drop (d + 1) (gshape tx) = <[d := 1]> (gshape tx))
    as ->.
  { rewrite Nat.add_1_r. symmetry. by apply insert_take_drop. }
  split; [done|]. split; [by rewrite keepdim_shape_single | by rewrite length_insert].
Qed.

(** Line 211 and 213 without [keepdim]: over a tuple of axes the new
    handle has the global shape of the input with every reduced axis
    removed. *)
Theorem reduce_op_losedim partial_op reduction_op axis st lx (tx : DNDarray) axn axes
    v st' :
  heap st !! lx = Some tx ->
  stride_tricks.sanitize_axis (gshape tx) axis = Ok axn ->
  axis_tuple axn = Some axes ->
  reduce_op (PyRef lx) partial_op reduction_op axis false PyNone st = (Ok v, st') ->
  exists r, v = PyRef (length (heap st)) /\ heap st' = heap st ++ [r] /\
    gshape r = losedim_shape (gshape tx) axes.
Proof.
  intros Hx Hax Haxes Hok.
  destruct (reduce_op_returns _ _ _ _ _ _ _ _ _ Hok)
    as (lx' & tx' & o & axn' & partial & oshape & ty & [= <-] & Htx & Hax' & Hlp & Hty
        & Htr & Hres).
  assert (tx' = tx) as -> by congruence.
  assert (axn' = axn) as -> by congruence.
  rewrite Haxes in Hlp. unfold local_phase in Hlp.
  destruct (reduce_axes partial_op tx axes) as [p sk]. injection Hlp as _ <-.
  cbv zeta in Hres. destruct o as [[lo tout]|]; [by destruct Hres as [? _]|].
  destruct Hres as (_ & -> & ->). eexists. split; [done|]. split; [done|]. simpl.
  apply shape_losedim_spec.
Qed.

(** Lines 197, 211 and 220: reducing a split array over one axis other
    than its split axis, without [keepdim], hands the split axis number of
    the input on as it is, while the reduced axis is removed from the
    global shape; a split axis behind the reduced one is not renumbered. *)
Theorem reduce_op_split_number_kept partial_op reduction_op a st lx (tx : DNDarray)
    s d v st' :
  heap st !! lx = Some tx ->
  split tx = Some s ->
  stride_tricks.normalize_index (length (gshape tx)) a = Some d ->
  d <> s ->
  reduce_op (PyRef lx) partial_op reduction_op (stride_tricks.AxisInt a) false PyNone st
    = (Ok v, st') ->
  exists r, v = PyRef (length (heap st)) /\ heap st' = heap st ++ [r] /\
    split r = Some s /\
    gshape r = delete d (gshape tx) /\
    S (length (gshape r)) = length (gshape tx) /\
    trace st' = trace st.
Proof.
  intros Hx Hs Hd Hne Hok.
  destruct (reduce_op_returns _ _ _ _ _ _ _ _ _ Hok)
    as (lx' & tx' & o & axn & partial & oshape & ty & [= <-] & Htx & Hax & Hlp & Hty
        & Htr & Hres).
  assert (tx' = tx) as -> by congruence.
  simpl in Hax. rewrite Hd in Hax. injection Hax as <-.
  pose proof (normalize_index_lt _ _ _ Hd) as Hlt.
  change (axis_tuple (stride_tricks.AxInt d)) with (Some ([] ++ [d])) in Hlp.
  rewrite local_phase_tuple in Hlp. injection Hlp as _ <-.
  assert (across_split tx (Some [d]) = false) as Hacross.
  { unfold across_split. rewrite Hs. apply bool_decide_eq_false.
    rewrite list_elem_of_singleton. congruence. }
  cbv zeta in Hres. destruct o as [[lo tout]|]; [by destruct Hres as [? _]|].
  destruct Hres as (_ & -> & ->). eexists. split; [done|]. split; [done|].
  simpl in *. unfold allreduce_events in Htr. rewrite Hacross in *. simpl in Htr.
  rewrite app_nil_r in Htr. rewrite losedim_shape_single.
  split; [done|]. split; [done|]. split; [|done].
  rewrite length_delete by (by apply lookup_lt_is_Some). lia.
Qed.

(** Lines 206-213 for an empty tuple of axes: the loop body never runs.
    With [keepdim] reading [shape_keepdim] fails and nothing is touched;
    without it the new handle holds the buffer of the input as it is,
    with the input's global shape and split axis, and nothing is
    communicated. *)
Theorem reduce_op_empty_axis_tuple partial_op reduction_op axis st lx (tx : DNDarray) :
  heap st !! lx = Some tx ->
  stride_tricks.sanitize_axis (gshape tx) axis = Ok (stride_tricks.AxTuple []) ->
  reduce_op (PyRef lx) partial_op reduction_op axis true PyNone st
    = (Raise UnboundLocalError, st) /\
  (forall ty,
     tensor_type reduction_op (array tx) = Ok ty ->
     reduce_op (PyRef lx) partial_op reduction_op axis false PyNone st
       = (Ok (PyRef (length (heap st))),
          {| heap := heap st ++ [{| array := array tx; gshape := gshape tx; dtype := ty;
                                    split := split tx; device := device tx;
                                    comm := comm tx |}];
             trace := trace st |})).
Proof.
  intros Hx Hax. split.
  - rewrite (reduce_op_closed_form _ _ _ _ _ _ _ _ None Hx eq_refl).
    unfold reduce_outcome. by rewrite Hax.
  - intros ty Hty.
    rewrite (reduce_op_closed_form _ _ _ _ _ _ _ _ None Hx eq_refl).
    unfold reduce_outcome. rewrite Hax. simpl.
    assert (across_split tx (Some []) = false) as Hacross.
    { unfold across_split. destruct (split tx); [|done].
      apply bool_decide_eq_false, not_elem_of_nil. }
    unfold combined, allreduce_events, reduced, combined. rewrite Hacross. simpl.
    rewrite Hty, app_nil_r, shape_losedim_spec, losedim_shape_nil. done.
Qed.

(** Lines 199-201 and 220-223 for [axis=None]: whatever [keepdim] says,
    the new handle is unsplit with global shape (1,). Its buffer is the
    result of one call of the partial operation on the whole local
    buffer, flattened to one axis: it has the type and the elements of
    that result, or the elements the all-reduce delivered into it, which
    is invoked exactly when the input is split on a communicator of
    several processes. *)
Theorem reduce_op_axis_none partial_op reduction_op keepdim st lx (tx : DNDarray) v st' :
  heap st !! lx = Some tx ->
  reduce_op (PyRef lx) partial_op reduction_op stride_tricks.AxisNone keepdim PyNone st
    = (Ok v, st') ->
  let whole := partial_op (array tx) None in
  let distributed := bool_decide (is_Some (split tx)) && MPI.is_distributed (comm tx) in
  exists r, v = PyRef (length (heap st)) /\ heap st' = heap st ++ [r] /\
    gshape r = [1] /\ split r = None /\
    lshape r = [numel (tshape whole)] /\
    tdtype (array r) = tdtype whole /\
    tdata (array r) =
      (if distributed
       then Allreduce_recv (comm tx) reduction_op
              {| tshape := [numel (tshape whole)]; tdtype := tdtype whole;
                 tdata := tdata whole |}
       else tdata whole) /\
    trace st' = trace st ++
      (if distributed then [Allreduce (comm tx) reduction_op] else []).
Proof.
  intros Hx Hok whole distributed. subst whole distributed.
  destruct (reduce_op_returns _ _ _ _ _ _ _ _ _ Hok)
    as (lx' & tx' & o & axn & partial & oshape & ty & [= <-] & Htx & Hax & Hlp & Hty
        & Htr & Hres).
  assert (tx' = tx) as -> by congruence.
  simpl in Hax. injection Hax as <-. simpl in Hlp. injection Hlp as <- <-.
  cbv zeta in Hres. destruct o as [[lo tout]|]; [by destruct Hres as [? _]|].
  destruct Hres as (_ & -> & ->). eexists. split; [done|]. split; [done|].
  rewrite Htr. unfold allreduce_events, reduced, combined, across_split, lshape. simpl.
  destruct (split tx) as [s|]; simpl; [|done].
  by destruct (MPI.is_distributed (comm tx)).
Qed.

End ReduceOpFurther.

(** ** The further properties on concrete operands *)

Section FurtherExamples.
#[local] Existing Instance Zrt.runtime.

Lemma edge_objects_well_formed : Forall well_formed (heap Edge.initial).
Proof. repeat constructor; simpl; lia. Defined.

(** The float 7 plus rank 0's shard of a 2x3 integer array split along
    axis 1: an integer array with the layout of the array. *)
Lemma binary_op_scalar_then_handle_witness :
  binary_op Zrt.add (PyNum types.float32 7%Z) (PyRef 3) Examples.initial =
    (Ok (PyRef 8),
     {| heap := heap Examples.initial ++
                [Examples.handle (Examples.ints [2; 2] [8; 9; 11; 12]%Z) [2; 3] (Some 1)
                   (Examples.world2 0)];
        trace := [Apply (Examples.ints [1] [7]%Z) (Examples.ints [2; 2] [1; 2; 4; 5]%Z)] |}).
Proof.
  exact (binary_op_scalar_then_handle (R := Zrt.runtime) Zrt.add types.float32 7%Z 3 _
           Examples.initial eq_refl).
Defined.

(** The empty shard of a split integer array plus 5: the operation is not
    invoked, the result is the empty shard. *)
Lemma binary_op_handle_then_scalar_witness :
  binary_op Zrt.add (PyRef 1) (PyNum types.int32 5%Z) Edge.initial =
    (Ok (PyRef 7),
     {| heap := heap Edge.initial ++
                [Examples.handle (Examples.ints [0; 3] []) [1; 3] (Some 0)
                   (Examples.world2 1)];
        trace := [] |}).
Proof.
  refine (binary_op_handle_then_scalar (R := Zrt.runtime) Zrt.add 1 _ types.int32 5%Z
            Edge.initial eq_refl _).
  split; [reflexivity | simpl; lia].
Defined.

(** Rank 0's shard of a 4-element float array split along axis 0 plus an
    unsplit float array of one element. *)
Lemma binary_op_handles_without_replication_witness :
  binary_op Zrt.add (PyRef 6) (PyRef 4) Examples.initial =
    (Ok (PyRef 8),
     {| heap := heap Examples.initial ++
                [Examples.handle (Examples.floats [2] [-6; -5]%Z) [4] (Some 0)
                   (Examples.world2 0)];
        trace := [Apply (Examples.floats [2] [3; 4]%Z) (Examples.floats [1] [-9]%Z)] |}).
Proof.
  refine (binary_op_handles_without_replication (R := Zrt.runtime) Zrt.add 6 4 _ _ [4]
            Examples.initial eq_refl eq_refl _ _ _ eq_refl eq_refl eq_refl).
  - split; [reflexivity | simpl; lia].
  - split; [reflexivity | exact I].
  - left. reflexivity.
Defined.

(** On rank 1 of 2, the empty shard of a float array of global shape (1,)
    split along axis 0 plus an unsplit float array: the shard is replaced
    by the received buffer. *)
Lemma binary_op_replicates_first_operand_witness :
  binary_op Zrt.add (PyRef 1) (PyRef 4) Examples.initial =
    (Ok (PyRef 8),
     {| heap := <[1 := Examples.handle (Examples.floats [1] [0]%Z) [1] (Some 0)
                         (Examples.world2 1)]> (heap Examples.initial) ++
                [Examples.handle (Examples.floats [1] [-9]%Z) [1] (Some 0)
                   (Examples.world2 1)];
        trace := [Warn first_operator; Bcast (Examples.world2 1) 1;
                  Apply (Examples.floats [1] [0]%Z) (Examples.floats [1] [-9]%Z)] |}).
Proof.
  refine (binary_op_replicates_first_operand (R := Zrt.runtime) Zrt.add 1 4 _ _ [1]
            Examples.initial eq_refl eq_refl _ _ eq_refl eq_refl eq_refl).
  - split; [reflexivity | simpl; lia].
  - split; [reflexivity | exact I].
Defined.

(** Rank 0's shard, of local shape (2, 2), of a 2x3 array split along
    axis 1 plus an unsplit 2x3 array: the dispatcher accepts the operands,
    the sum of the two local buffers raises, and that is raised. With the
    operands exchanged the dispatcher refuses, and the state is as it
    was. *)
Lemma binary_op_raises_before_effects_witness :
  binary_op Zrt.add (PyRef 3) (PyRef 0) Examples.initial
    = (Raise RuntimeError,
       {| heap := heap Examples.initial;
          trace := [Apply (Examples.ints [2; 2] [1; 2; 4; 5]%Z)
                          (Examples.ints [2; 3] [1; 2; 3; 4; 5; 6]%Z)] |}) /\
  binary_op Zrt.add (PyRef 0) (PyRef 3) Examples.initial
    = (Raise NotImplementedError, Examples.initial) /\
  (exists a b pre, Zrt.add a b = Raise RuntimeError /\
     trace (snd (binary_op Zrt.add (PyRef 3) (PyRef 0) Examples.initial))
       = trace Examples.initial ++ pre ++ [Apply a b]).
Proof.
  split; [reflexivity|]. split; [reflexivity|].
  destruct (binary_op_raises_before_effects (R := Zrt.runtime) Zrt.add (PyRef 3) (PyRef 0)
              Examples.initial RuntimeError
              (snd (binary_op (R := Zrt.runtime) Zrt.add (PyRef 3) (PyRef 0)
                      Examples.initial))
              objects_well_formed eq_refl)
    as [[_ [He | [He | He]]] | (a & b & pre & Hop & Htr & _)];
    [discriminate He | discriminate He | discriminate He |].
  exists a, b, pre. split; [exact Hop | exact Htr].
Defined.

(** The replication of the example above changes a buffer and no layout. *)
Lemma binary_op_keeps_layouts_witness :
  let st := Examples.initial in
  let st' := snd (binary_op Zrt.add (PyRef 1) (PyRef 4) st) in
  binary_op Zrt.add (PyRef 1) (PyRef 4) st = (Ok (PyRef 8), st') /\
  length (heap st') = 9 /\
  layouts_kept st st' /\
  Forall well_formed (take 8 (heap st')).
Proof.
  intros st st'. split; [reflexivity|].
  destruct (binary_op_keeps_layouts (R := Zrt.runtime) Zrt.add (PyRef 1) (PyRef 4) st
              (PyRef 8) st' objects_well_formed eq_refl)
    as (_ & Hlen & Hkept & Hwf & _).
  split; [exact Hlen|]. split; [exact Hkept | exact Hwf].
Defined.

(** A list as input, and a list as output, of the absolute value. *)
Lemma local_op_type_errors_witness :
  local_op Zrt.abs PyObj PyNone Examples.initial = (Raise TypeError, Examples.initial) /\
  local_op Zrt.abs (PyRef 0) PyObj Examples.initial = (Raise TypeError, Examples.initial).
Proof.
  split.
  - apply (proj1 (local_op_type_errors (R := Zrt.runtime) Zrt.abs PyObj PyNone
                    Examples.initial)).
    intros (l & Hl & _). discriminate Hl.
  - apply (proj2 (local_op_type_errors (R := Zrt.runtime) Zrt.abs (PyRef 0) PyObj
                    Examples.initial)).
    + exists 0. split; [reflexivity | simpl; lia].
    + discriminate.
    + intros (l & Hl & _). discriminate Hl.
Defined.

(** The absolute value of a float array written into a double array:
    the operation raises, and that is raised. *)
Lemma local_op_raises_before_effects_witness :
  local_op Zrt.abs (PyRef 4) (PyRef 5) Examples.initial
    = (Raise RuntimeError, Examples.initial) /\
  exists a o, Zrt.abs a o = Raise RuntimeError /\
    layouts_kept Examples.initial Examples.initial.
Proof.
  split; [reflexivity|].
  destruct (local_op_raises_before_effects (R := Zrt.runtime) Zrt.abs (PyRef 4) (PyRef 5)
              Examples.initial RuntimeError Examples.initial eq_refl)
    as [[_ [He | [He | He]]] | (a & o & Hop & _ & Hkept)];
    [discriminate He | discriminate He | discriminate He |].
  exists a, o. split; [exact Hop | exact Hkept].
Defined.

(** The square of a float array copied into a double array. *)
Lemma local_op_is_local_witness :
  let st := Examples.initial in
  let st' := snd (local_op Zrt.square (PyRef 4) (PyRef 5) st) in
  local_op Zrt.square (PyRef 4) (PyRef 5) st = (Ok (PyRef 5), st') /\
  trace st' = trace st /\
  layouts_kept st st'.
Proof.
  intros st st'. split; [reflexivity|].
  exact (local_op_is_local (R := Zrt.runtime) Zrt.square (PyRef 4) (PyRef 5) st
           (Ok (PyRef 5)) st' eq_refl).
Defined.

(** The empty shard of local shape (0, 3) written into an array of shape
    (1, 3). *)
Lemma local_op_out_empty_shard_witness :
  local_op Zrt.abs (PyRef 1) (PyRef 2) Edge.initial
    = (Raise ZeroDivisionError, Edge.initial).
Proof.
  refine (local_op_out_empty_shard (R := Zrt.runtime) Zrt.abs Edge.initial 1 2 _ _ [1; 3]
            eq_refl eq_refl eq_refl _).
  apply elem_of_cons. left. reflexivity.
Defined.

(** The absolute value of the float array (-9) written into its own
    handle. *)
Lemma local_op_out_same_shape_witness :
  let call := local_op Zrt.abs (PyRef 4) (PyRef 4) Examples.initial in
  trace (snd call) = [] /\
  fst call = Ok (PyRef 4) /\
  heap (snd call) !! 4
    = Some (Examples.handle (Examples.floats [1] [9]%Z) [1] None Examples.world1).
Proof.
  refine (local_op_out_same_shape (R := Zrt.runtime) Zrt.abs Examples.initial 4 4 _ _
            eq_refl eq_refl eq_refl _).
  intros Hin. apply list_elem_of_singleton in Hin. discriminate Hin.
Defined.

(** A list as input, and a list as output, of a sum. *)
Lemma reduce_op_type_errors_witness :
  reduce_op PyObj Zrt.sum MPI.SUM stride_tricks.AxisNone false PyNone Examples.initial
    = (Raise TypeError, Examples.initial) /\
  reduce_op (PyRef 0) Zrt.sum MPI.SUM stride_tricks.AxisNone false PyObj Examples.initial
    = (Raise TypeError, Examples.initial).
Proof.
  split.
  - apply (proj1 (reduce_op_type_errors (R := Zrt.runtime) Zrt.sum MPI.SUM
                    stride_tricks.AxisNone false PyObj PyNone Examples.initial)).
    intros (l & Hl & _). discriminate Hl.
  - apply (proj2 (reduce_op_type_errors (R := Zrt.runtime) Zrt.sum MPI.SUM
                    stride_tricks.AxisNone false (PyRef 0) PyObj Examples.initial)).
    + exists 0. split; [reflexivity | simpl; lia].
    + discriminate.
    + intros (l & Hl & _). discriminate Hl.
Defined.


(** Summing rank 0's shard, of local shape (0, 2), of an array of global
    shape (0, 4) along its split axis on two processes: the all-reduce is
    invoked, then the type of the partial result cannot be read. *)
Lemma reduce_op_index_error_after_allreduce_witness :
  reduce_op (PyRef 0) Zrt.sum MPI.SUM (stride_tricks.AxisInt 1%Z) false PyNone Edge.initial
    = (Raise IndexError,
       {| heap := heap Edge.initial;
          trace := [Allreduce (Examples.world2 0) MPI.SUM] |}).
Proof.
  refine (reduce_op_index_error_after_allreduce (R := Zrt.runtime) Zrt.sum MPI.SUM
            (stride_tricks.AxisInt 1%Z) false Edge.initial 0 _ PyNone None
            (stride_tricks.AxInt 1) (Examples.floats [0; 1] []) [0]
            eq_refl eq_refl eq_refl eq_refl _ _).
  - intros Hin. repeat (apply elem_of_cons in Hin as [Hin | Hin]; [discriminate Hin|]).
    by apply elem_of_nil in Hin.
  - right. exists [1]. reflexivity.
Defined.

(** The sum over everything of a float shard is a float array. *)
Lemma reduce_op_result_type_witness :
  let st := Examples.initial in
  let st' := snd (reduce_op (PyRef 6) Zrt.sum MPI.SUM stride_tricks.AxisNone false PyNone st) in
  reduce_op (PyRef 6) Zrt.sum MPI.SUM stride_tricks.AxisNone false PyNone st
    = (Ok (PyRef 8), st') /\
  exists l r, PyRef 8 = PyRef l /\ heap st' !! l = Some r /\
    dtype r = tdtype (array r) /\ exists n s, lshape r = S n :: s.
Proof.
  intros st st'. split; [reflexivity|].
  destruct (reduce_op_result_type (R := Zrt.runtime) Zrt.sum MPI.SUM stride_tricks.AxisNone
              false (PyRef 6) PyNone st (PyRef 8) st' eq_refl)
    as (l & r & Hv & Hl & _ & Hnb).
  exists l, r. split; [exact Hv|]. split; [exact Hl|]. apply Hnb.
  intros Hin. repeat (apply elem_of_cons in Hin as [Hin | Hin]; [discriminate Hin|]).
  by apply elem_of_nil in Hin.
Defined.


(** The sum of an unsplit 2x3x4 array over axis -2 with [keepdim]. *)
Lemma reduce_op_single_axis_keepdim_witness :
  let st := Examples.initial in
  let st' := snd (reduce_op (PyRef 2) Zrt.sum MPI.SUM (stride_tricks.AxisInt (-2)%Z) true PyNone
                    st) in
  exists r, PyRef 8 = PyRef (length (heap st)) /\ heap st' = heap st ++ [r] /\
    gshape r = [2; 1; 4] /\
    gshape r = keepdim_shape [2; 3; 4] [1] /\
    length (gshape r) = 3.
Proof.
  intros st st'.
  exact (reduce_op_single_axis_keepdim (R := Zrt.runtime) Zrt.sum MPI.SUM (-2)%Z st 2 _ 1
           (PyRef 8) st' eq_refl eq_refl eq_refl).
Defined.

(** The sum of an unsplit 2x3x4 array over axes 0 and 2. *)
Lemma reduce_op_losedim_witness :
  let st := Examples.initial in
  let st' := snd (reduce_op (PyRef 2) Zrt.sum MPI.SUM (stride_tricks.AxisTuple [0; 2]%Z) false
                    PyNone st) in
  exists r, PyRef 8 = PyRef (length (heap st)) /\ heap st' = heap st ++ [r] /\
    gshape r = [3].
Proof.
  intros st st'.
  exact (reduce_op_losedim (R := Zrt.runtime) Zrt.sum MPI.SUM
           (stride_tricks.AxisTuple [0; 2]%Z) st 2 _ (stride_tricks.AxTuple [0; 2]) [0; 2]
           (PyRef 8) st' eq_refl eq_refl eq_refl eq_refl).
Defined.

(** The sum over axis 0 of a 2x3 array split along axis 1: the result has
    the global shape (3,) and the split axis 1. *)
Lemma reduce_op_split_number_kept_witness :
  let st := Examples.initial in
  let st' := snd (reduce_op (PyRef 3) Zrt.sum MPI.SUM (stride_tricks.AxisInt 0%Z) false PyNone
                    st) in
  exists r, PyRef 8 = PyRef (length (heap st)) /\ heap st' = heap st ++ [r] /\
    split r = Some 1 /\
    gshape r = [3] /\
    S (length (gshape r)) = 2 /\
    trace st' = trace st.
Proof.
  intros st st'.
  refine (reduce_op_split_number_kept (R := Zrt.runtime) Zrt.sum MPI.SUM 0%Z st 3 _ 1 0
            (PyRef 8) st' eq_refl eq_refl eq_refl _ eq_refl).
  discriminate.
Defined.

(** The sum of an unsplit 2x3 array over no axis. *)
Lemma reduce_op_empty_axis_tuple_witness :
  reduce_op (PyRef 0) Zrt.sum MPI.SUM (stride_tricks.AxisTuple []) true PyNone Examples.initial
    = (Raise UnboundLocalError, Examples.initial) /\
  reduce_op (PyRef 0) Zrt.sum MPI.SUM (stride_tricks.AxisTuple []) false PyNone Examples.initial
    = (Ok (PyRef 8),
       {| heap := heap Examples.initial ++
                  [Examples.handle (Examples.ints [2; 3] [1; 2; 3; 4; 5; 6]%Z) [2; 3] None
                     Examples.world1];
          trace := [] |}).
Proof.
  destruct (reduce_op_empty_axis_tuple (R := Zrt.runtime) Zrt.sum MPI.SUM
              (stride_tricks.AxisTuple []) Examples.initial 0 _ eq_refl eq_refl)
    as [Hkeep Hlose].
  split; [exact Hkeep|]. exact (Hlose types.int32 eq_refl).
Defined.

(** On rank 1 of 2, the empty shard of a float array of global shape (1,)
    split along axis 0, added to itself. *)
Lemma binary_op_same_operand_replicated_twice_witness :
  binary_op Zrt.add (PyRef 1) (PyRef 1) Examples.initial =
    (Ok (PyRef 8),
     {| heap := <[1 := Examples.handle (Examples.floats [1] [0]%Z) [1] (Some 0)
                         (Examples.world2 1)]> (heap Examples.initial) ++
                [Examples.handle (Examples.floats [1] [0]%Z) [1] (Some 0)
                   (Examples.world2 1)];
        trace := [Warn first_operator; Bcast (Examples.world2 1) 1;
                  Warn second_operator; Bcast (Examples.world2 1) 1;
                  Apply (Examples.floats [1] [0]%Z) (Examples.floats [1] [0]%Z)] |}).
Proof.
  refine (binary_op_same_operand_replicated_twice (R := Zrt.runtime) Zrt.add 1 _
            Examples.initial eq_refl _ eq_refl).
  split; [reflexivity | simpl; lia].
Defined.

(** The sum over everything of rank 0's shard of a 4-element float array
    split along axis 0, with [keepdim]. *)
Lemma reduce_op_axis_none_witness :
  let st := Examples.initial in
  let st' := snd (reduce_op (PyRef 6) Zrt.sum MPI.SUM stride_tricks.AxisNone true PyNone st) in
  exists r, PyRef 8 = PyRef (length (heap st)) /\ heap st' = heap st ++ [r] /\
    gshape r = [1] /\ split r = None /\ lshape r = [1] /\
    tdtype (array r) = types.float32 /\
    tdata (array r) = [14]%Z /\
    trace st' = trace st ++ [Allreduce (Examples.world2 0) MPI.SUM].
Proof.
  intros st st'.
  exact (reduce_op_axis_none (R := Zrt.runtime) Zrt.sum MPI.SUM true st 6 _ (PyRef 8) st'
           eq_refl eq_refl).
Defined.

End FurtherExamples.

